(** * The hOn switch integration: a shallow embedding

    Embedding of [custom_components/hon/__init__.py] and
    [custom_components/hon/switch.py].  Python objects that the integration
    mutates in place (the device, the host registry, the logger) are threaded
    through an explicit state; a raised exception is a result value, and the
    state reached before the raise is kept, as in Python. *)

From Stdlib Require Import ZArith.
From stdpp Require Import gmap strings list fin_maps.

Open Scope string_scope.
Open Scope list_scope.

(** ** Python values, exceptions and results *)

Module Py.

Inductive value : Type :=
| VNone
| VBool (b : bool)
| VInt (z : Z)
| VStr (s : string).

#[global] Instance value_eq_dec : EqDecision value.
Proof. solve_decision. Defined.

(** Python's [==] on the values above: [bool] is a subclass of [int], so
    [True == 1]; a string never equals a number; [None] equals itself. *)
Definition py_eq (a b : value) : bool :=
  match a, b with
  | VNone, VNone => true
  | VBool x, VBool y => bool_decide (x = y)
  | VBool x, VInt y | VInt y, VBool x => (y =? (if x then 1 else 0))%Z
  | VInt x, VInt y => (x =? y)%Z
  | VStr x, VStr y => bool_decide (x = y)
  | _, _ => false
  end.

Definition py_ne (a b : value) : bool := negb (py_eq a b).

(** [x is not None] *)
Definition is_not_None (a : value) : bool :=
  match a with VNone => false | _ => true end.

(** The exception classes the code distinguishes.  [CancelledError] derives
    from [BaseException] only, so [except Exception] lets it through. *)
Inductive exn_class : Type :=
| KeyError
| ValueError
| RuntimeError
| CancelledError
| OtherException (name : string).

#[global] Instance exn_class_eq_dec : EqDecision exn_class.
Proof. solve_decision. Defined.

(** An exception object: its class and [str(e)]. *)
Record exn : Type := Exn { exn_cls : exn_class; exn_str : string }.

#[global] Instance exn_eq_dec : EqDecision exn.
Proof. solve_decision. Defined.

Definition isinstance_Exception (e : exn) : bool :=
  match exn_cls e with CancelledError => false | _ => true end.

Definition isinstance_ValueError (e : exn) : bool :=
  match exn_cls e with ValueError => true | _ => false end.

Inductive result (A : Type) : Type :=
| Ok (a : A)
| Raise (e : exn).
Arguments Ok {A} a.
Arguments Raise {A} e.

(** [needle in haystack] on strings. *)
Fixpoint contains (needle haystack : string) : bool :=
  String.prefix needle haystack
  || match haystack with
     | EmptyString => false
     | String _ rest => contains needle rest
     end.

End Py.
Export Py.

(** ** The [logging] module *)

Module Logging.

Inductive level : Type := DEBUG | INFO | WARNING | ERROR.

#[global] Instance level_eq_dec : EqDecision level.
Proof. solve_decision. Defined.

(** A record keeps the level, the format string and, when one of the
    arguments is a caught exception, that exception. *)
Record record : Type :=
  LogRecord { r_level : level; r_msg : string; r_exc : option exn }.

#[global] Instance record_eq_dec : EqDecision record.
Proof. solve_decision. Defined.

End Logging.
Export Logging.

(** ** State and exceptions *)

Module Eff.
Section WithState.
Context {St : Type}.

Definition M (A : Type) : Type := St → result A * St.

Definition ret {A} (a : A) : M A := λ s, (Ok a, s).

Definition bind {A B} (c : M A) (k : A → M B) : M B :=
  λ s, match c s with
       | (Ok a, s') => k a s'
       | (Raise e, s') => (Raise e, s')
       end.

Definition raise {A} (e : exn) : M A := λ s, (Raise e, s).

Definition gets {A} (f : St → A) : M A := λ s, (Ok (f s), s).

Definition modify (f : St → St) : M unit := λ s, (Ok tt, f s).

(** The [except] clauses of a [try], in order: the first clause whose
    class test accepts the exception handles it; with none, the
    exception propagates.  An exception raised by a handler is not
    offered to the later clauses. *)
Fixpoint dispatch {A} (clauses : list ((exn → bool) * (exn → M A)))
    (e : exn) : M A :=
  match clauses with
  | [] => raise e
  | (accepts, handler) :: rest =>
      if accepts e then handler e else dispatch rest e
  end.

(** [try: body  except ...] *)
Definition try_except {A} (body : M A)
    (clauses : list ((exn → bool) * (exn → M A))) : M A :=
  λ s, match body s with
       | (Ok a, s') => (Ok a, s')
       | (Raise e, s') => dispatch clauses e s'
       end.

(** [for x in xs: body x] *)
Fixpoint for_each {A} (xs : list A) (body : A → M unit) : M unit :=
  match xs with
  | [] => ret tt
  | x :: rest => bind (body x) (λ _, for_each rest body)
  end.

(** [d[k]] on a dict: [KeyError] when the key is missing. *)
Definition getitem {V} (d : gmap string V) (k : string) : M V :=
  match d !! k with
  | Some v => ret v
  | None => raise (Exn KeyError k)
  end.

(** An external call whose outcome is given: it raises, or it returns and
    its effect [f] takes place. *)
Definition external (outcome : option exn) (f : St → St) : M unit :=
  match outcome with
  | Some e => raise e
  | None => modify f
  end.

End WithState.
Arguments M : clear implicits.

(** [c] never changes the [proj] part of the state, whatever it returns
    or raises. *)
Definition preserves {St X A} (proj : St → X) (c : M St A) : Prop :=
  ∀ s, proj (c s).2 = proj s.
End Eff.
Export Eff.

Declare Scope eff_scope.
Delimit Scope eff_scope with eff.
Notation "x <- c ;; k" := (Eff.bind c (λ x, k))
  (at level 100, c at next level, right associativity) : eff_scope.
Notation "c ;;; k" := (Eff.bind c (λ _, k))
  (at level 100, right associativity) : eff_scope.
Open Scope eff_scope.

(** ** The vendor library's objects ([pyhon]) *)

Module Pyhon.

(** The parameter classes.  [HonParameter] is the base class; the others
    derive from it.  Only [HonParameterRange] has [min], [max] and
    [values].  The classes belong to the vendor library: an assignment to
    [value] goes through the property setter of the parameter's class
    ([assign_value] below), which validates what it is given. *)
Inductive HonParam : Type :=
| HonParameter (value : value)
| HonParameterRange (value min max : value) (values : list string)
| HonParameterFixed (value : value)
| HonParameterEnum (value : value) (values : list string).

#[global] Instance HonParam_eq_dec : EqDecision HonParam.
Proof. solve_decision. Defined.

(** [type(setting) == HonParameter] *)
Definition type_is_HonParameter (p : HonParam) : bool :=
  match p with HonParameter _ => true | _ => false end.

(** [isinstance(setting, HonParameterRange)] *)
Definition isinstance_HonParameterRange (p : HonParam) : bool :=
  match p with HonParameterRange _ _ _ _ => true | _ => false end.

(** [setting.value] *)
Definition param_value (p : HonParam) : value :=
  match p with
  | HonParameter v | HonParameterRange v _ _ _
  | HonParameterFixed v | HonParameterEnum v _ => v
  end.

(** [getattr(setting, "min")], [None] standing for [hasattr] being false. *)
Definition param_min (p : HonParam) : option value :=
  match p with HonParameterRange _ mn _ _ => Some mn | _ => None end.

Definition param_max (p : HonParam) : option value :=
  match p with HonParameterRange _ _ mx _ => Some mx | _ => None end.

(** [setting.values], read on a range only. *)
Definition param_values (p : HonParam) : list string :=
  match p with
  | HonParameterRange _ _ _ vs | HonParameterEnum _ vs => vs
  | _ => []
  end.

(** [setting._value = v]: the store a property setter performs once it has
    accepted [v]. *)
Definition set_param_value (p : HonParam) (v : value) : HonParam :=
  match p with
  | HonParameter _ => HonParameter v
  | HonParameterRange _ mn mx vs => HonParameterRange v mn mx vs
  | HonParameterFixed _ => HonParameterFixed v
  | HonParameterEnum _ vs => HonParameterEnum v vs
  end.

(** [setting.value = v].  The setter of the parameter's class first
    validates [v] against the parameter (a range against its bounds and
    step, an enumeration against its values) and raises, storing nothing,
    when it rejects it.  The validation is the vendor's: [rejected p v] is
    the exception it raises on [v] for [p], [None] when it accepts [v]. *)
Definition assign_value (rejected : HonParam → value → option exn)
    (p : HonParam) (v : value) : result HonParam :=
  match rejected p v with
  | Some e => Raise e
  | None => Ok (set_param_value p v)
  end.

(** The appliance object the entities hold as [self._device].
    [attributes] is what [device.get(item)] and [device.attributes[item]]
    resolve against; [commands] holds the keys of the command dict. *)
Record HonAppliance : Type := Appliance {
  nick_name : string;
  appliance_type : string;
  attributes : gmap string value;
  settings : gmap string HonParam;
  available_settings : list string;
  commands : list string;
  connection : bool;
}.

(** [device.get(item, default)] *)
Definition device_get (d : HonAppliance) (item : string) (dflt : value) : value :=
  default dflt (attributes d !! item).

Definition with_attributes (f : gmap string value → gmap string value)
    (d : HonAppliance) : HonAppliance :=
  Appliance (nick_name d) (appliance_type d) (f (attributes d)) (settings d)
            (available_settings d) (commands d) (connection d).

Definition with_settings (f : gmap string HonParam → gmap string HonParam)
    (d : HonAppliance) : HonAppliance :=
  Appliance (nick_name d) (appliance_type d) (attributes d) (f (settings d))
            (available_settings d) (commands d) (connection d).

End Pyhon.
Export Pyhon.

(** ** The host ([homeassistant]) and the objects [__init__.py] builds *)

Module HomeAssistant.

(** [ConfigEntry]: [entry.data] holds strings only. *)
Record ConfigEntry : Type := Entry {
  entry_id : string;
  unique_id : string;
  data : gmap string string;
}.

(** [HonDataUpdateCoordinator]: its name, the number of listeners and how
    many times the base class's [async_set_updated_data] has run. *)
Record Coordinator : Type := MkCoordinator {
  coord_name : string;
  coord_listeners : nat;
  coord_updates : nat;
}.

(** The closure [make_threadsafe_callback(hass, coordinator)] returns,
    holding a reference to its coordinator. *)
Inductive Callback : Type := ThreadsafeCallback (coordinator : nat).

(** The vendor client [Hon]: [hon.api.auth.refresh_token], its appliances
    and the callbacks given to [subscribe_updates]. *)
Record Hon : Type := MkHon {
  refresh_token : string;
  appliances : list HonAppliance;
  subscribers : list Callback;
}.

(** [{"hon": hon, "coordinator": coordinator}] *)
Record RuntimeData : Type := MkRuntimeData {
  rd_hon : Hon;
  rd_coordinator : nat;
}.

(** What the event loop has been asked to run. *)
Inductive Task : Type := TaskSetUpdatedData (coordinator : nat).

(** [hass]: the configuration directory, [hass.data] (by domain, then by
    the entry's unique id), the stored data of each config entry, the
    coordinator objects (a reference is an index), the callbacks queued
    on [hass.loop] ([None] once the loop is closed), the platforms
    forwarded per entry and the log. *)
Record HomeAssistant : Type := Hass {
  config_dir : option string;
  hass_data : gmap string (gmap string RuntimeData);
  config_entries : gmap string (gmap string string);
  coordinators : list Coordinator;
  loop : option (list Task);
  forwarded : list (string * list string);
  hass_log : list record;
}.

End HomeAssistant.
Export HomeAssistant.

(** ** [switch.py]: the description tables *)

Module Switch.

(** The fields of [SwitchEntityDescription] the tables fill in. *)
Record EntityDescription : Type := Description {
  key : string;
  name : string;
  icon : option string;
  translation_key : option string;
}.

#[global] Instance EntityDescription_eq_dec : EqDecision EntityDescription.
Proof. solve_decision. Defined.

(** The three frozen dataclasses deriving from [SwitchEntityDescription],
    and the base class itself (the [else: continue] case of the setup). *)
Inductive SwitchEntityDescription : Type :=
| HonControlSwitchEntityDescription
    (d : EntityDescription) (turn_on_key turn_off_key : string)
| HonSwitchEntityDescription (d : EntityDescription)
| HonConfigSwitchEntityDescription (d : EntityDescription)
| PlainSwitchEntityDescription (d : EntityDescription).

#[global] Instance SwitchEntityDescription_eq_dec :
  EqDecision SwitchEntityDescription.
Proof. solve_decision. Defined.

Definition base (s : SwitchEntityDescription) : EntityDescription :=
  match s with
  | HonControlSwitchEntityDescription d _ _
  | HonSwitchEntityDescription d
  | HonConfigSwitchEntityDescription d
  | PlainSwitchEntityDescription d => d
  end.

Definition SWITCHES_WM : list SwitchEntityDescription :=
  [ HonControlSwitchEntityDescription (Description "active" "Washing Machine" (Some "mdi:washing-machine") (Some "washing_machine")) "startProgram" "stopProgram";
    HonControlSwitchEntityDescription (Description "pause" "Pause Washing Machine" (Some "mdi:pause") (Some "pause")) "pauseProgram" "resumeProgram";
    HonConfigSwitchEntityDescription (Description "startProgram.delayStatus" "Delay Status" (Some "mdi:timer-check") (Some "delay_time"));
    HonConfigSwitchEntityDescription (Description "startProgram.haier_SoakPrewashSelection" "Soak Prewash Selection" (Some "mdi:tshirt-crew") (Some "prewash"));
    HonConfigSwitchEntityDescription (Description "startProgram.prewash" "Prewash" (Some "mdi:tshirt-crew") (Some "prewash"));
    HonConfigSwitchEntityDescription (Description "startProgram.permanentPressStatus" "Keep Fresh" (Some "mdi:refresh-circle") (Some "keep_fresh"));
    HonConfigSwitchEntityDescription (Description "startProgram.autoSoftenerStatus" "Auto Dose Softener" (Some "mdi:teddy-bear") (Some "auto_dose_softener"));
    HonConfigSwitchEntityDescription (Description "startProgram.autoDetergentStatus" "Auto Dose Detergent" (Some "mdi:cup") (Some "auto_dose_detergent"));
    HonSwitchEntityDescription (Description "autoSoftenerStatus" "Auto Dose Softener" (Some "mdi:teddy-bear") (Some "auto_dose_softener"));
    HonSwitchEntityDescription (Description "autoDetergentStatus" "Auto Dose Detergent" (Some "mdi:cup") (Some "auto_dose_detergent"));
    HonConfigSwitchEntityDescription (Description "startProgram.acquaplus" "Acqua Plus" (Some "mdi:water-plus") (Some "acqua_plus"));
    HonConfigSwitchEntityDescription (Description "startProgram.extraRinse1" "Extra Rinse 1" (Some "mdi:numeric-1-box-multiple-outline") (Some "extra_rinse_1"));
    HonConfigSwitchEntityDescription (Description "startProgram.extraRinse2" "Extra Rinse 2" (Some "mdi:numeric-2-box-multiple-outline") (Some "extra_rinse_2"));
    HonConfigSwitchEntityDescription (Description "startProgram.extraRinse3" "Extra Rinse 3" (Some "mdi:numeric-3-box-multiple-outline") (Some "extra_rinse_3"));
    HonConfigSwitchEntityDescription (Description "startProgram.goodNight" "Good Night" (Some "mdi:weather-night") (Some "good_night"));
    HonConfigSwitchEntityDescription (Description "startProgram.hygiene" "Hygiene" (Some "mdi:lotion-plus") (Some "hygiene"));
    HonConfigSwitchEntityDescription (Description "startProgram.anticrease" "Anti-Crease" (Some "mdi:iron") (Some "anti_crease")) ].

Definition SWITCHES_TD : list SwitchEntityDescription :=
  [ HonControlSwitchEntityDescription (Description "active" "Tumble Dryer" (Some "mdi:tumble-dryer") (Some "tumble_dryer")) "startProgram" "stopProgram";
    HonControlSwitchEntityDescription (Description "pause" "Pause Tumble Dryer" (Some "mdi:pause") (Some "pause")) "pauseProgram" "resumeProgram";
    HonConfigSwitchEntityDescription (Description "startProgram.sterilizationStatus" "Sterilization" (Some "mdi:lotion-plus") None);
    HonConfigSwitchEntityDescription (Description "startProgram.tumblingStatus" "Tumbling" (Some "mdi:refresh-circle") (Some "keep_fresh"));
    HonConfigSwitchEntityDescription (Description "startProgram.antiCreaseTime" "Anti-Crease" (Some "mdi:iron") (Some "anti_crease"));
    HonConfigSwitchEntityDescription (Description "startProgram.anticrease" "Anti-Crease" (Some "mdi:iron") (Some "anti_crease")) ].

Definition SWITCHES_OV : list SwitchEntityDescription :=
  [ HonControlSwitchEntityDescription (Description "active" "Oven" (Some "mdi:toaster-oven") (Some "oven")) "startProgram" "stopProgram";
    HonConfigSwitchEntityDescription (Description "startProgram.preheatStatus" "Preheat" (Some "mdi:thermometer-chevron-up") (Some "preheat")) ].

Definition SWITCHES_WD : list SwitchEntityDescription :=
  [ HonControlSwitchEntityDescription (Description "active" "Washer Dryer" (Some "mdi:washing-machine") (Some "washer_dryer")) "startProgram" "stopProgram";
    HonControlSwitchEntityDescription (Description "pause" "Pause Washer Dryer" (Some "mdi:pause") (Some "pause")) "pauseProgram" "resumeProgram" ].

Definition SWITCHES_DW : list SwitchEntityDescription :=
  [ HonControlSwitchEntityDescription (Description "active" "Dish Washer" (Some "mdi:dishwasher") (Some "dish_washer")) "startProgram" "stopProgram";
    HonConfigSwitchEntityDescription (Description "startProgram.extraDry" "Extra Dry" (Some "mdi:hair-dryer") (Some "extra_dry"));
    HonConfigSwitchEntityDescription (Description "startProgram.halfLoad" "Half Load" (Some "mdi:fraction-one-half") (Some "half_load"));
    HonConfigSwitchEntityDescription (Description "startProgram.openDoor" "Open Door" (Some "mdi:door-open") (Some "open_door"));
    HonConfigSwitchEntityDescription (Description "startProgram.threeInOne" "Three in One" (Some "mdi:numeric-3-box-outline") (Some "three_in_one"));
    HonConfigSwitchEntityDescription (Description "startProgram.ecoExpress" "Eco Express" (Some "mdi:sprout") (Some "eco"));
    HonConfigSwitchEntityDescription (Description "startProgram.addDish" "Add Dish" (Some "mdi:silverware-fork-knife") (Some "add_dish"));
    HonSwitchEntityDescription (Description "buzzerDisabled" "Buzzer Disabled" (Some "mdi:volume-off") (Some "buzzer"));
    HonConfigSwitchEntityDescription (Description "startProgram.tabStatus" "Tab Status" (Some "mdi:silverware-clean") None) ].

Definition SWITCHES_AC : list SwitchEntityDescription :=
  [ HonSwitchEntityDescription (Description "10degreeHeatingStatus" "10Â° Heating" (Some "mdi:heat-wave") (Some "10_degree_heating"));
    HonSwitchEntityDescription (Description "echoStatus" "Echo" (Some "mdi:account-voice") None);
    HonSwitchEntityDescription (Description "ecoMode" "Eco Mode" (Some "mdi:sprout") (Some "eco_mode"));
    HonSwitchEntityDescription (Description "healthMode" "Health Mode" (Some "mdi:medication-outline") None);
    HonSwitchEntityDescription (Description "muteStatus" "Silent Mode" (Some "mdi:volume-off") (Some "silent_mode"));
    HonSwitchEntityDescription (Description "rapidMode" "Rapid Mode" (Some "mdi:run-fast") (Some "rapid_mode"));
    HonSwitchEntityDescription (Description "screenDisplayStatus" "Screen Display" (Some "mdi:monitor-small") None);
    HonSwitchEntityDescription (Description "selfCleaning56Status" "Self Cleaning 56" (Some "mdi:air-filter") (Some "self_clean_56"));
    HonSwitchEntityDescription (Description "selfCleaningStatus" "Self Cleaning" (Some "mdi:air-filter") (Some "self_clean"));
    HonSwitchEntityDescription (Description "silentSleepStatus" "Night Mode" (Some "mdi:bed") (Some "night_mode")) ].

Definition SWITCHES_REF : list SwitchEntityDescription :=
  [ HonSwitchEntityDescription (Description "intelligenceMode" "Auto-Set Mode" (Some "mdi:thermometer-auto") (Some "auto_set"));
    HonSwitchEntityDescription (Description "quickModeZ2" "Super Freeze" (Some "mdi:snowflake-variant") (Some "super_freeze"));
    HonSwitchEntityDescription (Description "quickModeZ1" "Super Cool" (Some "mdi:snowflake") (Some "super_cool")) ].

Definition SWITCHES_WC : list SwitchEntityDescription :=
  [ HonSwitchEntityDescription (Description "sabbathStatus" "Sabbath Mode" (Some "mdi:palm-tree") (Some "holiday_mode")) ].

Definition SWITCHES_HO : list SwitchEntityDescription :=
  [ HonControlSwitchEntityDescription (Description "onOffStatus" "Hood" (Some "mdi:hvac") (Some "hood")) "startProgram" "stopProgram" ].

Definition SWITCHES_AP : list SwitchEntityDescription :=
  [ HonSwitchEntityDescription (Description "touchToneStatus" "Touch Tone" (Some "mdi:account-voice") (Some "touch_tone")) ].

Definition SWITCHES_FRE : list SwitchEntityDescription :=
  [ HonSwitchEntityDescription (Description "quickModeZ2" "Super Freeze" (Some "mdi:snowflake-variant") (Some "super_freeze"));
    HonSwitchEntityDescription (Description "quickModeZ1" "Super Cool" (Some "mdi:snowflake") (Some "super_cool")) ].

Definition SWITCHES_items : list (string * list SwitchEntityDescription) :=
  [ ("WM", SWITCHES_WM);
    ("TD", SWITCHES_TD);
    ("OV", SWITCHES_OV);
    ("WD", SWITCHES_WD);
    ("DW", SWITCHES_DW);
    ("AC", SWITCHES_AC);
    ("REF", SWITCHES_REF);
    ("WC", SWITCHES_WC);
    ("HO", SWITCHES_HO);
    ("AP", SWITCHES_AP);
    ("FRE", SWITCHES_FRE) ].

(** The dict literal bound to [SWITCHES]. *)
Definition SWITCHES_literal : gmap string (list SwitchEntityDescription) :=
  list_to_map SWITCHES_items.

(** *** Module initialisation: the statements after the literal *)

(** The module's global [SWITCHES] and the keys assigned to since the
    literal was bound, in order. *)
Record ModuleState : Type := MkModuleState {
  SWITCHES : gmap string (list SwitchEntityDescription);
  assigned : list string;
}.

Section ModuleInit.
(** [unique_entities] is imported from [.util] and is not embedded: it is
    a parameter. *)
Variable unique_entities :
  list SwitchEntityDescription → list SwitchEntityDescription →
  list SwitchEntityDescription.

(** [SWITCHES[target] = unique_entities(SWITCHES[a], SWITCHES[b])] *)
Definition assign_unique_entities (target a b : string) : M ModuleState unit :=
  tbl <- gets SWITCHES ;;
  x <- getitem tbl a ;;
  y <- getitem tbl b ;;
  modify (λ m, MkModuleState (<[target := unique_entities x y]> (SWITCHES m))
                             (assigned m ++ [target])).

Definition module_body : M ModuleState unit :=
  assign_unique_entities "WD" "WD" "WM" ;;;
  assign_unique_entities "WD" "WD" "TD".

(** Importing the module: bind the literal, then run the statements. *)
Definition module_init : result unit * ModuleState :=
  module_body (MkModuleState SWITCHES_literal []).

End ModuleInit.

(** *** Entities *)

Inductive EntityClass : Type :=
| ClsHonConfigSwitchEntity
| ClsHonControlSwitchEntity
| ClsHonSwitchEntity.

#[global] Instance EntityClass_eq_dec : EqDecision EntityClass.
Proof. solve_decision. Defined.

(** An entity object as the platform setup constructs it. *)
Record Entity : Type := NewEntity {
  entity_class : EntityClass;
  _device : HonAppliance;
  entity_description : SwitchEntityDescription;
}.

(** [x in xs] for a list of strings. *)
Definition str_in (x : string) (xs : list string) : bool :=
  bool_decide (x ∈ xs).

(** The body of the inner loop of [async_setup_entry]: [entities] after
    this iteration. *)
Definition setup_description (device : HonAppliance) (entities : list Entity)
    (description : SwitchEntityDescription) : list Entity :=
  match description with
  | HonConfigSwitchEntityDescription d =>
      if negb (str_in (key d) (available_settings device)) then entities
      else entities ++ [NewEntity ClsHonConfigSwitchEntity device description]
  | HonControlSwitchEntityDescription d turn_on_key turn_off_key =>
      if negb (is_not_None (device_get device (key d) VNone)
               || str_in turn_on_key (commands device)
               || str_in turn_off_key (commands device))
      then entities
      else entities ++ [NewEntity ClsHonControlSwitchEntity device description]
  | HonSwitchEntityDescription d =>
      if negb (str_in ("settings." +:+ key d) (available_settings device))
      then entities
      else entities ++ [NewEntity ClsHonSwitchEntity device description]
  | PlainSwitchEntityDescription _ => entities
  end.

(** The body of the outer loop: [SWITCHES.get(device.appliance_type, [])]. *)
Definition setup_device (table : gmap string (list SwitchEntityDescription))
    (entities : list Entity) (device : HonAppliance) : list Entity :=
  fold_left (setup_description device)
            (default [] (table !! appliance_type device)) entities.

(** The platform's [async_setup_entry]; the result is the list handed to
    [async_add_entities].  [DOMAIN] comes from [.const]. *)
Definition async_setup_entry (DOMAIN : string)
    (table : gmap string (list SwitchEntityDescription))
    (entry : ConfigEntry) : M HomeAssistant (list Entity) :=
  hass_data <- gets hass_data ;;
  by_entry <- getitem hass_data DOMAIN ;;
  runtime <- getitem by_entry (unique_id entry) ;;
  ret (fold_left (setup_device table) (appliances (rd_hon runtime)) []).

(** *** The entity classes *)

(** What an entity method does to the outside, in order. *)
Inductive effect : Type :=
| SetValue (setting : string) (v : value)
| SetAttribute (attribute : string) (v : value)
| AsyncWriteHaState
| Send (command : string)
| AsyncSetUpdatedData
| SyncCommand (main target : string).

#[global] Instance effect_eq_dec : EqDecision effect.
Proof. solve_decision. Defined.

(** The calls that leave the module: whether each raises, and what the
    vendor's calls do to the settings of the device.
    [super_available] is [HonEntity.available]; [HonEntity] lives in
    [.entity] and is not embedded.  [value_rejected] is the validation of
    the vendor's value setters ([assign_value]).  [sync_command_effect main
    target] is what [HonAppliance.sync_command(main, target)] makes of the
    settings when it returns: it copies parameters of the command [main]
    onto those of [target]. *)
Record Host : Type := MkHost {
  super_available : bool;
  write_ha_state_raises : option exn;
  send_raises : string → option exn;
  set_updated_data_raises : option exn;
  sync_command_raises : option exn;
  value_rejected : HonParam → value → option exn;
  sync_command_effect :
    string → string → gmap string HonParam → gmap string HonParam;
}.

(** One entity's view: its device, its [_attr_is_on], the journal of
    effects and the log. *)
Record World : Type := MkWorld {
  device : HonAppliance;
  attr_is_on : option value;
  journal : list effect;
  log : list record;
}.

Definition on_device (f : HonAppliance → HonAppliance) (w : World) : World :=
  MkWorld (f (device w)) (attr_is_on w) (journal w) (log w).

Definition did (e : effect) (w : World) : World :=
  MkWorld (device w) (attr_is_on w) (journal w ++ [e]) (log w).

Definition _LOGGER (l : level) (msg : string) (exc : option exn) : M World unit :=
  modify (λ w, MkWorld (device w) (attr_is_on w) (journal w)
                       (log w ++ [LogRecord l msg exc])).

(** [self._device.attributes[k] = v] *)
Definition set_attribute (k : string) (v : value) : M World unit :=
  modify (λ w, did (SetAttribute k v) (on_device (with_attributes <[k := v]>) w)).

Section Entities.
Context (host : Host).

(** [setting.value = v], where [setting] is [self._device.settings[k]]: the
    setter either raises, and nothing is stored, or the setting under [k]
    becomes what the setter made of it. *)
Definition set_value (k : string) (setting : HonParam) (v : value) : M World unit :=
  match assign_value (value_rejected host) setting v with
  | Raise e => raise e
  | Ok stored =>
      modify (λ w, did (SetValue k v)
                     (on_device (with_settings (alter (λ _, stored) k)) w))
  end.

Definition async_write_ha_state : M World unit :=
  external (write_ha_state_raises host) (did AsyncWriteHaState).

(** [self.coordinator.async_set_updated_data({})] *)
Definition coordinator_async_set_updated_data : M World unit :=
  external (set_updated_data_raises host) (did AsyncSetUpdatedData).

(** [await self._device.commands[command].send()] *)
Definition commands_send (command : string) : M World unit :=
  dev <- gets device ;;
  if str_in command (commands dev)
  then external (send_raises host command) (did (Send command))
  else raise (Exn KeyError command).

(** [self._device.sync_command(main, target)] *)
Definition sync_command (main target : string) : M World unit :=
  external (sync_command_raises host)
    (λ w, did (SyncCommand main target)
            (on_device (with_settings (sync_command_effect host main target)) w)).

End Entities.

Module HonSwitchEntity.
Section Methods.
Context (host : Host) (entity_description : EntityDescription).

Definition is_on : M World bool :=
  dev <- gets device ;;
  let result := py_eq (device_get dev (key entity_description) (VInt 0)) (VInt 1) in
  _LOGGER DEBUG "Switch %s is_on: key=%s, value=%s, result=%s" None ;;;
  ret result.

Definition async_turn_on : M World unit :=
  _LOGGER DEBUG "Switch %s turning ON" None ;;;
  dev <- gets device ;;
  setting <- getitem (settings dev) ("settings." +:+ key entity_description) ;;
  if type_is_HonParameter setting then
    _LOGGER WARNING "Switch %s: setting is HonParameter, cannot turn on" None
  else
    set_value host ("settings." +:+ key entity_description) setting
              (match setting with
               | HonParameterRange _ _ mx _ => mx
               | _ => VInt 1
               end) ;;;
    async_write_ha_state host ;;;
    commands_send host "settings" ;;;
    coordinator_async_set_updated_data host ;;;
    _LOGGER DEBUG "Switch %s turned ON successfully" None.

Definition async_turn_off : M World unit :=
  _LOGGER DEBUG "Switch %s turning OFF" None ;;;
  dev <- gets device ;;
  setting <- getitem (settings dev) ("settings." +:+ key entity_description) ;;
  if type_is_HonParameter setting then
    _LOGGER WARNING "Switch %s: setting is HonParameter, cannot turn off" None
  else
    set_value host ("settings." +:+ key entity_description) setting
              (match setting with
               | HonParameterRange _ mn _ _ => mn
               | _ => VInt 0
               end) ;;;
    async_write_ha_state host ;;;
    commands_send host "settings" ;;;
    coordinator_async_set_updated_data host ;;;
    _LOGGER DEBUG "Switch %s turned OFF successfully" None.

Definition available : M World bool :=
  if negb (super_available host) then
    _LOGGER DEBUG "Switch %s not available: super().available is False" None ;;;
    ret false
  else
    dev <- gets device ;;
    if negb (py_eq (device_get dev "remoteCtrValid" (VInt 1)) (VInt 1)) then
      _LOGGER DEBUG "Switch %s not available: remoteCtrValid is not 1" None ;;;
      ret false
    else if py_eq (device_get dev "attributes.lastConnEvent.category" VNone)
                  (VStr "DISCONNECTED") then
      _LOGGER DEBUG "Switch %s not available: device is DISCONNECTED" None ;;;
      ret false
    else
      setting <- getitem (settings dev) ("settings." +:+ key entity_description) ;;
      if isinstance_HonParameterRange setting
         && (length (param_values setting) <? 2)%nat then
        _LOGGER DEBUG "Switch %s not available: setting has less than 2 values" None ;;;
        ret false
      else
        _LOGGER DEBUG "Switch %s is available" None ;;;
        ret true.

Definition _handle_coordinator_update (update : bool) : M World unit :=
  _LOGGER DEBUG "HonSwitchEntity %s handling coordinator update" None ;;;
  try_except
    (on <- is_on ;;
     modify (λ w, MkWorld (device w) (Some (VBool on)) (journal w) (log w)) ;;;
     _LOGGER DEBUG "Switch %s updated is_on state: %s" None ;;;
     if update then
       _LOGGER DEBUG "Switch %s writing HA state" None ;;;
       async_write_ha_state host ;;;
       _LOGGER DEBUG "Switch %s successfully wrote HA state" None
     else ret tt)
    [(isinstance_Exception,
      λ e, _LOGGER ERROR "Error in HonSwitchEntity %s coordinator update: %s" (Some e))].

End Methods.
End HonSwitchEntity.

Module HonControlSwitchEntity.
Section Methods.
Context (host : Host) (entity_description : EntityDescription)
        (turn_on_key turn_off_key : string).

Definition is_on : M World value :=
  dev <- gets device ;;
  let result := device_get dev (key entity_description) (VBool false) in
  _LOGGER DEBUG "Control switch %s is_on: key=%s, value=%s, result=%s" None ;;;
  ret result.

Definition async_turn_on : M World unit :=
  _LOGGER DEBUG "Control switch %s turning ON" None ;;;
  sync_command host turn_on_key "settings" ;;;
  coordinator_async_set_updated_data host ;;;
  commands_send host turn_on_key ;;;
  set_attribute (key entity_description) (VBool true) ;;;
  async_write_ha_state host ;;;
  _LOGGER DEBUG "Control switch %s turned ON successfully" None.

Definition async_turn_off : M World unit :=
  _LOGGER DEBUG "Control switch %s turning OFF" None ;;;
  sync_command host turn_off_key "settings" ;;;
  coordinator_async_set_updated_data host ;;;
  commands_send host turn_off_key ;;;
  set_attribute (key entity_description) (VBool false) ;;;
  async_write_ha_state host ;;;
  _LOGGER DEBUG "Control switch %s turned OFF successfully" None.

End Methods.
End HonControlSwitchEntity.

Module HonConfigSwitchEntity.
Section Methods.
Context (host : Host) (entity_description : EntityDescription).

Definition is_on : M World bool :=
  dev <- gets device ;;
  setting <- getitem (settings dev) (key entity_description) ;;
  let result :=
    match param_min setting with
    | Some mn => py_ne (param_value setting) mn
    | None => py_eq (param_value setting) (VStr "1")
    end in
  _LOGGER DEBUG "Config switch %s is_on: key=%s, setting.value=%s, setting.min=%s, result=%s" None ;;;
  ret result.

Definition async_turn_on : M World unit :=
  _LOGGER DEBUG "Config switch %s turning ON" None ;;;
  dev <- gets device ;;
  setting <- getitem (settings dev) (key entity_description) ;;
  if type_is_HonParameter setting then
    _LOGGER WARNING "Config switch %s: setting is HonParameter, cannot turn on" None
  else
    set_value host (key entity_description) setting
              (match setting with
               | HonParameterRange _ _ mx _ => mx
               | _ => VStr "1"
               end) ;;;
    coordinator_async_set_updated_data host ;;;
    async_write_ha_state host ;;;
    _LOGGER DEBUG "Config switch %s turned ON successfully" None.

Definition async_turn_off : M World unit :=
  _LOGGER DEBUG "Config switch %s turning OFF" None ;;;
  dev <- gets device ;;
  setting <- getitem (settings dev) (key entity_description) ;;
  if type_is_HonParameter setting then
    _LOGGER WARNING "Config switch %s: setting is HonParameter, cannot turn off" None
  else
    set_value host (key entity_description) setting
              (match setting with
               | HonParameterRange _ mn _ _ => mn
               | _ => VStr "0"
               end) ;;;
    coordinator_async_set_updated_data host ;;;
    async_write_ha_state host ;;;
    _LOGGER DEBUG "Config switch %s turned OFF successfully" None.

Definition _handle_coordinator_update (update : bool) : M World unit :=
  _LOGGER DEBUG "HonConfigSwitchEntity %s handling coordinator update" None ;;;
  try_except
    (on <- is_on ;;
     modify (λ w, MkWorld (device w) (Some (VBool on)) (journal w) (log w)) ;;;
     _LOGGER DEBUG "Config switch %s updated is_on state: %s" None ;;;
     if update then
       _LOGGER DEBUG "Config switch %s writing HA state" None ;;;
       async_write_ha_state host ;;;
       _LOGGER DEBUG "Config switch %s successfully wrote HA state" None
     else ret tt)
    [(isinstance_Exception,
      λ e, _LOGGER ERROR "Error in HonConfigSwitchEntity %s coordinator update: %s" (Some e))].

End Methods.
End HonConfigSwitchEntity.

End Switch.

(** ** [__init__.py] *)

Module Init.

(** The constants imported from [.const]; their values are not fixed
    here. *)
Record Const : Type := MkConst {
  DOMAIN : string;
  PLATFORMS : list string;
  MOBILE_ID : string;
  CONF_REFRESH_TOKEN : string;
}.

(** [homeassistant.const] *)
Definition CONF_EMAIL : string := "email".
Definition CONF_PASSWORD : string := "password".

(** The calls that leave the module: what [Hon(...).create()] gives for
    the arguments it is built with (email, password, mobile id, test data
    path, refresh token), and whether the host's
    [async_forward_entry_setups] and the base class's
    [async_set_updated_data] raise. *)
Record Outside : Type := MkOutside {
  hon_create : string → string → string → string → string → result Hon;
  forward_entry_setups_raises : option exn;
  base_set_updated_data_raises : option exn;
}.

Definition _LOGGER (l : level) (msg : string) (exc : option exn) :
    M HomeAssistant unit :=
  modify (λ h, Hass (config_dir h) (hass_data h) (config_entries h)
                    (coordinators h) (loop h) (forwarded h)
                    (hass_log h ++ [LogRecord l msg exc])).

(** The value of an outside call that returns one. *)
Definition returned {A} (r : result A) : M HomeAssistant A :=
  match r with Ok a => ret a | Raise e => raise e end.

Definition set_coordinators (f : list Coordinator → list Coordinator)
    (h : HomeAssistant) : HomeAssistant :=
  Hass (config_dir h) (hass_data h) (config_entries h)
       (f (coordinators h)) (loop h) (forwarded h) (hass_log h).

Definition set_hass_data
    (f : gmap string (gmap string RuntimeData) → gmap string (gmap string RuntimeData))
    (h : HomeAssistant) : HomeAssistant :=
  Hass (config_dir h) (f (hass_data h)) (config_entries h)
       (coordinators h) (loop h) (forwarded h) (hass_log h).

Module HonDataUpdateCoordinator.
Section Methods.
Context (outside : Outside).

(** [HonDataUpdateCoordinator(hass, name)]: the new object's reference. *)
Definition __init__ (name : string) : M HomeAssistant nat :=
  self <- gets (λ h, length (coordinators h)) ;;
  modify (set_coordinators (λ cs, cs ++ [MkCoordinator name 0 0])) ;;;
  _LOGGER INFO "Initialized HonDataUpdateCoordinator: %s" None ;;;
  ret self.

(** [super().async_set_updated_data(data)] *)
Definition super_async_set_updated_data (self : nat) : M HomeAssistant unit :=
  external (base_set_updated_data_raises outside)
    (set_coordinators
       (alter (λ c, MkCoordinator (coord_name c) (coord_listeners c)
                                  (S (coord_updates c))) self)).

Definition async_set_updated_data (self : nat) : M HomeAssistant unit :=
  _LOGGER DEBUG "Coordinator %s received update data: %s" None ;;;
  _LOGGER INFO "Coordinator %s updating data for %d listeners" None ;;;
  try_except
    (super_async_set_updated_data self ;;;
     _LOGGER DEBUG "Coordinator %s successfully updated data" None)
    [(isinstance_Exception,
      λ e, _LOGGER ERROR "Coordinator %s failed to update data: %s" (Some e) ;;;
           raise e)].

End Methods.
End HonDataUpdateCoordinator.

Section Setup.
Context (const : Const) (outside : Outside).

(** [hass.loop.call_soon_threadsafe(task)]: asyncio raises
    [RuntimeError] on a closed loop. *)
Definition call_soon_threadsafe (task : Task) : M HomeAssistant unit :=
  lp <- gets loop ;;
  match lp with
  | None => raise (Exn RuntimeError "Event loop is closed")
  | Some queue =>
      modify (λ h, Hass (config_dir h) (hass_data h) (config_entries h)
                        (coordinators h) (Some (queue ++ [task]))
                        (forwarded h) (hass_log h))
  end.

(** What the loop does with a queued task: the body of the [lambda]. *)
Definition run_task (task : Task) : M HomeAssistant unit :=
  match task with
  | TaskSetUpdatedData coordinator =>
      HonDataUpdateCoordinator.async_set_updated_data outside coordinator
  end.

(** [wrapper], the closure [make_threadsafe_callback(hass, coordinator)]
    returns; its arguments are only logged. *)
Definition wrapper (coordinator : nat) : M HomeAssistant unit :=
  _LOGGER DEBUG "Threadsafe callback triggered with args: %s, kwargs: %s" None ;;;
  try_except
    (call_soon_threadsafe (TaskSetUpdatedData coordinator) ;;;
     _LOGGER DEBUG "Threadsafe callback executed successfully" None)
    [(isinstance_Exception,
      λ e, _LOGGER ERROR "Threadsafe callback failed: %s" (Some e))].

Definition make_threadsafe_callback (coordinator : nat) : Callback :=
  ThreadsafeCallback coordinator.

(** Calling a subscribed callback. *)
Definition call (cb : Callback) : M HomeAssistant unit :=
  match cb with ThreadsafeCallback coordinator => wrapper coordinator end.

(** [hass.config_entries.async_forward_entry_setups(entry, PLATFORMS)] *)
Definition async_forward_entry_setups (entry : ConfigEntry) : M HomeAssistant unit :=
  external (forward_entry_setups_raises outside)
    (λ h, Hass (config_dir h) (hass_data h) (config_entries h)
               (coordinators h) (loop h)
               (forwarded h ++ [(entry_id entry, PLATFORMS const)])
               (hass_log h)).

Definition async_forward_entry_setups_with_error_handling
    (entry : ConfigEntry) : M HomeAssistant unit :=
  try_except
    (_LOGGER DEBUG "Setting up platforms: %s" None ;;;
     async_forward_entry_setups entry ;;;
     _LOGGER DEBUG "Successfully set up platforms: %s" None)
    [(isinstance_ValueError,
      λ e, if contains "has already been setup" (exn_str e) then
             _LOGGER DEBUG "Platform %s already set up for entry %s, ignoring" None
           else
             _LOGGER ERROR "ValueError setting up platform %s: %s" (Some e) ;;;
             raise e);
     (isinstance_Exception,
      λ e, _LOGGER ERROR "Error setting up platform %s: %s" (Some e) ;;;
           raise e)].

(** [hass.config_entries.async_update_entry(entry, data=new)] *)
Definition async_update_entry (entry : ConfigEntry) (new : gmap string string) :
    M HomeAssistant unit :=
  modify (λ h, Hass (config_dir h) (hass_data h)
                    (<[entry_id entry := new]> (config_entries h))
                    (coordinators h) (loop h) (forwarded h) (hass_log h)).

(** [hon.subscribe_updates(callback)] *)
Definition subscribe_updates (hon : Hon) (cb : Callback) : Hon :=
  MkHon (refresh_token hon) (appliances hon) (subscribers hon ++ [cb]).

(** [await Hon(email=entry.data[CONF_EMAIL], ...).create()] *)
Definition Hon_create (entry : ConfigEntry) (config_dir : string) :
    M HomeAssistant Hon :=
  email <- getitem (data entry) CONF_EMAIL ;;
  password <- getitem (data entry) CONF_PASSWORD ;;
  returned (hon_create outside email password (MOBILE_ID const) config_dir
              (default "" (data entry !! CONF_REFRESH_TOKEN const))).

Definition async_setup_entry (entry : ConfigEntry) : M HomeAssistant bool :=
  _LOGGER INFO "Setting up hOn integration for entry: %s" None ;;;
  dir <- gets config_dir ;;
  match dir with
  | None => raise (Exn ValueError "Missing Config Dir")
  | Some config_dir =>
      hon <- try_except
               (hon <- Hon_create entry config_dir ;;
                _ <- getitem (data entry) CONF_EMAIL ;;
                _LOGGER INFO "Successfully created Hon instance for %s" None ;;;
                ret hon)
               [(isinstance_Exception,
                 λ e, _LOGGER ERROR "Failed to create Hon instance: %s" (Some e) ;;;
                      raise e)] ;;
      async_update_entry entry
        (<[CONF_REFRESH_TOKEN const := refresh_token hon]> (data entry)) ;;;
      coordinator <- HonDataUpdateCoordinator.__init__ (DOMAIN const) ;;
      _LOGGER INFO "Setting up update subscription for %d appliances" None ;;;
      for_each (appliances hon)
        (λ appliance, _LOGGER DEBUG "Appliance: %s (%s) - Connection: %s" None) ;;;
      let hon := subscribe_updates hon (make_threadsafe_callback coordinator) in
      _LOGGER INFO "Update subscription established" None ;;;
      modify (set_hass_data
                (λ d, <[DOMAIN const := default ∅ (d !! DOMAIN const)]> d)) ;;;
      modify (set_hass_data
                (alter <[unique_id entry := MkRuntimeData hon coordinator]>
                       (DOMAIN const))) ;;;
      _LOGGER INFO "Stored coordinator and hon instance in hass.data" None ;;;
      async_forward_entry_setups_with_error_handling entry ;;;
      _LOGGER INFO "Successfully set up hOn integration for entry: %s" None ;;;
      ret true
  end.

End Setup.

End Init.

(** * Vocabulary of the properties *)

Module Props.
Import Switch.


(** "its max if the setting is a [HonParameterRange] and otherwise
    [constant]" *)
Definition max_or (setting : HonParam) (constant : value) : value :=
  if isinstance_HonParameterRange setting
  then default VNone (param_max setting) else constant.

Definition min_or (setting : HonParam) (constant : value) : value :=
  if isinstance_HonParameterRange setting
  then default VNone (param_min setting) else constant.

(** [w] with the debug record [msg] added to its log. *)
Definition logged (msg : string) (w : World) : World :=
  MkWorld (device w) (attr_is_on w) (journal w)
          (log w ++ [LogRecord DEBUG msg None]).

(** [w] once the setter has stored [v] in [setting], found under [k]. *)
Definition stored_under (k : string) (setting : HonParam) (v : value)
    (w : World) : World :=
  did (SetValue k v)
      (on_device (with_settings (alter (λ _, set_param_value setting v) k)) w).

(** What a [HonSwitchEntity] method does after the assignment, and what a
    [HonConfigSwitchEntity] method does. *)
Definition switch_tail (host : Host) (msg : string) : M World unit :=
  async_write_ha_state host ;;;
  commands_send host "settings" ;;;
  coordinator_async_set_updated_data host ;;;
  _LOGGER DEBUG msg None.

Definition config_tail (host : Host) (msg : string) : M World unit :=
  coordinator_async_set_updated_data host ;;;
  async_write_ha_state host ;;;
  _LOGGER DEBUG msg None.

(** A run [r] from [w] that raised [e] having done nothing: neither the
    device, nor the entity's state, nor the journal of effects has
    changed. *)
Definition raised_untouched {A} (e : exn) (w : World) (r : result A * World) :
    Prop :=
  r.1 = Raise e ∧ device r.2 = device w ∧ attr_is_on r.2 = attr_is_on w
  ∧ journal r.2 = journal w.

(** By what the vendor's setter says of the value [v] for [setting]:
    [accepted] when it takes it, [rejected e] when it raises [e]. *)
Definition by_verdict (host : Host) (setting : HonParam) (v : value)
    (accepted : Prop) (rejected : exn → Prop) : Prop :=
  match value_rejected host setting v with
  | None => accepted
  | Some e => rejected e
  end.


(** A method returned early: it returned normally and neither the device,
    nor the entity's state, nor the journal of effects has changed. *)
Definition returned_early (w : World) (r : result unit * World) : Prop :=
  r.1 = Ok tt ∧ device r.2 = device w ∧ attr_is_on r.2 = attr_is_on w
  ∧ journal r.2 = journal w.

(** A run that only logs a debug record and then a warning. *)
Definition warned (w : World) (msg1 msg2 : string) : result unit * World :=
  (Ok tt, MkWorld (device w) (attr_is_on w) (journal w)
                  ((log w ++ [LogRecord DEBUG msg1 None])
                          ++ [LogRecord WARNING msg2 None])).

End Props.

Module ControlProps.
Import Switch.

(** The effects of a control switch's turn-on ([state] true) or turn-off
    ([state] false) with command [command], in order. *)
Definition control_effects (command attribute : string) (state : bool) :
    list effect :=
  [ SyncCommand command "settings";
    AsyncSetUpdatedData;
    Send command;
    SetAttribute attribute (VBool state);
    AsyncWriteHaState ].

(** The device has the command and none of the calls made raises. *)
Definition calls_return (host : Host) (command : string) (w : World) : Prop :=
  sync_command_raises host = None
  ∧ set_updated_data_raises host = None
  ∧ command ∈ commands (device w)
  ∧ send_raises host command = None
  ∧ write_ha_state_raises host = None.

(** What a run [r] from [w] of a control switch's method must satisfy:
    the effects it has had are, in order, an initial part of
    [control_effects]; it returns normally exactly when the command exists
    and no call raises; and then all the effects took place and the
    attribute holds [state]. *)
Definition control_run (host : Host) (command attribute : string)
    (state : bool) (w : World) (r : result unit * World) : Prop :=
  (∃ done, journal r.2 = journal w ++ done
           ∧ done `prefix_of` control_effects command attribute state)
  ∧ (r.1 = Ok tt ↔ calls_return host command w)
  ∧ (r.1 = Ok tt →
     journal r.2 = journal w ++ control_effects command attribute state
     ∧ attributes (device r.2) !! attribute = Some (VBool state)).

End ControlProps.

Module ReadProps.
Import Switch.

(** A run that touched neither the device, nor the entity's state, nor
    the outside. *)
Definition reads_only {A} (w : World) (r : result A * World) : Prop :=
  device r.2 = device w ∧ attr_is_on r.2 = attr_is_on w
  ∧ journal r.2 = journal w.

(** The values Python holds equal to the integer 1. *)
Definition equals_one (v : value) : Prop := v = VInt 1 ∨ v = VBool true.

(** A property returned the boolean that decides [P]. *)
Definition returns_iff (r : result bool) (P : Prop) : Prop :=
  ∃ b : bool, r = Ok b ∧ (b = true ↔ P).

End ReadProps.

Module AvailableProps.
Import Switch.

(** The result of [HonSwitchEntity.available], read off its tests. *)
Definition available_result (host : Host) (d : EntityDescription)
    (dev : HonAppliance) : result bool :=
  if negb (super_available host) then Ok false
  else if negb (py_eq (device_get dev "remoteCtrValid" (VInt 1)) (VInt 1))
  then Ok false
  else if py_eq (device_get dev "attributes.lastConnEvent.category" VNone)
                (VStr "DISCONNECTED")
  then Ok false
  else match settings dev !! ("settings." +:+ key d) with
       | None => Raise (Exn KeyError ("settings." +:+ key d))
       | Some s =>
           Ok (negb (isinstance_HonParameterRange s
                     && (length (param_values s) <? 2)%nat))
       end.

(** The device reporting [remoteCtrValid] as 1. *)
Definition with_remote_ctr_valid (w : World) : World :=
  on_device (with_attributes <["remoteCtrValid" := VInt 1]>) w.

End AvailableProps.

Module SetupProps.
Import Switch.

(** The device supports the description, and [cls] is the entity class
    that goes with the description's class. *)
Definition supported (device : HonAppliance)
    (description : SwitchEntityDescription) (cls : EntityClass) : Prop :=
  match description with
  | HonConfigSwitchEntityDescription d =>
      cls = ClsHonConfigSwitchEntity ∧ key d ∈ available_settings device
  | HonSwitchEntityDescription d =>
      cls = ClsHonSwitchEntity
      ∧ "settings." +:+ key d ∈ available_settings device
  | HonControlSwitchEntityDescription d turn_on_key turn_off_key =>
      cls = ClsHonControlSwitchEntity
      ∧ ((∃ v, attributes device !! key d = Some v ∧ v ≠ VNone)
         ∨ turn_on_key ∈ commands device
         ∨ turn_off_key ∈ commands device)
  | PlainSwitchEntityDescription _ => False
  end.

(** Entity [e] stands for one of the appliances, with a description the
    table lists for that appliance's type and that the appliance
    supports. *)
Definition justified (table : gmap string (list SwitchEntityDescription))
    (devices : list HonAppliance) (e : Entity) : Prop :=
  _device e ∈ devices
  ∧ (∃ descriptions,
       table !! appliance_type (_device e) = Some descriptions
       ∧ entity_description e ∈ descriptions)
  ∧ supported (_device e) (entity_description e) (entity_class e).

End SetupProps.

Module InitProps.
Import Init.

(** [h] with another log. *)
Definition relog (h : HomeAssistant) (lg : list record) : HomeAssistant :=
  Hass (config_dir h) (hass_data h) (config_entries h) (coordinators h)
       (loop h) (forwarded h) lg.

(** The state [after] a setup of [entry] from [before] with client [hon]:
    the refresh token is in the stored entry data, one coordinator has
    been created, and under [hass.data[DOMAIN][entry.unique_id]] lie the
    client, with the callback of that coordinator subscribed, and the
    coordinator. *)
Definition set_up (const : Const) (entry : ConfigEntry) (hon : Hon)
    (before after : HomeAssistant) : Prop :=
  config_entries after !! entry_id entry
    = Some (<[CONF_REFRESH_TOKEN const := refresh_token hon]> (data entry))
  ∧ coordinators after
    = coordinators before ++ [MkCoordinator (DOMAIN const) 0 0]
  ∧ ∃ by_entry,
      hass_data after !! DOMAIN const = Some by_entry
      ∧ by_entry !! unique_id entry
        = Some (MkRuntimeData
                  (MkHon (refresh_token hon) (appliances hon)
                         (subscribers hon
                          ++ [ThreadsafeCallback (length (coordinators before))]))
                  (length (coordinators before))).

(** The duplicate-setup error the forwarding wrapper ignores. *)
Definition already_setup (e : exn) : bool :=
  isinstance_ValueError e && contains "has already been setup" (exn_str e).

(** An [ERROR] record carrying [e] is in the log. *)
Definition error_logged (e : exn) (h : HomeAssistant) : Prop :=
  ∃ msg, LogRecord ERROR msg (Some e) ∈ hass_log h.

End InitProps.

Module Samples.
Import Switch Init.

(** A host whose event loop is closed, with one coordinator. *)
Definition closed_hass : HomeAssistant :=
  Hass (Some "/config") ∅ ∅ [MkCoordinator "hon" 0 0] None [] [].

(** A host with a running loop and one coordinator. *)
Definition running_hass : HomeAssistant :=
  Hass (Some "/config") ∅ ∅ [MkCoordinator "hon" 0 0] (Some []) [] [].

End Samples.

Module ErrorProps.

Section WithLog.
Context {St : Type} (log_of : St → list record).

(** The run raised [e] to its caller after logging it as an error. *)
Definition logged_and_reraised {A} (e : exn) (r : result A * St) : Prop :=
  r.1 = Raise e ∧ ∃ msg, LogRecord ERROR msg (Some e) ∈ log_of r.2.

(** The run logged [e] as an error and returned normally. *)
Definition logged_and_suppressed (e : exn) (r : result unit * St) : Prop :=
  r.1 = Ok tt ∧ ∃ msg, LogRecord ERROR msg (Some e) ∈ log_of r.2.

(** The run returned normally, with a debug record [msg] and no mention
    of an exception among the records it added to [before]. *)
Definition ignored (msg : string) (before : list record)
    (r : result unit * St) : Prop :=
  r.1 = Ok tt
  ∧ ∃ added, log_of r.2 = before ++ added
             ∧ LogRecord DEBUG msg None ∈ added
             ∧ Forall (λ rec, r_exc rec = None) added.

End WithLog.

(** "Every error raised inside an operation is re-raised": whenever the
    guarded part [inner] of an operation raises, so does the operation
    [outer] run from the same state. *)
Definition never_suppresses {St A B} (inner : M St A) (outer : M St B) : Prop :=
  ∀ s e, (inner s).1 = Raise e → (outer s).1 = Raise e.

End ErrorProps.

Module Worlds.
Import Switch Init.

(** A host on which every call returns. *)
Definition quiet_host : Host :=
  MkHost true None (λ _, None) None None (λ _ _, None) (λ _ _ settings, settings).

(** A host on which writing the state raises. *)
Definition failing_host : Host :=
  MkHost true (Some (Exn (OtherException "HomeAssistantError") "no state"))
         (λ _, None) None None (λ _ _, None) (λ _ _ settings, settings).

Definition eco_mode : EntityDescription :=
  Description "ecoMode" "Eco Mode" (Some "mdi:sprout") (Some "eco_mode").

Definition eco_range : HonParam :=
  HonParameterRange (VInt 0) (VInt 0) (VInt 1) ["0"; "1"].

(** An air conditioner whose eco mode is a range, present both as a
    setting of the "settings" command and under the bare key. *)
Definition air_conditioner (eco : HonParam) (attrs : gmap string value) :
    HonAppliance :=
  Appliance "Living room" "AC" attrs
    (<["settings.ecoMode" := eco]> (<["ecoMode" := eco]> ∅))
    ["settings.ecoMode"; "settings.healthMode"]
    ["settings"; "startProgram"; "stopProgram"]
    true.

Definition world_of (dev : HonAppliance) : World := MkWorld dev None [] [].

(** Eco mode as an enumeration of the strings "0" and "1". *)
Definition eco_enum : HonParam := HonParameterEnum (VStr "0") ["0"; "1"].

Definition enum_world : World := world_of (air_conditioner eco_enum ∅).

(** A vendor whose enumerations take the strings they list and nothing
    else, as the setter of [HonParameterEnum] does with its
    [value in self.values]; every other assignment is accepted. *)
Definition not_allowed : exn := Exn ValueError "Allowed values: 0, 1".
Definition listed_only (p : HonParam) (v : value) : option exn :=
  match p, v with
  | HonParameterEnum _ values, VStr s =>
      if str_in s values then None else Some not_allowed
  | HonParameterEnum _ _, _ => Some not_allowed
  | _, _ => None
  end.

(** A host on which every call returns and the vendor validates
    enumerations. *)
Definition strict_host : Host :=
  MkHost true None (λ _, None) None None listed_only (λ _ _ settings, settings).

Definition ac_world : World := world_of (air_conditioner eco_range ∅).

(** The same device with eco mode a bare [HonParameter]. *)
Definition ac_world_base : World :=
  world_of (air_conditioner (HonParameter (VInt 0)) ∅).

(** An unknown kind of appliance. *)
Definition toaster : HonAppliance :=
  Appliance "Toaster" "TOAST" ∅ ∅ ["settings.ecoMode"] ["settings"] true.

Definition const : Const := MkConst "hon" ["switch"] "homassistant" "refresh_token".

Definition client : Hon :=
  MkHon "token-2" [air_conditioner eco_range ∅; toaster] [].

Definition entry : ConfigEntry :=
  Entry "entry-1" "user@example.org"
        (<["email" := "user@example.org"]> (<["password" := "secret"]> ∅)).

(** The vendor accepts the login; the platforms are forwarded. *)
Definition outside_ok : Outside := MkOutside (λ _ _ _ _ _, Ok client) None None.

(** The vendor refuses the login. *)
Definition refused : exn := Exn (OtherException "HonAuthenticationError") "denied".
Definition outside_refusing : Outside :=
  MkOutside (λ _ _ _ _ _, Raise refused) None (Some refused).

(** The host reports the platforms as forwarded before. *)
Definition duplicate : exn :=
  Exn ValueError "Config entry hon for hon.switch has already been setup!".
Definition outside_duplicate : Outside :=
  MkOutside (λ _ _ _ _ _, Ok client) (Some duplicate) None.
Definition outside_forward_fails : Outside :=
  MkOutside (λ _ _ _ _ _, Ok client) (Some refused) None.

(** A host that holds the client of [entry]. *)
Definition hass_with_client : HomeAssistant :=
  Hass (Some "/config") {[ "hon" := {[ "user@example.org" := MkRuntimeData client 0 ]} ]}
       ∅ [MkCoordinator "hon" 0 0] (Some []) [] [].

End Worlds.

(** * The rest of the two modules, and further vocabulary *)

Module SetupSpec.
Import Switch.

(** The entity the platform setup makes of one description on one device,
    if any. *)
Definition entity_for (device : HonAppliance)
    (description : SwitchEntityDescription) : option Entity :=
  match description with
  | HonConfigSwitchEntityDescription d =>
      if str_in (key d) (available_settings device)
      then Some (NewEntity ClsHonConfigSwitchEntity device description)
      else None
  | HonControlSwitchEntityDescription d turn_on_key turn_off_key =>
      if is_not_None (device_get device (key d) VNone)
         || str_in turn_on_key (commands device)
         || str_in turn_off_key (commands device)
      then Some (NewEntity ClsHonControlSwitchEntity device description)
      else None
  | HonSwitchEntityDescription d =>
      if str_in ("settings." +:+ key d) (available_settings device)
      then Some (NewEntity ClsHonSwitchEntity device description)
      else None
  | PlainSwitchEntityDescription _ => None
  end.

(** The entities as a comprehension: device by device, and for each device
    description by description, in the order of the table. *)
Definition comprehension (table : gmap string (list SwitchEntityDescription))
    (devices : list HonAppliance) : list Entity :=
  flat_map (λ device,
              omap (entity_for device)
                   (default [] (table !! appliance_type device)))
           devices.

End SetupSpec.

Module SwitchingProps.
Import Switch.

(** The parameter [p] after [v] has been assigned to its value: what the
    setter stored, or [p] itself when the setter raised. *)
Definition assigned (host : Host) (p : HonParam) (v : value) : HonParam :=
  match assign_value (value_rejected host) p v with
  | Ok stored => stored
  | Raise _ => p
  end.

(** What turning on does to the parameter it finds: a bare [HonParameter]
    is left alone, any other is assigned its max (a range) or
    [constant]. *)
Definition turned_on (host : Host) (constant : value) (p : HonParam) : HonParam :=
  if type_is_HonParameter p then p
  else assigned host p (Props.max_or p constant).

Definition turned_off (host : Host) (constant : value) (p : HonParam) : HonParam :=
  if type_is_HonParameter p then p
  else assigned host p (Props.min_or p constant).


(** The setter accepts [pick p] for the parameter [p] under [k], if there
    is one and it is not a bare [HonParameter]. *)
Definition accepts (host : Host) (k : string) (pick : HonParam → value)
    (dev : HonAppliance) : Prop :=
  ∀ p, settings dev !! k = Some p → type_is_HonParameter p = false →
       value_rejected host p (pick p) = None.





(** The device with [f] applied to the setting under [k], if there is
    one. *)
Definition on_setting (f : HonParam → HonParam) (k : string)
    (dev : HonAppliance) : HonAppliance :=
  with_settings (alter f k) dev.

(** A run [r] from [w] of a [HonSwitchEntity] method in which the setter
    has accepted [v] for the setting under [k]: the store comes first;
    after it come, in order and as far as the calls return, the state
    write, the sending of the "settings" command and the coordinator
    update; the run returns normally exactly when the device has the
    "settings" command and no call raises. *)
Definition switch_run (host : Host) (k : string) (v : value)
    (w : World) (r : result unit * World) : Prop :=
  (∃ done, journal r.2 = journal w ++ SetValue k v :: done
           ∧ done `prefix_of`
               [AsyncWriteHaState; Send "settings"; AsyncSetUpdatedData])
  ∧ (r.1 = Ok tt ↔
     write_ha_state_raises host = None
     ∧ "settings" ∈ commands (device w)
     ∧ send_raises host "settings" = None
     ∧ set_updated_data_raises host = None)
  ∧ (write_ha_state_raises host = None →
     "settings" ∉ commands (device w) →
     r.1 = Raise (Exn KeyError "settings")
     ∧ journal r.2 = journal w ++ [SetValue k v; AsyncWriteHaState]).

(** A run of a [HonConfigSwitchEntity] method in which the setter has
    accepted [v] for the setting under [k]: the store, then the
    coordinator update, then the state write. *)
Definition config_run (host : Host) (k : string) (v : value)
    (w : World) (r : result unit * World) : Prop :=
  (∃ done, journal r.2 = journal w ++ SetValue k v :: done
           ∧ done `prefix_of` [AsyncSetUpdatedData; AsyncWriteHaState])
  ∧ (r.1 = Ok tt ↔
     set_updated_data_raises host = None
     ∧ write_ha_state_raises host = None).

(** A run that raised [KeyError] for [k] having done nothing. *)
Definition key_missing {A} (k : string) (w : World) (r : result A * World) : Prop :=
  r.1 = Raise (Exn KeyError k) ∧ device r.2 = device w
  ∧ attr_is_on r.2 = attr_is_on w ∧ journal r.2 = journal w.

(** The effects a run added to the journal. *)
Definition added (w : World) {A} (r : result A * World) (effects : list effect) : Prop :=
  journal r.2 = journal w ++ effects.

(** Neither a command sent nor a [sync_command] among [effects]. *)
Definition no_command (effects : list effect) : Prop :=
  Forall (λ e, (∀ c, e ≠ Send c) ∧ (∀ m t, e ≠ SyncCommand m t)) effects.

End SwitchingProps.

Module ControlReadProps.
Import Switch SwitchingProps.




End ControlReadProps.

Module UpdateProps.
Import Switch.

(** A run [r] from [w] of [_handle_coordinator_update] in which [is_on]
    gave [on]: the device is untouched and [_attr_is_on] holds [on]; the
    state is written exactly when [update] is set and the write returns; a
    write that raises is suppressed when the exception derives from
    [Exception] and propagates otherwise. *)
Definition refreshed (host : Host) (update on : bool) (w : World)
    (r : result unit * World) : Prop :=
  device r.2 = device w
  ∧ attr_is_on r.2 = Some (VBool on)
  ∧ match update, write_ha_state_raises host with
    | false, _ => r.1 = Ok tt ∧ journal r.2 = journal w
    | true, None => r.1 = Ok tt ∧ journal r.2 = journal w ++ [AsyncWriteHaState]
    | true, Some e =>
        journal r.2 = journal w
        ∧ r.1 = (if isinstance_Exception e then Ok tt else Raise e)
    end.

(** A run that returned normally and changed the log only. *)
Definition only_logged (w : World) (r : result unit * World) : Prop :=
  r.1 = Ok tt ∧ device r.2 = device w ∧ attr_is_on r.2 = attr_is_on w
  ∧ journal r.2 = journal w.

End UpdateProps.

Module AvailableMoreProps.
Import Switch.

(** None of the tests that come before the look-up of the setting blocks:
    the base class is available, [remoteCtrValid] is absent or equal to 1,
    and the last connection event is not "DISCONNECTED". *)
Definition reaches_setting (host : Host) (dev : HonAppliance) : Prop :=
  super_available host = true
  ∧ (∀ v, attributes dev !! "remoteCtrValid" = Some v → ReadProps.equals_one v)
  ∧ attributes dev !! "attributes.lastConnEvent.category"
    ≠ Some (VStr "DISCONNECTED").

End AvailableMoreProps.

(** ** [switch.py]: [HonControlSwitchEntity.available] *)

Module Builtins.

(** [int(v)].  On a [str] the result is [parse s], Python's reading of the
    string (the number, or a [ValueError]); [None] is no number. *)
Definition int_ (parse : string → result Z) (v : value) : result Z :=
  match v with
  | VInt z => Ok z
  | VBool b => Ok (if b then 1 else 0)%Z
  | VStr s => parse s
  | VNone =>
      Raise (Exn (OtherException "TypeError")
               "int() argument must be a string, a bytes-like object or a real number, not 'NoneType'")
  end.

(** The value of an expression that may raise, in any state. *)
Definition evaluated {St A} (r : result A) : M St A :=
  match r with Ok a => ret a | Raise e => raise e end.

End Builtins.

Module SwitchRest.
Import Switch Builtins.

Module HonControlSwitchEntity.
Section Methods.
Context (host : Host) (parse : string → result Z).

(** [super().available and int(...) == 1 and self._device.connection]:
    the operands are evaluated from the left, as far as needed. *)
Definition available : M World bool :=
  dev <- gets device ;;
  result <- (if super_available host then
               n <- evaluated (int_ parse (device_get dev "remoteCtrValid" (VInt 1))) ;;
               if (n =? 1)%Z then ret (connection dev) else ret false
             else ret false) ;;
  _LOGGER DEBUG
    "Control switch %s available: %s (super=%s, remoteCtrValid=%s, connection=%s)"
    None ;;;
  ret result.

End Methods.
End HonControlSwitchEntity.

End SwitchRest.

(** ** [__init__.py]: [async_unload_entry] *)

Module InitRest.
Import Init.

(** [hass.config_entries.async_unload_platforms(entry, PLATFORMS)]: the
    host's answer, or the exception it raises, and what the unloading does
    to the host. *)
Record Unloading : Type := MkUnloading {
  unload_platforms : result bool;
  unload_effect : HomeAssistant → HomeAssistant;
}.

Section Unload.
Context (const : Const) (unloading : Unloading).

Definition async_unload_platforms (entry : ConfigEntry) : M HomeAssistant bool :=
  match unload_platforms unloading with
  | Ok unload => modify (unload_effect unloading) ;;; ret unload
  | Raise e => raise e
  end.

Definition async_unload_entry (entry : ConfigEntry) : M HomeAssistant bool :=
  _LOGGER INFO "Unloading hOn integration for entry: %s" None ;;;
  hass_data <- gets hass_data ;;
  by_entry <- getitem hass_data (DOMAIN const) ;;
  runtime <- getitem by_entry (unique_id entry) ;;
  let refresh_token := refresh_token (rd_hon runtime) in
  async_update_entry entry
    (<[CONF_REFRESH_TOKEN const := refresh_token]> (data entry)) ;;;
  unload <- async_unload_platforms entry ;;
  (if unload then
     hass_data <- gets HomeAssistant.hass_data ;;
     by_entry <- getitem hass_data (DOMAIN const) ;;
     if bool_decide (by_entry = ∅) then
       modify (set_hass_data (delete (DOMAIN const))) ;;;
       _LOGGER INFO "Removed DOMAIN from hass.data" None
     else ret tt
   else ret tt) ;;;
  _LOGGER INFO "Unload result: %s" None ;;;
  ret unload.

End Unload.

End InitRest.

Module UnloadProps.
Import Init InitRest.

(** Unloading the platforms leaves [hass.data] and the stored entries
    alone. *)
Definition unloading_keeps_data (unloading : Unloading) : Prop :=
  ∀ h, hass_data (unload_effect unloading h) = hass_data h
       ∧ config_entries (unload_effect unloading h) = config_entries h.

(** In [after], the entry's stored data carries [token] as refresh token. *)
Definition token_persisted (const : Const) (entry : ConfigEntry)
    (token : string) (after : HomeAssistant) : Prop :=
  config_entries after !! entry_id entry
  = Some (<[CONF_REFRESH_TOKEN const := token]> (data entry)).

(** The state in which the platforms are unloaded: [h] with the token
    stored and the first log record. *)
Definition persisted (const : Const) (entry : ConfigEntry)
    (h : HomeAssistant) (token : string) : HomeAssistant :=
  Hass (config_dir h) (hass_data h)
       (<[entry_id entry := <[CONF_REFRESH_TOKEN const := token]> (data entry)]>
          (config_entries h))
       (coordinators h) (loop h) (forwarded h)
       (hass_log h ++ [LogRecord INFO "Unloading hOn integration for entry: %s" None]).

End UnloadProps.

Module SetupMoreProps.
Import Init.


(** The state in which [async_setup_entry] forwards the platforms, with
    log [lg]. *)
Definition stored (const : Const) (entry : ConfigEntry) (hon : Hon)
    (h : HomeAssistant) (lg : list record) : HomeAssistant :=
  Hass (config_dir h)
       (alter <[unique_id entry :=
                  MkRuntimeData
                    (subscribe_updates hon
                       (make_threadsafe_callback (length (coordinators h))))
                    (length (coordinators h))]>
              (DOMAIN const)
              (<[DOMAIN const := default ∅ (hass_data h !! DOMAIN const)]>
                 (hass_data h)))
       (<[entry_id entry :=
            <[CONF_REFRESH_TOKEN const := refresh_token hon]> (data entry)]>
          (config_entries h))
       (coordinators h ++ [MkCoordinator (DOMAIN const) 0 0])
       (loop h) (forwarded h) lg.

End SetupMoreProps.

Module MoreWorlds.
Import Switch Init InitRest.


(** Eco mode as an enumeration of names, which lists neither "0" nor
    "1". *)
Definition named_enum : HonParam := HonParameterEnum (VStr "off") ["off"; "on"].
Definition named_world : World :=
  Worlds.world_of (Worlds.air_conditioner named_enum ∅).

(** A vendor whose [sync_command] copies the eco mode of the main command
    onto that of the target. *)
Definition copying_host : Host :=
  MkHost true None (λ _, None) None None (λ _ _, None)
         (λ main target settings,
            match settings !! (main +:+ ".ecoMode") with
            | Some p => <[target +:+ ".ecoMode" := p]> settings
            | None => settings
            end).

(** A host on which a pending task is cancelled. *)
Definition cancelled : exn := Exn CancelledError "".

(** A device without any command. *)
Definition mute (dev : HonAppliance) : HonAppliance :=
  Appliance (nick_name dev) (appliance_type dev) (attributes dev) (settings dev)
            (available_settings dev) [] (connection dev).

(** A washing machine that reports [active] and has no command. *)
Definition idle_washer : HonAppliance :=
  Appliance "Washer" "WM" {[ "active" := VBool false ]} ∅ [] [] true.

Definition active : EntityDescription :=
  Description "active" "Washing Machine" (Some "mdi:washing-machine")
              (Some "washing_machine").

(** An air conditioner that is connected while its last connection event
    says otherwise. *)
Definition flapping : HonAppliance :=
  Worlds.air_conditioner Worlds.eco_range
    {[ "attributes.lastConnEvent.category" := VStr "DISCONNECTED" ]}.

(** A reading of decimal strings that knows "1" only. *)
Definition parse_one (s : string) : result Z :=
  if bool_decide (s = "1") then Ok 1%Z
  else Raise (Exn ValueError "invalid literal for int() with base 10").

(** The platforms unload; the unloading touches nothing. *)
Definition unloading_ok : Unloading := MkUnloading (Ok true) (λ h, h).
Definition unloading_fails : Unloading :=
  MkUnloading (Raise Worlds.refused) (λ h, h).

(** An entry whose data lacks the password, and one that lacks both. *)
Definition entry_without_password : ConfigEntry :=
  Entry "entry-2" "nobody@example.org" {[ "email" := "nobody@example.org" ]}.


(** The vendor call is cancelled. *)
Definition outside_cancelled : Outside :=
  MkOutside (λ _ _ _ _ _, Raise cancelled) (Some cancelled) (Some cancelled).

End MoreWorlds.

(** * Verification *)

(** ** Frames: what a computation leaves alone *)

Section Frames.
Context {St X : Type} (proj : St → X).

Lemma preserves_ret {A} (a : A) : preserves proj (ret a).
Proof. by intros s. Qed.

Lemma preserves_raise {A} (e : exn) : preserves proj (@raise St A e).
Proof. by intros s. Qed.

Lemma preserves_gets {A} (f : St → A) : preserves proj (gets f).
Proof. by intros s. Qed.

Lemma preserves_getitem {V} (d : gmap string V) k : preserves proj (getitem d k).
Proof. intros s. unfold getitem. by destruct (d !! k). Qed.

Lemma preserves_modify (f : St → St) :
  (∀ s, proj (f s) = proj s) → preserves proj (modify f).
Proof. intros Hf s. apply Hf. Qed.

Lemma preserves_external (o : option exn) (f : St → St) :
  (∀ s, proj (f s) = proj s) → preserves proj (external o f).
Proof. intros Hf s. destruct o; [done | apply Hf]. Qed.

Lemma preserves_bind {A B} (c : M St A) (k : A → M St B) :
  preserves proj c → (∀ a, preserves proj (k a)) → preserves proj (bind c k).
Proof.
  intros Hc Hk s. unfold bind. specialize (Hc s).
  destruct (c s) as [[a | e] s']; simpl in *; [| done].
  by rewrite Hk.
Qed.

Lemma preserves_dispatch {A} (clauses : list ((exn → bool) * (exn → M St A))) e :
  Forall (λ cl, ∀ e, preserves proj (cl.2 e)) clauses → preserves proj (dispatch clauses e).
Proof.
  induction 1 as [| [accepts handler] rest Hh _ IH]; simpl.
  - apply preserves_raise.
  - destruct (accepts e); [apply Hh | apply IH].
Qed.

Lemma preserves_try_except {A} (body : M St A) clauses :
  preserves proj body → Forall (λ cl, ∀ e, preserves proj (cl.2 e)) clauses →
  preserves proj (try_except body clauses).
Proof.
  intros Hb Hc s. unfold try_except. specialize (Hb s).
  destruct (body s) as [[a | e] s']; simpl in *; [done |].
  by rewrite (preserves_dispatch _ _ Hc).
Qed.

Lemma preserves_for_each {A} (xs : list A) (body : A → M St unit) :
  (∀ x, preserves proj (body x)) → preserves proj (for_each xs body).
Proof.
  intros Hb. induction xs as [| x xs IH]; simpl.
  - apply preserves_ret.
  - apply preserves_bind; [apply Hb | intros _; apply IH].
Qed.

Lemma preserves_if {A} (b : bool) (c1 c2 : M St A) :
  preserves proj c1 → preserves proj c2 → preserves proj (if b then c1 else c2).
Proof. by destruct b. Qed.

End Frames.

Create HintDb frame.
#[local] Hint Resolve preserves_ret preserves_raise preserves_gets
  preserves_getitem preserves_if : frame.
#[local] Hint Extern 2 (preserves _ (bind _ _)) =>
  apply preserves_bind; [| intros ?] : frame.
#[local] Hint Extern 2 (preserves _ (try_except _ _)) =>
  apply preserves_try_except; [| repeat constructor; intros ?] : frame.
#[local] Hint Extern 2 (preserves _ (modify _)) =>
  apply preserves_modify; intros ?; reflexivity : frame.
#[local] Hint Extern 2 (preserves _ (external _ _)) =>
  apply preserves_external; intros ?; reflexivity : frame.

(** ** The calls of an entity and the device *)

Section EntityFrames.
Import Switch.
Context (host : Host).

Lemma logger_device l msg exc : preserves device (_LOGGER l msg exc).
Proof. unfold _LOGGER. auto with frame. Qed.

Lemma logger_journal l msg exc : preserves journal (_LOGGER l msg exc).
Proof. unfold _LOGGER. auto with frame. Qed.

Lemma logger_attr l msg exc : preserves attr_is_on (_LOGGER l msg exc).
Proof. unfold _LOGGER. auto with frame. Qed.

Lemma write_ha_state_device : preserves device (async_write_ha_state host).
Proof. unfold async_write_ha_state. auto with frame. Qed.

Lemma set_updated_data_device :
  preserves device (coordinator_async_set_updated_data host).
Proof. unfold coordinator_async_set_updated_data. auto with frame. Qed.

Lemma send_device command : preserves device (commands_send host command).
Proof.
  unfold commands_send. apply preserves_bind; [auto with frame |].
  intros dev. destruct (str_in _ _); auto with frame.
Qed.

End EntityFrames.

#[local] Hint Resolve logger_device logger_journal logger_attr
  write_ha_state_device set_updated_data_device send_device : frame.

(** ** Switching a setting on and off *)

Section TurnOnOff.
Import Switch Props.
Context (host : Host) (d : EntityDescription).


(** Everything [HonConfigSwitchEntity] does after storing the value. *)
Lemma config_tail_device msg : preserves device (config_tail host msg).
Proof. unfold config_tail. auto 10 with frame. Qed.

(** The assignment, followed by [tail]: the setter raises and [tail] is not
    run, or it stores and [tail] runs on the device with the new value. *)
Lemma set_value_run k s v (tail : M World unit) w :
  (set_value host k s v ;;; tail) w
  = match value_rejected host s v with
    | Some e => (Raise e, w)
    | None => tail (stored_under k s v w)
    end.
Proof.
  unfold bind, set_value, assign_value.
  by destruct (value_rejected host s v).
Qed.

Lemma max_or_match s c :
  match s with HonParameterRange _ _ mx _ => mx | _ => c end = max_or s c.
Proof. by destruct s. Qed.

Lemma min_or_match s c :
  match s with HonParameterRange _ mn _ _ => mn | _ => c end = min_or s c.
Proof. by destruct s. Qed.

(** Run a turn-on/off method up to its class test on the setting found
    under [Hk]. *)
Ltac run_to_test Hk :=
  unfold bind at 1 2 3; simpl; unfold getitem; rewrite Hk; simpl.

(** Run it up to the assignment. *)
Ltac run_to_assignment Hk Hty :=
  run_to_test Hk; rewrite Hty;
  rewrite ?max_or_match, ?min_or_match;
  exact (set_value_run _ _ _ _ _).

(** The four methods on a setting that is not a bare [HonParameter]. *)
Lemma switch_turn_on_run w s :
  settings (device w) !! ("settings." +:+ key d) = Some s →
  type_is_HonParameter s = false →
  HonSwitchEntity.async_turn_on host d w
  = match value_rejected host s (max_or s (VInt 1)) with
    | Some e => (Raise e, logged "Switch %s turning ON" w)
    | None =>
        switch_tail host "Switch %s turned ON successfully"
          (stored_under ("settings." +:+ key d) s (max_or s (VInt 1))
             (logged "Switch %s turning ON" w))
    end.
Proof.
  intros Hk Hty. unfold HonSwitchEntity.async_turn_on.
  run_to_assignment Hk Hty.
Qed.

Lemma switch_turn_off_run w s :
  settings (device w) !! ("settings." +:+ key d) = Some s →
  type_is_HonParameter s = false →
  HonSwitchEntity.async_turn_off host d w
  = match value_rejected host s (min_or s (VInt 0)) with
    | Some e => (Raise e, logged "Switch %s turning OFF" w)
    | None =>
        switch_tail host "Switch %s turned OFF successfully"
          (stored_under ("settings." +:+ key d) s (min_or s (VInt 0))
             (logged "Switch %s turning OFF" w))
    end.
Proof.
  intros Hk Hty. unfold HonSwitchEntity.async_turn_off.
  run_to_assignment Hk Hty.
Qed.

Lemma config_turn_on_run w s :
  settings (device w) !! key d = Some s →
  type_is_HonParameter s = false →
  HonConfigSwitchEntity.async_turn_on host d w
  = match value_rejected host s (max_or s (VStr "1")) with
    | Some e => (Raise e, logged "Config switch %s turning ON" w)
    | None =>
        config_tail host "Config switch %s turned ON successfully"
          (stored_under (key d) s (max_or s (VStr "1"))
             (logged "Config switch %s turning ON" w))
    end.
Proof.
  intros Hk Hty. unfold HonConfigSwitchEntity.async_turn_on.
  run_to_assignment Hk Hty.
Qed.

Lemma config_turn_off_run w s :
  settings (device w) !! key d = Some s →
  type_is_HonParameter s = false →
  HonConfigSwitchEntity.async_turn_off host d w
  = match value_rejected host s (min_or s (VStr "0")) with
    | Some e => (Raise e, logged "Config switch %s turning OFF" w)
    | None =>
        config_tail host "Config switch %s turned OFF successfully"
          (stored_under (key d) s (min_or s (VStr "0"))
             (logged "Config switch %s turning OFF" w))
    end.
Proof.
  intros Hk Hty. unfold HonConfigSwitchEntity.async_turn_off.
  run_to_assignment Hk Hty.
Qed.







(** With a setting that is exactly a [HonParameter], the four methods
    stop at the class test: two log records are all that happens. *)
Lemma warned_returned_early w msg1 msg2 r :
  r = warned w msg1 msg2 → returned_early w r.
Proof. by intros ->. Qed.

Lemma switch_turn_on_refused w v :
  settings (device w) !! ("settings." +:+ key d) = Some (HonParameter v) →
  returned_early w (HonSwitchEntity.async_turn_on host d w).
Proof.
  intros Hk. eapply warned_returned_early.
  unfold HonSwitchEntity.async_turn_on. run_to_test Hk. reflexivity.
Qed.

Lemma switch_turn_off_refused w v :
  settings (device w) !! ("settings." +:+ key d) = Some (HonParameter v) →
  returned_early w (HonSwitchEntity.async_turn_off host d w).
Proof.
  intros Hk. eapply warned_returned_early.
  unfold HonSwitchEntity.async_turn_off. run_to_test Hk. reflexivity.
Qed.

Lemma config_turn_on_refused w v :
  settings (device w) !! key d = Some (HonParameter v) →
  returned_early w (HonConfigSwitchEntity.async_turn_on host d w).
Proof.
  intros Hk. eapply warned_returned_early.
  unfold HonConfigSwitchEntity.async_turn_on. run_to_test Hk. reflexivity.
Qed.

Lemma config_turn_off_refused w v :
  settings (device w) !! key d = Some (HonParameter v) →
  returned_early w (HonConfigSwitchEntity.async_turn_off host d w).
Proof.
  intros Hk. eapply warned_returned_early.
  unfold HonConfigSwitchEntity.async_turn_off. run_to_test Hk. reflexivity.
Qed.

End TurnOnOff.


(** C8. For a [HonSwitchEntity] or [HonConfigSwitchEntity] whose setting is
    exactly a [HonParameter], [async_turn_on] and [async_turn_off] return
    early: the device is unchanged and the journal of effects gains nothing
    (no value is assigned, no command is sent). *)
Theorem turn_on_off_refused_on_base_parameter
    (host : Switch.Host) (d : Switch.EntityDescription) (w : Switch.World)
    (v : value) :
  (settings (Switch.device w) !! ("settings." +:+ Switch.key d)
     = Some (HonParameter v) →
   Props.returned_early w (Switch.HonSwitchEntity.async_turn_on host d w)
   ∧ Props.returned_early w (Switch.HonSwitchEntity.async_turn_off host d w))
  ∧ (settings (Switch.device w) !! Switch.key d = Some (HonParameter v) →
     Props.returned_early w (Switch.HonConfigSwitchEntity.async_turn_on host d w)
     ∧ Props.returned_early w (Switch.HonConfigSwitchEntity.async_turn_off host d w)).
Proof.
  split; intros Hk; split.
  - by eapply switch_turn_on_refused.
  - by eapply switch_turn_off_refused.
  - by eapply config_turn_on_refused.
  - by eapply config_turn_off_refused.
Qed.

(** ** Control switches *)

Section ControlSwitch.
Import Switch ControlProps.
Context (host : Host) (d : EntityDescription) (turn_on_key turn_off_key : string).

(** The journal of the run in the goal extends [journal w] by an initial
    part of the expected effects. *)
Ltac journal_prefix :=
  eexists; split;
  [ first [ symmetry; apply app_nil_r
          | rewrite <- ?app_assoc; reflexivity ]
  | by eexists ].

(** Case analysis on what each call of a control method does. *)
Ltac run_control :=
  unfold control_run, calls_return, control_effects, sync_command,
    coordinator_async_set_updated_data, commands_send, async_write_ha_state,
    set_attribute, str_in, bind, external;
  simpl;
  destruct (sync_command_raises host); simpl;
  [| destruct (set_updated_data_raises host); simpl;
     [| case_bool_decide; simpl;
        [ match goal with
          | |- context [send_raises host ?c] => destruct (send_raises host c)
          end; simpl;
          [| destruct (write_ha_state_raises host); simpl ] |] ] ];
  (split;
   [ journal_prefix
   | split;
     [ split; [ try (intros [=])
              | try (intros (? & ? & ? & ? & ?); congruence) ]
     | try (intros [=]) ] ]).

Lemma control_turn_on_run w :
  control_run host turn_on_key (key d) true w
    (HonControlSwitchEntity.async_turn_on host d turn_on_key w).
Proof.
  unfold HonControlSwitchEntity.async_turn_on.
  run_control.
  - done.
  - rewrite <- !app_assoc. split; [done | apply lookup_insert_eq].
Qed.

Lemma control_turn_off_run w :
  control_run host turn_off_key (key d) false w
    (HonControlSwitchEntity.async_turn_off host d turn_off_key w).
Proof.
  unfold HonControlSwitchEntity.async_turn_off.
  run_control.
  - done.
  - rewrite <- !app_assoc. split; [done | apply lookup_insert_eq].
Qed.

End ControlSwitch.

(** C4. For a [HonControlSwitchEntity], [async_turn_on] calls
    [sync_command] and updates the coordinator, then sends the command named
    by [turn_on_key], then sets the device attribute named by the
    description's key to [True]; [async_turn_off] does the same with
    [turn_off_key] and [False].  The effects of any run are an initial part
    of that sequence, so the command is never sent before the two calls,
    nor the attribute set before the command is sent; the run returns
    normally exactly when the device has the command and no call raises. *)
Theorem control_switch_turn_on_off
    (host : Switch.Host) (d : Switch.EntityDescription)
    (turn_on_key turn_off_key : string) (w : Switch.World) :
  ControlProps.control_run host turn_on_key (Switch.key d) true w
    (Switch.HonControlSwitchEntity.async_turn_on host d turn_on_key w)
  ∧ ControlProps.control_run host turn_off_key (Switch.key d) false w
      (Switch.HonControlSwitchEntity.async_turn_off host d turn_off_key w).
Proof. split; [apply control_turn_on_run | apply control_turn_off_run]. Qed.

(** ** The [is_on] properties *)

Section IsOn.
Import Switch ReadProps.
Context (d : EntityDescription).

Lemma py_eq_one v : py_eq v (VInt 1) = true ↔ equals_one v.
Proof.
  unfold equals_one. destruct v as [| b | z | s]; simpl.
  - split; [congruence | intros [? | ?]; congruence].
  - destruct b; simpl.
    + split; [by right | done].
    + split; [discriminate | intros [? | ?]; discriminate].
  - rewrite Z.eqb_eq. split; [intros ->; by left |].
    intros [? | ?]; congruence.
  - split; [congruence | intros [? | ?]; congruence].
Qed.

Lemma py_eq_str v s : py_eq v (VStr s) = true ↔ v = VStr s.
Proof.
  destruct v as [| b | z | s']; simpl; try (split; congruence).
  rewrite bool_decide_eq_true. split; congruence.
Qed.

Lemma switch_is_on_run w :
  HonSwitchEntity.is_on d w
  = (Ok (py_eq (device_get (device w) (key d) (VInt 0)) (VInt 1)),
     (_LOGGER DEBUG "Switch %s is_on: key=%s, value=%s, result=%s" None w).2).
Proof. reflexivity. Qed.

Lemma config_is_on_reads w : reads_only w (HonConfigSwitchEntity.is_on d w).
Proof.
  unfold reads_only, HonConfigSwitchEntity.is_on, bind, getitem. simpl.
  by destruct (settings (device w) !! key d).
Qed.

Lemma config_is_on_run w s :
  settings (device w) !! key d = Some s →
  (HonConfigSwitchEntity.is_on d w).1
  = Ok (match param_min s with
        | Some mn => py_ne (param_value s) mn
        | None => py_eq (param_value s) (VStr "1")
        end).
Proof.
  intros Hk. unfold HonConfigSwitchEntity.is_on, bind, getitem. simpl.
  by rewrite Hk.
Qed.

End IsOn.

(** C5. Every [is_on] only reads: the device, the entity and the journal of
    effects are as before.  [HonSwitchEntity.is_on] is true iff the device
    value for the key equals 1, and false when the key is absent;
    [HonControlSwitchEntity.is_on] returns the device value for the key,
    [False] when absent; [HonConfigSwitchEntity.is_on], for the setting
    found under the key, is true iff its value differs from its min when it
    has a min, and otherwise iff its value is the string "1". *)
Theorem is_on_reads_through
    (d : Switch.EntityDescription) (w : Switch.World) :
  (ReadProps.reads_only w (Switch.HonSwitchEntity.is_on d w)
   ∧ (∀ v, attributes (Switch.device w) !! Switch.key d = Some v →
        ReadProps.returns_iff (Switch.HonSwitchEntity.is_on d w).1
          (ReadProps.equals_one v))
   ∧ (attributes (Switch.device w) !! Switch.key d = None →
        (Switch.HonSwitchEntity.is_on d w).1 = Ok false))
  ∧ (ReadProps.reads_only w (Switch.HonControlSwitchEntity.is_on d w)
     ∧ (Switch.HonControlSwitchEntity.is_on d w).1
       = Ok (default (VBool false) (attributes (Switch.device w) !! Switch.key d)))
  ∧ (ReadProps.reads_only w (Switch.HonConfigSwitchEntity.is_on d w)
     ∧ ∀ s, settings (Switch.device w) !! Switch.key d = Some s →
         (∀ mn, param_min s = Some mn →
            ReadProps.returns_iff (Switch.HonConfigSwitchEntity.is_on d w).1
              (py_eq (param_value s) mn = false))
         ∧ (param_min s = None →
            ReadProps.returns_iff (Switch.HonConfigSwitchEntity.is_on d w).1
              (param_value s = VStr "1"))).
Proof.
  repeat split.
  - intros v Hv. rewrite switch_is_on_run. unfold device_get. rewrite Hv.
    eexists. split; [reflexivity | apply py_eq_one].
  - intros Hv. rewrite switch_is_on_run. unfold device_get. by rewrite Hv.
  - apply config_is_on_reads.
  - apply config_is_on_reads.
  - apply config_is_on_reads.
  - intros mn Hmn. rewrite (config_is_on_run d w s) by done. rewrite Hmn.
    eexists. split; [reflexivity |]. unfold py_ne. apply negb_true_iff.
  - intros Hmn. rewrite (config_is_on_run d w s) by done. rewrite Hmn.
    eexists. split; [reflexivity | apply py_eq_str].
Qed.

(** ** Availability *)

Section Available.
Import Switch ReadProps AvailableProps.
Context (host : Host) (d : EntityDescription).

Lemma available_run w :
  (HonSwitchEntity.available host d w).1 = available_result host d (device w).
Proof.
  unfold HonSwitchEntity.available, available_result.
  destruct (super_available host); simpl; [| done].
  unfold bind at 1. simpl.
  destruct (py_eq (device_get (device w) "remoteCtrValid" (VInt 1)) (VInt 1));
    simpl; [| done].
  destruct (py_eq (device_get (device w) "attributes.lastConnEvent.category" VNone)
                  (VStr "DISCONNECTED")); simpl; [done |].
  unfold bind, getitem. simpl.
  destruct (settings (device w) !! ("settings." +:+ key d)) as [s |]; simpl;
    [| done].
  by destruct (isinstance_HonParameterRange s && _).
Qed.

Lemma available_result_remote_blocks dev v :
  attributes dev !! "remoteCtrValid" = Some v → ¬ equals_one v →
  available_result host d dev = Ok false.
Proof.
  intros Hv Hne. unfold available_result, device_get. rewrite Hv. simpl.
  destruct (super_available host); simpl; [| done].
  destruct (py_eq v (VInt 1)) eqn:Heq; simpl; [| done].
  apply py_eq_one in Heq. contradiction.
Qed.

Lemma available_result_disconnected dev :
  attributes dev !! "attributes.lastConnEvent.category"
    = Some (VStr "DISCONNECTED") →
  available_result host d dev = Ok false.
Proof.
  intros Hv. unfold available_result.
  destruct (super_available host); simpl; [| done].
  destruct (negb _); [done |].
  unfold device_get at 1. by rewrite Hv.
Qed.

Lemma available_result_short_range dev v mn mx vs :
  settings dev !! ("settings." +:+ key d) = Some (HonParameterRange v mn mx vs) →
  (length vs < 2)%nat →
  available_result host d dev = Ok false.
Proof.
  intros Hs Hlen. unfold available_result. rewrite Hs. simpl.
  apply Nat.ltb_lt in Hlen. rewrite Hlen. simpl.
  by repeat match goal with |- context [if ?b then _ else _] => destruct b end.
Qed.

Lemma available_result_default dev :
  attributes dev !! "remoteCtrValid" = None →
  available_result host d dev
  = available_result host d (with_attributes <["remoteCtrValid" := VInt 1]> dev).
Proof.
  intros Hv. unfold available_result, device_get. simpl.
  rewrite Hv, lookup_insert_eq, lookup_insert_ne by done. done.
Qed.

End Available.

(** C10. [HonSwitchEntity.available] is [False] whenever the device's
    [remoteCtrValid] is present and not equal to 1, or its last connection
    event category is "DISCONNECTED", or the setting is a
    [HonParameterRange] with fewer than 2 values.  An absent
    [remoteCtrValid] counts as 1: the answer is the one for a device
    reporting 1, and it is [True] when nothing else blocks. *)
Theorem switch_available_blocked
    (host : Switch.Host) (d : Switch.EntityDescription) (w : Switch.World) :
  (∀ v, attributes (Switch.device w) !! "remoteCtrValid" = Some v →
        ¬ ReadProps.equals_one v →
        (Switch.HonSwitchEntity.available host d w).1 = Ok false)
  ∧ (attributes (Switch.device w) !! "attributes.lastConnEvent.category"
       = Some (VStr "DISCONNECTED") →
     (Switch.HonSwitchEntity.available host d w).1 = Ok false)
  ∧ (∀ v mn mx vs,
       settings (Switch.device w) !! ("settings." +:+ Switch.key d)
         = Some (HonParameterRange v mn mx vs) →
       (length vs < 2)%nat →
       (Switch.HonSwitchEntity.available host d w).1 = Ok false)
  ∧ (attributes (Switch.device w) !! "remoteCtrValid" = None →
     (Switch.HonSwitchEntity.available host d w).1
     = (Switch.HonSwitchEntity.available host d
          (AvailableProps.with_remote_ctr_valid w)).1
     ∧ ∀ s, Switch.super_available host = true →
            attributes (Switch.device w) !! "attributes.lastConnEvent.category"
              ≠ Some (VStr "DISCONNECTED") →
            settings (Switch.device w) !! ("settings." +:+ Switch.key d) = Some s →
            (isinstance_HonParameterRange s = true →
             (2 ≤ length (param_values s))%nat) →
            (Switch.HonSwitchEntity.available host d w).1 = Ok true).
Proof.
  split; [| split; [| split]].
  - intros v Hv Hne. rewrite available_run.
    by eapply available_result_remote_blocks.
  - intros Hv. rewrite available_run. by apply available_result_disconnected.
  - intros v mn mx vs Hs Hlen. rewrite available_run.
    by eapply available_result_short_range.
  - intros Habsent. split.
    { rewrite !available_run. by apply available_result_default. }
    intros s Hsup Hcat Hs Hrange. rewrite available_run.
    unfold AvailableProps.available_result, device_get.
    rewrite Hsup, Habsent, Hs. simpl.
    assert (isinstance_HonParameterRange s
            && (length (param_values s) <? 2)%nat = false) as ->.
    { destruct (isinstance_HonParameterRange s); [| done].
      simpl. by apply Nat.ltb_ge, Hrange. }
    destruct (attributes (Switch.device w) !! "attributes.lastConnEvent.category")
      as [c |] eqn:Hc; simpl; [| done].
    destruct (py_eq c (VStr "DISCONNECTED")) eqn:Heq; [| done].
    apply py_eq_str in Heq. congruence.
Qed.

(** ** The platform setup *)

Section Loops.
Context {A B : Type} (P : A → Prop) (f : A → B → A).

(** A loop invariant for [for x in xs: acc = f acc x]. *)
Lemma fold_left_invariant (xs : list B) (a : A) :
  P a → (∀ acc x, x ∈ xs → P acc → P (f acc x)) → P (fold_left f xs a).
Proof.
  revert a. induction xs as [| x xs IH]; intros a Ha Hstep; simpl; [done |].
  apply IH.
  - apply Hstep; [by left | done].
  - intros acc y Hy. apply Hstep. by right.
Qed.

End Loops.

Section Setup.
Import Switch SetupProps.
Context (table : gmap string (list SwitchEntityDescription))
        (devices : list HonAppliance).

Lemma get_is_not_None (device : HonAppliance) k :
  is_not_None (device_get device k VNone) = true →
  ∃ v, attributes device !! k = Some v ∧ v ≠ VNone.
Proof.
  unfold device_get. destruct (attributes device !! k) as [v |]; simpl; [| done].
  intros Hv. exists v. split; [done |]. by destruct v.
Qed.

(** One iteration of the inner loop keeps every entity justified. *)
Lemma setup_description_justified device descriptions description entities :
  device ∈ devices →
  table !! appliance_type device = Some descriptions →
  description ∈ descriptions →
  Forall (justified table devices) entities →
  Forall (justified table devices) (setup_description device entities description).
Proof.
  intros Hdev Htab Hin Hall.
  assert (∀ cls, supported device description cls →
                 Forall (justified table devices)
                        (entities ++ [NewEntity cls device description])) as Hadd.
  { intros cls Hsup. apply Forall_app. split; [done |].
    apply Forall_singleton. split; [done |]. split; [| done].
    exists descriptions. done. }
  unfold setup_description, str_in.
  destruct description as [d ton toff | d | d | d]; simpl; [| | | done].
  - destruct (is_not_None _) eqn:Hget; simpl.
    { apply Hadd. split; [done |]. left. by apply get_is_not_None. }
    case_bool_decide; simpl.
    { apply Hadd. split; [done |]. right. by left. }
    case_bool_decide; simpl; [| done].
    apply Hadd. split; [done |]. right. by right.
  - case_bool_decide; simpl; [| done]. by apply Hadd.
  - case_bool_decide; simpl; [| done]. by apply Hadd.
Qed.

Lemma setup_device_justified device entities :
  device ∈ devices →
  Forall (justified table devices) entities →
  Forall (justified table devices) (setup_device table entities device).
Proof.
  intros Hdev Hall. unfold setup_device.
  destruct (table !! appliance_type device) as [descriptions |] eqn:Htab;
    simpl; [| done].
  apply fold_left_invariant; [done |].
  intros acc description Hin Hacc.
  by eapply setup_description_justified.
Qed.

Lemma setup_loop_justified :
  Forall (justified table devices) (fold_left (setup_device table) devices []).
Proof.
  apply fold_left_invariant; [constructor |].
  intros acc device Hin Hacc. by apply setup_device_justified.
Qed.

End Setup.

(** C9. The switch platform's [async_setup_entry], for the client stored
    under the entry, hands over entities that each stand for one of the
    client's appliances and for a description that [SWITCHES] lists for the
    appliance's type and that the appliance supports: a config description
    only if its key is in [available_settings], a switch description only if
    "settings.<key>" is, a control description only if the device has a
    value for the key or has the turn-on or the turn-off command; so a
    device whose type is not in [SWITCHES] yields no entity. *)
Theorem setup_creates_supported_entities
    (DOMAIN : string) (table : gmap string (list Switch.SwitchEntityDescription))
    (entry : ConfigEntry) (hass : HomeAssistant)
    (by_entry : gmap string RuntimeData) (runtime : RuntimeData) :
  hass_data hass !! DOMAIN = Some by_entry →
  by_entry !! unique_id entry = Some runtime →
  ∃ entities,
    Switch.async_setup_entry DOMAIN table entry hass = (Ok entities, hass)
    ∧ (∀ e, e ∈ entities →
         SetupProps.justified table (appliances (rd_hon runtime)) e)
    ∧ (∀ device, table !! appliance_type device = None →
         ∀ e, e ∈ entities → Switch._device e ≠ device).
Proof.
  intros Hdom Hentry. eexists. split; [| split].
  - unfold Switch.async_setup_entry, bind, getitem. simpl.
    rewrite Hdom. simpl. rewrite Hentry. reflexivity.
  - intros e He. revert e He. apply Forall_forall, setup_loop_justified.
  - intros device Hnone e He Heq.
    pose proof (setup_loop_justified table (appliances (rd_hon runtime))) as Hall.
    rewrite Forall_forall in Hall.
    destruct (Hall e He) as (_ & (descriptions & Htab & _) & _).
    congruence.
Qed.

(** ** The description tables after import *)

Section ModuleInit.
Import Switch.
Context (unique_entities :
           list SwitchEntityDescription → list SwitchEntityDescription →
           list SwitchEntityDescription).

(** The dict literal has no repeated key, so each key holds its tuple. *)
Lemma literal_keys_distinct : NoDup (SWITCHES_items.*1).
Proof. apply (bool_decide_unpack _). vm_compute. exact I. Qed.

Lemma literal_lookup ty descriptions :
  SWITCHES_literal !! ty = Some descriptions ↔ (ty, descriptions) ∈ SWITCHES_items.
Proof.
  unfold SWITCHES_literal. symmetry.
  apply elem_of_list_to_map, literal_keys_distinct.
Qed.

Lemma literal_WD : SWITCHES_literal !! "WD" = Some SWITCHES_WD.
Proof. vm_compute. reflexivity. Qed.

Lemma literal_WM : SWITCHES_literal !! "WM" = Some SWITCHES_WM.
Proof. vm_compute. reflexivity. Qed.

Lemma literal_TD : SWITCHES_literal !! "TD" = Some SWITCHES_TD.
Proof. vm_compute. reflexivity. Qed.

(** The state after one assignment whose operands are present. *)
Lemma assign_unique_entities_run target a b x y m :
  SWITCHES m !! a = Some x → SWITCHES m !! b = Some y →
  assign_unique_entities unique_entities target a b m
  = (Ok tt, MkModuleState (<[target := unique_entities x y]> (SWITCHES m))
                          (assigned m ++ [target])).
Proof.
  intros Ha Hb. unfold assign_unique_entities, bind, gets, getitem.
  rewrite Ha. simpl. rewrite Hb. reflexivity.
Qed.

Lemma module_init_run :
  module_init unique_entities
  = (Ok tt,
     MkModuleState
       (<["WD" := unique_entities (unique_entities SWITCHES_WD SWITCHES_WM)
                                  SWITCHES_TD]>
          (<["WD" := unique_entities SWITCHES_WD SWITCHES_WM]> SWITCHES_literal))
       ["WD"; "WD"]).
Proof.
  unfold module_init, module_body. unfold bind at 1.
  rewrite (assign_unique_entities_run "WD" "WD" "WM" SWITCHES_WD SWITCHES_WM)
    by (apply literal_WD || apply literal_WM).
  erewrite assign_unique_entities_run; [reflexivity | |].
  - apply lookup_insert_eq.
  - cbn [SWITCHES]. rewrite lookup_insert_ne by done. apply literal_TD.
Qed.

End ModuleInit.

(** C3 as stated fails: importing the module assigns to [SWITCHES["WD"]],
    whatever [unique_entities] computes. *)
Lemma switches_WD_reassigned :
  ¬ (∀ unique_entities ty descriptions,
       Switch.SWITCHES_literal !! ty = Some descriptions →
       Switch.SWITCHES (Switch.module_init unique_entities).2 !! ty
         = Some descriptions
       ∧ ty ∉ Switch.assigned (Switch.module_init unique_entities).2).
Proof.
  intros Hstatic.
  destruct (Hstatic (λ x _, x) "WD" Switch.SWITCHES_WD literal_WD) as [_ Hnot].
  apply Hnot. rewrite module_init_run. simpl. by left.
Qed.

(** C3, amended.  Importing the module succeeds and assigns to [SWITCHES]
    twice, both times under "WD", which ends as
    [unique_entities(unique_entities(WD, WM), TD)] of the literal tuples;
    under every other appliance type [SWITCHES] holds what the literal
    holds. *)
Theorem switches_static_except_WD
    (unique_entities :
       list Switch.SwitchEntityDescription → list Switch.SwitchEntityDescription →
       list Switch.SwitchEntityDescription) :
  (Switch.module_init unique_entities).1 = Ok tt
  ∧ Switch.assigned (Switch.module_init unique_entities).2 = ["WD"; "WD"]
  ∧ Switch.SWITCHES (Switch.module_init unique_entities).2 !! "WD"
    = Some (unique_entities
              (unique_entities Switch.SWITCHES_WD Switch.SWITCHES_WM)
              Switch.SWITCHES_TD)
  ∧ ∀ ty, ty ≠ "WD" →
      Switch.SWITCHES (Switch.module_init unique_entities).2 !! ty
      = Switch.SWITCHES_literal !! ty.
Proof.
  rewrite module_init_run. cbn [fst snd Switch.SWITCHES Switch.assigned].
  split; [done |]. split; [done |]. split.
  - apply lookup_insert_eq.
  - intros ty Hty. by rewrite !lookup_insert_ne.
Qed.

(** ** [__init__.py]: frames *)

Section InitFrames.
Import Init InitProps.
Context (const : Const) (outside : Outside).

Lemma logger_relog l msg exc h :
  _LOGGER l msg exc h = (Ok tt, relog h (hass_log h ++ [LogRecord l msg exc])).
Proof. reflexivity. Qed.

(** A loop that only logs returns, and changes the log only. *)
Lemma for_each_logs {A} (xs : list A) l msg exc h :
  ∃ lg, for_each xs (λ _, _LOGGER l msg exc) h = (Ok tt, relog h lg).
Proof.
  revert h. induction xs as [| x xs IH]; intros h; simpl.
  - exists (hass_log h). by destruct h.
  - unfold bind. rewrite logger_relog.
    destruct (IH (relog h (hass_log h ++ [LogRecord l msg exc]))) as [lg Hlg].
    exists lg. by rewrite Hlg.
Qed.

(** The forwarding wrapper touches neither [hass.data], nor the stored
    entries, nor the coordinators. *)
Lemma forward_frame {X} (proj : HomeAssistant → X) entry :
  (∀ h fw lg, proj (Hass (config_dir h) (hass_data h) (config_entries h)
                         (coordinators h) (loop h) fw lg) = proj h) →
  preserves proj (async_forward_entry_setups_with_error_handling const outside entry).
Proof.
  intros Hproj.
  assert (∀ l msg exc, preserves proj (_LOGGER l msg exc)) as Hlog.
  { intros l msg exc h. apply Hproj. }
  unfold async_forward_entry_setups_with_error_handling.
  apply preserves_try_except.
  - apply preserves_bind; [apply Hlog | intros _].
    apply preserves_bind; [| intros _; apply Hlog].
    unfold async_forward_entry_setups. apply preserves_external.
    intros h. apply Hproj.
  - repeat constructor; intros e; simpl.
    + destruct (contains _ _); [apply Hlog |].
      apply preserves_bind; [apply Hlog | intros _; apply preserves_raise].
    + apply preserves_bind; [apply Hlog | intros _; apply preserves_raise].
Qed.

(** When the forwarding wrapper returns and when it raises. *)
Lemma forward_outcome entry h :
  (async_forward_entry_setups_with_error_handling const outside entry h).1
  = match forward_entry_setups_raises outside with
    | None => Ok tt
    | Some e => if already_setup e then Ok tt else Raise e
    end.
Proof.
  unfold async_forward_entry_setups_with_error_handling, try_except, bind,
    async_forward_entry_setups, external, already_setup.
  simpl. destruct (forward_entry_setups_raises outside) as [e |]; simpl; [| done].
  destruct (isinstance_ValueError e) eqn:Hv; simpl.
  - by destruct (contains _ _).
  - by destruct (isinstance_Exception e).
Qed.

End InitFrames.

(** ** [__init__.py]: setting up an entry *)

Section SetupEntry.
Import Init InitProps.
Context (const : Const) (outside : Outside) (entry : ConfigEntry).

(** The creation reads the entry only: its result is the same in every
    state. *)
Lemma Hon_create_run dir h h0 :
  Hon_create const outside entry dir h
  = ((Hon_create const outside entry dir h0).1, h).
Proof.
  unfold Hon_create, bind, getitem, returned.
  destruct (data entry !! CONF_EMAIL); simpl; [| done].
  destruct (data entry !! CONF_PASSWORD); simpl; [| done].
  by destruct (hon_create _ _ _ _ _ _).
Qed.

(** A successful creation found the e-mail address. *)
Lemma Hon_create_email dir h hon :
  (Hon_create const outside entry dir h).1 = Ok hon →
  ∃ email, data entry !! CONF_EMAIL = Some email.
Proof.
  unfold Hon_create, bind, getitem.
  destruct (data entry !! CONF_EMAIL); simpl; [eauto | done].
Qed.

Lemma setup_entry_no_dir h :
  config_dir h = None →
  (async_setup_entry const outside entry h).1
  = Raise (Exn ValueError "Missing Config Dir").
Proof.
  intros Hdir. unfold async_setup_entry, bind. simpl. by rewrite Hdir.
Qed.

Lemma setup_entry_create_raises h dir e :
  config_dir h = Some dir →
  (Hon_create const outside entry dir h).1 = Raise e →
  ∃ lg, async_setup_entry const outside entry h = (Raise e, relog h lg)
        ∧ (isinstance_Exception e = true →
           LogRecord ERROR "Failed to create Hon instance: %s" (Some e) ∈ lg).
Proof.
  intros Hdir Hcreate. unfold async_setup_entry.
  unfold bind at 1. rewrite logger_relog.
  unfold bind at 1. simpl. rewrite Hdir.
  unfold bind at 1. unfold try_except. unfold bind at 1.
  rewrite (Hon_create_run dir _ h), Hcreate. simpl.
  destruct (isinstance_Exception e) eqn:Hexc.
  - eexists. split; [reflexivity |]. intros _.
    apply elem_of_app. right. by left.
  - eexists. split; [reflexivity |]. done.
Qed.

(** Once the client exists the setup reaches the forwarding of the
    platforms, in a state [mid] that is already set up. *)
Lemma setup_entry_created h dir hon :
  config_dir h = Some dir →
  (Hon_create const outside entry dir h).1 = Ok hon →
  ∃ mid,
    set_up const entry hon h mid
    ∧ async_setup_entry const outside entry h
      = (async_forward_entry_setups_with_error_handling const outside entry ;;;
         _LOGGER INFO "Successfully set up hOn integration for entry: %s" None ;;;
         ret true) mid.
Proof.
  intros Hdir Hcreate.
  destruct (Hon_create_email dir h hon Hcreate) as [email Hemail].
  unfold async_setup_entry.
  unfold bind at 1. rewrite logger_relog.
  unfold bind at 1. simpl. rewrite Hdir.
  unfold bind at 1. unfold try_except. unfold bind at 1.
  rewrite (Hon_create_run dir _ h), Hcreate.
  unfold bind at 1. unfold getitem at 1. rewrite Hemail. simpl.
  unfold bind at 1. simpl.
  unfold bind at 1. simpl.
  unfold bind at 1. simpl.
  unfold bind at 1.
  match goal with
  | |- context [for_each ?xs ?body ?st] =>
      destruct (for_each_logs xs DEBUG "Appliance: %s (%s) - Connection: %s"
                  None st) as [lg Hlg]
  end.
  rewrite Hlg.
  unfold bind at 1. simpl.
  unfold bind at 1. simpl.
  unfold bind at 1. simpl.
  unfold bind at 1. simpl.
  eexists. split; [| reflexivity].
  unfold set_up. simpl. split; [apply lookup_insert_eq |].
  split; [done |].
  eexists. split.
  - rewrite lookup_alter_eq, lookup_insert_eq. reflexivity.
  - simpl. apply lookup_insert_eq.
Qed.

End SetupEntry.

Section SetupEntryClaim.
Import Init InitProps.
Context (const : Const) (outside : Outside) (entry : ConfigEntry).

Lemma set_up_frame hon h mid after :
  set_up const entry hon h mid →
  config_entries after = config_entries mid →
  coordinators after = coordinators mid →
  hass_data after = hass_data mid →
  set_up const entry hon h after.
Proof. unfold set_up. by intros ? -> -> ->. Qed.

(** The end of the setup, from the state [mid] in which the platforms are
    forwarded. *)
Lemma setup_tail mid :
  let r := (async_forward_entry_setups_with_error_handling const outside entry ;;;
            _LOGGER INFO "Successfully set up hOn integration for entry: %s" None ;;;
            ret true) mid in
  config_entries r.2 = config_entries mid
  ∧ coordinators r.2 = coordinators mid
  ∧ hass_data r.2 = hass_data mid
  ∧ r.1 = match forward_entry_setups_raises outside with
          | None => Ok true
          | Some e => if already_setup e then Ok true else Raise e
          end.
Proof.
  pose proof (forward_frame const outside config_entries entry
                (λ _ _ _, eq_refl) mid) as Hce.
  pose proof (forward_frame const outside coordinators entry
                (λ _ _ _, eq_refl) mid) as Hco.
  pose proof (forward_frame const outside hass_data entry
                (λ _ _ _, eq_refl) mid) as Hda.
  pose proof (forward_outcome const outside entry mid) as Hout.
  unfold bind. simpl.
  destruct (async_forward_entry_setups_with_error_handling _ _ _ _)
    as [[[] | e] h3]; simpl in *;
    (split; [done | split; [done | split; [done |]]]);
    (destruct (forward_entry_setups_raises outside) as [e' |];
     [destruct (already_setup e') |]; congruence).
Qed.

End SetupEntryClaim.

(** C6. When [async_setup_entry] returns, it returns [True], the vendor
    client was created, its refresh token is in the stored entry data, one
    coordinator has been created, the callback of that coordinator is
    subscribed to the client, and client and coordinator lie under
    [hass.data[DOMAIN][entry.unique_id]].  When creating the client raises,
    that exception is raised to the caller, logged as an error, and neither
    [hass.data] nor the coordinators change.  The setup does return once
    the client is created and the platforms are forwarded. *)
Theorem setup_entry_stores_client_and_coordinator
    (const : Init.Const) (outside : Init.Outside) (entry : ConfigEntry)
    (hass : HomeAssistant) :
  (∀ b after,
     Init.async_setup_entry const outside entry hass = (Ok b, after) →
     b = true
     ∧ ∃ dir hon,
         config_dir hass = Some dir
         ∧ (Init.Hon_create const outside entry dir hass).1 = Ok hon
         ∧ InitProps.set_up const entry hon hass after)
  ∧ (∀ dir e,
       config_dir hass = Some dir →
       (Init.Hon_create const outside entry dir hass).1 = Raise e →
       (Init.async_setup_entry const outside entry hass).1 = Raise e
       ∧ hass_data (Init.async_setup_entry const outside entry hass).2
         = hass_data hass
       ∧ coordinators (Init.async_setup_entry const outside entry hass).2
         = coordinators hass
       ∧ (isinstance_Exception e = true →
          InitProps.error_logged e
            (Init.async_setup_entry const outside entry hass).2))
  ∧ (∀ dir hon,
       config_dir hass = Some dir →
       (Init.Hon_create const outside entry dir hass).1 = Ok hon →
       Init.forward_entry_setups_raises outside = None →
       (Init.async_setup_entry const outside entry hass).1 = Ok true).
Proof.
  split; [| split].
  - intros b after Hrun.
    destruct (config_dir hass) as [dir |] eqn:Hdir; cycle 1.
    { pose proof (setup_entry_no_dir const outside entry hass Hdir) as Hno.
      rewrite Hrun in Hno. discriminate. }
    destruct (Init.Hon_create const outside entry dir hass).1 as [hon | e]
      eqn:Hcreate; cycle 1.
    { destruct (setup_entry_create_raises const outside entry hass dir e Hdir Hcreate)
        as (lg & Hraise & _).
      rewrite Hrun in Hraise. discriminate. }
    destruct (setup_entry_created const outside entry hass dir hon Hdir Hcreate)
      as (mid & Hmid & Htail).
    rewrite Htail in Hrun.
    destruct (setup_tail const outside entry mid) as (Hce & Hco & Hda & Hres).
    rewrite Hrun in Hce, Hco, Hda, Hres. simpl in *.
    split.
    + destruct (Init.forward_entry_setups_raises outside) as [e |];
        [destruct (InitProps.already_setup e) |]; congruence.
    + exists dir, hon. split; [done |]. split; [done |].
      by eapply set_up_frame.
  - intros dir e Hdir Hcreate.
    destruct (setup_entry_create_raises const outside entry hass dir e Hdir Hcreate)
      as (lg & -> & Hlog).
    simpl. repeat split; try done.
    intros Hexc. eexists. by apply Hlog.
  - intros dir hon Hdir Hcreate Hfw.
    destruct (setup_entry_created const outside entry hass dir hon Hdir Hcreate)
      as (mid & _ & ->).
    destruct (setup_tail const outside entry mid) as (_ & _ & _ & ->).
    by rewrite Hfw.
Qed.

(** ** The update callback *)

Section Callback.
Import Init InitProps.

Lemma wrapper_run coordinator h :
  wrapper coordinator h
  = (Ok tt,
     Hass (config_dir h) (hass_data h) (config_entries h) (coordinators h)
          ((λ queue, queue ++ [TaskSetUpdatedData coordinator]) <$> loop h)
          (forwarded h)
          ((hass_log h
            ++ [LogRecord DEBUG
                  "Threadsafe callback triggered with args: %s, kwargs: %s" None])
           ++ [match loop h with
               | Some _ =>
                   LogRecord DEBUG "Threadsafe callback executed successfully" None
               | None =>
                   LogRecord ERROR "Threadsafe callback failed: %s"
                     (Some (Exn RuntimeError "Event loop is closed"))
               end])).
Proof.
  unfold wrapper, try_except, call_soon_threadsafe, bind. simpl.
  by destruct (loop h).
Qed.

(** The coordinator's update, when the base class returns. *)
Lemma set_updated_data_bumps outside self h c :
  base_set_updated_data_raises outside = None →
  coordinators h !! self = Some c →
  (HonDataUpdateCoordinator.async_set_updated_data outside self h).1 = Ok tt
  ∧ coordinators (HonDataUpdateCoordinator.async_set_updated_data outside self h).2
      !! self
    = Some (MkCoordinator (coord_name c) (coord_listeners c) (S (coord_updates c))).
Proof.
  intros Hbase Hc.
  unfold HonDataUpdateCoordinator.async_set_updated_data, try_except, bind,
    HonDataUpdateCoordinator.super_async_set_updated_data, external.
  rewrite Hbase. simpl. split; [done |].
  by rewrite list_lookup_alter_eq, Hc.
Qed.

(** The coordinator's update, when the base class raises. *)
Lemma set_updated_data_reraises outside self h e :
  base_set_updated_data_raises outside = Some e →
  isinstance_Exception e = true →
  (HonDataUpdateCoordinator.async_set_updated_data outside self h).1 = Raise e
  ∧ error_logged e (HonDataUpdateCoordinator.async_set_updated_data outside self h).2.
Proof.
  intros Hbase Hexc.
  unfold HonDataUpdateCoordinator.async_set_updated_data, try_except, bind,
    HonDataUpdateCoordinator.super_async_set_updated_data, external, error_logged.
  rewrite Hbase. simpl. rewrite Hexc. simpl. split; [done |].
  eexists. apply elem_of_app. right. by left.
Qed.

End Callback.

(** C7. Every invocation of the callback subscribed for a coordinator
    returns without touching the coordinators: all it does, besides
    logging, is to add the coordinator's update to the queue of the host's
    event loop (nothing on a closed loop).  The update is what the loop
    then runs: it is the queued task that advances the coordinator. *)
Theorem callback_only_schedules
    (coordinator : nat) (h : HomeAssistant) :
  (Init.call (Init.make_threadsafe_callback coordinator) h).1 = Ok tt
  ∧ coordinators (Init.call (Init.make_threadsafe_callback coordinator) h).2
    = coordinators h
  ∧ hass_data (Init.call (Init.make_threadsafe_callback coordinator) h).2
    = hass_data h
  ∧ loop (Init.call (Init.make_threadsafe_callback coordinator) h).2
    = (λ queue, queue ++ [TaskSetUpdatedData coordinator]) <$> loop h
  ∧ ∀ outside c,
      Init.base_set_updated_data_raises outside = None →
      coordinators h !! coordinator = Some c →
      coordinators
        (Init.run_task outside (TaskSetUpdatedData coordinator)
           (Init.call (Init.make_threadsafe_callback coordinator) h).2).2
        !! coordinator
      = Some (MkCoordinator (coord_name c) (coord_listeners c)
                            (S (coord_updates c))).
Proof.
  unfold Init.call, Init.make_threadsafe_callback. rewrite wrapper_run. simpl.
  split; [done | split; [done | split; [done | split; [done |]]]].
  intros outside c Hbase Hc.
  by apply set_updated_data_bumps.
Qed.

(** ** Errors: what is re-raised and what is suppressed *)

Section Errors.
Import Switch Init InitProps ErrorProps.

Lemma forward_reraises const outside entry h e :
  forward_entry_setups_raises outside = Some e →
  isinstance_Exception e = true →
  already_setup e = false →
  logged_and_reraised hass_log e
    (async_forward_entry_setups_with_error_handling const outside entry h).
Proof.
  intros Hfw Hexc Hdup.
  unfold logged_and_reraised, async_forward_entry_setups_with_error_handling,
    try_except, bind, async_forward_entry_setups, external.
  rewrite Hfw. simpl. unfold already_setup in Hdup.
  destruct (isinstance_ValueError e); simpl in *.
  - rewrite Hdup. simpl. split; [done |].
    eexists. apply elem_of_app. right. by left.
  - rewrite Hexc. simpl. split; [done |].
    eexists. apply elem_of_app. right. by left.
Qed.

Lemma forward_ignores_duplicate const outside entry h e :
  forward_entry_setups_raises outside = Some e →
  already_setup e = true →
  ignored hass_log "Platform %s already set up for entry %s, ignoring"
    (hass_log h)
    (async_forward_entry_setups_with_error_handling const outside entry h).
Proof.
  intros Hfw Hdup.
  unfold ignored, async_forward_entry_setups_with_error_handling,
    try_except, bind, async_forward_entry_setups, external.
  rewrite Hfw. simpl. unfold already_setup in Hdup.
  apply andb_true_iff in Hdup as [Hv Hc]. rewrite Hv, Hc. simpl.
  split; [done |]. eexists. rewrite <- app_assoc. split; [reflexivity |].
  split; [by right; left | by repeat constructor].
Qed.

Lemma wrapper_suppresses coordinator h :
  loop h = None →
  logged_and_suppressed hass_log (Exn RuntimeError "Event loop is closed")
    (wrapper coordinator h).
Proof.
  intros Hloop. rewrite wrapper_run, Hloop. split; [done |].
  eexists. apply elem_of_app. right. by left.
Qed.

Lemma switch_update_suppresses host d w e :
  write_ha_state_raises host = Some e →
  isinstance_Exception e = true →
  logged_and_suppressed log e
    (HonSwitchEntity._handle_coordinator_update host d true w).
Proof.
  intros Hw Hexc.
  unfold logged_and_suppressed, HonSwitchEntity._handle_coordinator_update,
    HonSwitchEntity.is_on, try_except, bind, async_write_ha_state, external.
  rewrite Hw. simpl. rewrite Hexc. simpl. split; [done |].
  eexists. apply elem_of_app. right. by left.
Qed.

Lemma config_update_write_suppresses host d w s e :
  settings (device w) !! key d = Some s →
  write_ha_state_raises host = Some e →
  isinstance_Exception e = true →
  logged_and_suppressed log e
    (HonConfigSwitchEntity._handle_coordinator_update host d true w).
Proof.
  intros Hk Hw Hexc.
  unfold logged_and_suppressed, HonConfigSwitchEntity._handle_coordinator_update,
    HonConfigSwitchEntity.is_on, try_except, bind, getitem,
    async_write_ha_state, external.
  simpl. rewrite Hk. simpl. rewrite Hw. simpl. rewrite Hexc. simpl.
  split; [done |]. eexists. apply elem_of_app. right. by left.
Qed.

Lemma config_update_suppresses host d w update :
  settings (device w) !! key d = None →
  logged_and_suppressed log (Exn KeyError (key d))
    (HonConfigSwitchEntity._handle_coordinator_update host d update w).
Proof.
  intros Hk.
  unfold logged_and_suppressed, HonConfigSwitchEntity._handle_coordinator_update,
    HonConfigSwitchEntity.is_on, try_except, bind, getitem.
  simpl. rewrite Hk. simpl. split; [done |].
  eexists. apply elem_of_app. right. by left.
Qed.

End Errors.

(** C2 as stated fails: on a closed event loop, the scheduling inside the
    update callback raises, and the callback returns normally. *)
Lemma callback_suppresses_error :
  ¬ ErrorProps.never_suppresses
      (Init.call_soon_threadsafe (TaskSetUpdatedData 0))
      (Init.wrapper 0).
Proof.
  intros Hnever.
  specialize (Hnever Samples.closed_hass
                (Exn RuntimeError "Event loop is closed") eq_refl).
  discriminate Hnever.
Qed.

(** C2, amended.  An exception of class [Exception] raised while the vendor
    client is created, by the base class's coordinator update, or by the
    forwarding of the platforms is logged as an error and re-raised, except
    a [ValueError] whose text contains "has already been setup", which is
    logged at debug level and ignored.  An exception raised while the
    update callback schedules the coordinator update, or inside
    [_handle_coordinator_update] of either entity class (by the write of
    the state, or by [is_on] when a config switch lacks its setting), is
    logged as an error and suppressed. *)
Theorem errors_reraised_or_suppressed :
  (∀ const outside entry hass dir e,
     config_dir hass = Some dir →
     (Init.Hon_create const outside entry dir hass).1 = Raise e →
     isinstance_Exception e = true →
     ErrorProps.logged_and_reraised hass_log e
       (Init.async_setup_entry const outside entry hass))
  ∧ (∀ outside self hass e,
       Init.base_set_updated_data_raises outside = Some e →
       isinstance_Exception e = true →
       ErrorProps.logged_and_reraised hass_log e
         (Init.HonDataUpdateCoordinator.async_set_updated_data outside self hass))
  ∧ (∀ const outside entry hass e,
       Init.forward_entry_setups_raises outside = Some e →
       isinstance_Exception e = true →
       (InitProps.already_setup e = false →
        ErrorProps.logged_and_reraised hass_log e
          (Init.async_forward_entry_setups_with_error_handling
             const outside entry hass))
       ∧ (InitProps.already_setup e = true →
          ErrorProps.ignored hass_log
            "Platform %s already set up for entry %s, ignoring" (hass_log hass)
            (Init.async_forward_entry_setups_with_error_handling
               const outside entry hass)))
  ∧ (∀ coordinator hass,
       loop hass = None →
       ErrorProps.logged_and_suppressed hass_log
         (Exn RuntimeError "Event loop is closed")
         (Init.wrapper coordinator hass))
  ∧ (∀ host d w e,
       Switch.write_ha_state_raises host = Some e →
       isinstance_Exception e = true →
       ErrorProps.logged_and_suppressed Switch.log e
         (Switch.HonSwitchEntity._handle_coordinator_update host d true w))
  ∧ (∀ host d w update,
       settings (Switch.device w) !! Switch.key d = None →
       ErrorProps.logged_and_suppressed Switch.log (Exn KeyError (Switch.key d))
         (Switch.HonConfigSwitchEntity._handle_coordinator_update host d update w))
  ∧ (∀ host d w s e,
       settings (Switch.device w) !! Switch.key d = Some s →
       Switch.write_ha_state_raises host = Some e →
       isinstance_Exception e = true →
       ErrorProps.logged_and_suppressed Switch.log e
         (Switch.HonConfigSwitchEntity._handle_coordinator_update host d true w)).
Proof.
  split; [| split; [| split; [| split; [| split; [| split]]]]].
  - intros const outside entry hass dir e Hdir Hcreate Hexc.
    destruct (setup_entry_create_raises const outside entry hass dir e Hdir Hcreate)
      as (lg & -> & Hlog).
    split; [done |]. eexists. by apply Hlog.
  - intros outside self hass e Hbase Hexc.
    by apply set_updated_data_reraises.
  - intros const outside entry hass e Hfw Hexc. split; intros Hdup.
    + by apply forward_reraises.
    + by eapply forward_ignores_duplicate.
  - intros coordinator hass Hloop. by apply wrapper_suppresses.
  - intros host d w e Hw Hexc. by apply switch_update_suppresses.
  - intros host d w update Hk. by apply config_update_suppresses.
  - intros host d w s e Hk Hw Hexc. by eapply config_update_write_suppresses.
Qed.

(** ** The theorems at concrete devices *)



(** The same device with eco mode a bare [HonParameter]: nothing happens. *)
Lemma turn_on_off_refused_witness :
  let w := Worlds.ac_world_base in
  let d := Worlds.eco_mode in
  let host := Worlds.quiet_host in
  settings (Switch.device w) !! "settings.ecoMode" = Some (HonParameter (VInt 0))
  ∧ settings (Switch.device w) !! "ecoMode" = Some (HonParameter (VInt 0))
  ∧ Props.returned_early w (Switch.HonSwitchEntity.async_turn_on host d w)
  ∧ Props.returned_early w (Switch.HonSwitchEntity.async_turn_off host d w)
  ∧ Props.returned_early w (Switch.HonConfigSwitchEntity.async_turn_on host d w)
  ∧ Props.returned_early w (Switch.HonConfigSwitchEntity.async_turn_off host d w).
Proof.
  intros w d host.
  destruct (turn_on_off_refused_on_base_parameter host d w (VInt 0))
    as [Hswitch Hconfig].
  destruct (Hswitch eq_refl) as [Hon Hoff].
  destruct (Hconfig eq_refl) as [Hcon Hcoff].
  split; [reflexivity |]. split; [reflexivity |].
  split; [exact Hon |]. split; [exact Hoff |]. split; [exact Hcon | exact Hcoff].
Defined.

(** A control switch on a device that has its command, on a quiet host:
    the five effects, in order. *)
Lemma control_switch_turn_on_off_witness :
  let w := Worlds.ac_world in
  let d := Switch.Description "active" "Air Conditioner" None None in
  let r := Switch.HonControlSwitchEntity.async_turn_on
             Worlds.quiet_host d "startProgram" w in
  ControlProps.calls_return Worlds.quiet_host "startProgram" w
  ∧ r.1 = Ok tt
  ∧ Switch.journal r.2
    = [ Switch.SyncCommand "startProgram" "settings"; Switch.AsyncSetUpdatedData;
        Switch.Send "startProgram"; Switch.SetAttribute "active" (VBool true);
        Switch.AsyncWriteHaState ]
  ∧ attributes (Switch.device r.2) !! "active" = Some (VBool true).
Proof.
  intros w d r.
  destruct (control_switch_turn_on_off Worlds.quiet_host d
              "startProgram" "stopProgram" w) as [(_ & Hiff & Hdone) _].
  assert (ControlProps.calls_return Worlds.quiet_host "startProgram" w) as Hcalls.
  { repeat split. simpl. right. left. }
  split; [exact Hcalls |].
  split; [exact (proj2 Hiff Hcalls) |].
  exact (Hdone (proj2 Hiff Hcalls)).
Defined.

(** A device reporting [ecoMode] as [True], with the eco range at its min. *)
Lemma is_on_reads_through_witness :
  let w := Switch.MkWorld
             (Worlds.air_conditioner Worlds.eco_range {[ "ecoMode" := VBool true ]})
             None [] [] in
  attributes (Switch.device w) !! "ecoMode" = Some (VBool true)
  ∧ ReadProps.returns_iff (Switch.HonSwitchEntity.is_on Worlds.eco_mode w).1
      (ReadProps.equals_one (VBool true))
  ∧ settings (Switch.device w) !! "ecoMode" = Some Worlds.eco_range
  ∧ ReadProps.returns_iff (Switch.HonConfigSwitchEntity.is_on Worlds.eco_mode w).1
      (py_eq (VInt 0) (VInt 0) = false).
Proof.
  intros w.
  destruct (is_on_reads_through Worlds.eco_mode w)
    as ((_ & Hswitch & _) & _ & _ & Hconfig).
  split; [reflexivity |].
  split; [exact (Hswitch (VBool true) eq_refl) |].
  split; [reflexivity |].
  exact (proj1 (Hconfig Worlds.eco_range eq_refl) (VInt 0) eq_refl).
Defined.

(** Three blocked devices and one that is available. *)
Lemma switch_available_blocked_witness :
  let blocked := Worlds.world_of
                   (Worlds.air_conditioner Worlds.eco_range
                      {[ "remoteCtrValid" := VInt 0 ]}) in
  let offline := Worlds.world_of
                   (Worlds.air_conditioner Worlds.eco_range
                      {[ "attributes.lastConnEvent.category" := VStr "DISCONNECTED" ]}) in
  let narrow := Worlds.world_of
                  (Worlds.air_conditioner
                     (HonParameterRange (VInt 1) (VInt 1) (VInt 1) ["1"]) ∅) in
  (Switch.HonSwitchEntity.available Worlds.quiet_host Worlds.eco_mode blocked).1
    = Ok false
  ∧ (Switch.HonSwitchEntity.available Worlds.quiet_host Worlds.eco_mode offline).1
    = Ok false
  ∧ (Switch.HonSwitchEntity.available Worlds.quiet_host Worlds.eco_mode narrow).1
    = Ok false
  ∧ (Switch.HonSwitchEntity.available Worlds.quiet_host Worlds.eco_mode
       Worlds.ac_world).1 = Ok true.
Proof.
  intros blocked offline narrow.
  split; [| split; [| split]].
  - refine (proj1 (switch_available_blocked Worlds.quiet_host Worlds.eco_mode blocked)
              (VInt 0) eq_refl _).
    intros [Hone | Hone]; discriminate Hone.
  - exact (proj1 (proj2 (switch_available_blocked Worlds.quiet_host Worlds.eco_mode
                           offline)) eq_refl).
  - refine (proj1 (proj2 (proj2 (switch_available_blocked Worlds.quiet_host
                                   Worlds.eco_mode narrow)))
              (VInt 1) (VInt 1) (VInt 1) ["1"] eq_refl _).
    simpl. lia.
  - refine (proj2 (proj2 (proj2 (proj2 (switch_available_blocked Worlds.quiet_host
                                          Worlds.eco_mode Worlds.ac_world)))
                     eq_refl)
              Worlds.eco_range eq_refl _ eq_refl _).
    + discriminate.
    + intros _. simpl. lia.
Defined.

(** A client with an air conditioner and an appliance of unknown type. *)
Lemma setup_creates_supported_entities_witness :
  ∃ entities,
    Switch.async_setup_entry "hon" Switch.SWITCHES_literal Worlds.entry
      Worlds.hass_with_client = (Ok entities, Worlds.hass_with_client)
    ∧ (∀ e, e ∈ entities →
         SetupProps.justified Switch.SWITCHES_literal
           (appliances Worlds.client) e)
    ∧ (∀ e, e ∈ entities → Switch._device e ≠ Worlds.toaster).
Proof.
  destruct (setup_creates_supported_entities "hon" Switch.SWITCHES_literal
              Worlds.entry Worlds.hass_with_client
              {[ "user@example.org" := MkRuntimeData Worlds.client 0 ]}
              (MkRuntimeData Worlds.client 0) eq_refl eq_refl)
    as (entities & Hrun & Hjust & Hnone).
  exists entities. split; [exact Hrun |]. split; [exact Hjust |].
  apply (Hnone Worlds.toaster). vm_compute. reflexivity.
Defined.

(** A login the vendor accepts, and one it refuses. *)
Lemma setup_entry_witness :
  let run := Init.async_setup_entry Worlds.const Worlds.outside_ok Worlds.entry
               Samples.running_hass in
  let failed := Init.async_setup_entry Worlds.const Worlds.outside_refusing
                  Worlds.entry Samples.running_hass in
  run.1 = Ok true
  ∧ InitProps.set_up Worlds.const Worlds.entry Worlds.client
      Samples.running_hass run.2
  ∧ failed.1 = Raise Worlds.refused
  ∧ hass_data failed.2 = hass_data Samples.running_hass
  ∧ coordinators failed.2 = coordinators Samples.running_hass.
Proof.
  intros run failed.
  destruct (setup_entry_stores_client_and_coordinator Worlds.const
              Worlds.outside_ok Worlds.entry Samples.running_hass)
    as (Hok & _ & Hreturns).
  destruct (setup_entry_stores_client_and_coordinator Worlds.const
              Worlds.outside_refusing Worlds.entry Samples.running_hass)
    as (_ & Hfails & _).
  split; [exact (Hreturns "/config" Worlds.client eq_refl eq_refl eq_refl) |].
  split.
  - assert (Init.async_setup_entry Worlds.const Worlds.outside_ok Worlds.entry
              Samples.running_hass = (Ok true, run.2)) as Hrun.
    { vm_compute. reflexivity. }
    destruct (Hok true run.2 Hrun) as (_ & dir & hon & _ & Hcreate & Hset).
    injection Hcreate as <-. exact Hset.
  - destruct (Hfails "/config" Worlds.refused eq_refl eq_refl)
      as (Hraise & Hdata & Hcoord & _).
    split; [exact Hraise |]. split; [exact Hdata | exact Hcoord].
Defined.

(** On a running loop the callback queues one task; running the task is
    the coordinator's first update. *)
Lemma callback_only_schedules_witness :
  let after := (Init.call (Init.make_threadsafe_callback 0) Samples.running_hass).2 in
  coordinators after = [MkCoordinator "hon" 0 0]
  ∧ loop after = Some [TaskSetUpdatedData 0]
  ∧ coordinators (Init.run_task Worlds.outside_ok (TaskSetUpdatedData 0) after).2 !! 0
    = Some (MkCoordinator "hon" 0 1).
Proof.
  intros after.
  destruct (callback_only_schedules 0 Samples.running_hass)
    as (_ & Hcoord & _ & Hloop & Hrun).
  split; [exact Hcoord |]. split; [exact Hloop |].
  exact (Hrun Worlds.outside_ok (MkCoordinator "hon" 0 0) eq_refl eq_refl).
Defined.

(** Each case of the error handling at a concrete failure. *)
Lemma errors_reraised_or_suppressed_witness :
  ErrorProps.logged_and_reraised hass_log Worlds.refused
    (Init.async_setup_entry Worlds.const Worlds.outside_refusing Worlds.entry
       Samples.running_hass)
  ∧ ErrorProps.logged_and_reraised hass_log Worlds.refused
      (Init.HonDataUpdateCoordinator.async_set_updated_data
         Worlds.outside_refusing 0 Samples.running_hass)
  ∧ ErrorProps.logged_and_reraised hass_log Worlds.refused
      (Init.async_forward_entry_setups_with_error_handling Worlds.const
         Worlds.outside_forward_fails Worlds.entry Samples.running_hass)
  ∧ ErrorProps.ignored hass_log
      "Platform %s already set up for entry %s, ignoring" []
      (Init.async_forward_entry_setups_with_error_handling Worlds.const
         Worlds.outside_duplicate Worlds.entry Samples.running_hass)
  ∧ ErrorProps.logged_and_suppressed hass_log
      (Exn RuntimeError "Event loop is closed")
      (Init.wrapper 0 Samples.closed_hass)
  ∧ ErrorProps.logged_and_suppressed Switch.log
      (Exn (OtherException "HomeAssistantError") "no state")
      (Switch.HonSwitchEntity._handle_coordinator_update Worlds.failing_host
         Worlds.eco_mode true Worlds.ac_world)
  ∧ ErrorProps.logged_and_suppressed Switch.log (Exn KeyError "startProgram.prewash")
      (Switch.HonConfigSwitchEntity._handle_coordinator_update Worlds.quiet_host
         (Switch.Description "startProgram.prewash" "Prewash" None None) true
         Worlds.ac_world)
  ∧ ErrorProps.logged_and_suppressed Switch.log
      (Exn (OtherException "HomeAssistantError") "no state")
      (Switch.HonConfigSwitchEntity._handle_coordinator_update Worlds.failing_host
         Worlds.eco_mode true Worlds.ac_world).
Proof.
  destruct errors_reraised_or_suppressed
    as (Hcreate & Hcoord & Hforward & Hwrapper & Hswitch & Hconfig & Hwrite).
  split.
  { exact (Hcreate Worlds.const Worlds.outside_refusing Worlds.entry
             Samples.running_hass "/config" Worlds.refused eq_refl eq_refl eq_refl). }
  split.
  { exact (Hcoord Worlds.outside_refusing 0 Samples.running_hass Worlds.refused
             eq_refl eq_refl). }
  split.
  { exact (proj1 (Hforward Worlds.const Worlds.outside_forward_fails Worlds.entry
                    Samples.running_hass Worlds.refused eq_refl eq_refl) eq_refl). }
  split.
  { exact (proj2 (Hforward Worlds.const Worlds.outside_duplicate Worlds.entry
                    Samples.running_hass Worlds.duplicate eq_refl eq_refl) eq_refl). }
  split.
  { exact (Hwrapper 0 Samples.closed_hass eq_refl). }
  split.
  { exact (Hswitch Worlds.failing_host Worlds.eco_mode Worlds.ac_world
             (Exn (OtherException "HomeAssistantError") "no state")
             eq_refl eq_refl). }
  split.
  { exact (Hconfig Worlds.quiet_host
             (Switch.Description "startProgram.prewash" "Prewash" None None)
             Worlds.ac_world true eq_refl). }
  exact (Hwrite Worlds.failing_host Worlds.eco_mode Worlds.ac_world
           Worlds.eco_range
           (Exn (OtherException "HomeAssistantError") "no state")
           eq_refl eq_refl eq_refl).
Defined.

(** With concatenation for [unique_entities]: "WM" is the literal, "WD" is
    the three tuples joined. *)
Lemma switches_static_except_WD_witness :
  Switch.SWITCHES (Switch.module_init (λ x y, x ++ y)).2 !! "WM"
    = Some Switch.SWITCHES_WM
  ∧ Switch.SWITCHES (Switch.module_init (λ x y, x ++ y)).2 !! "WD"
    = Some ((Switch.SWITCHES_WD ++ Switch.SWITCHES_WM) ++ Switch.SWITCHES_TD).
Proof.
  destruct (switches_static_except_WD (λ x y, x ++ y)) as (_ & _ & HWD & Hother).
  split; [| exact HWD].
  rewrite (Hother "WM") by discriminate. vm_compute. reflexivity.
Defined.

(** * Further properties *)

(** ** The platform setup as a comprehension *)

Section SetupComprehension.
Import Switch SetupProps SetupSpec.
Context (table : gmap string (list SwitchEntityDescription)).

Lemma setup_description_entity_for device entities description :
  setup_description device entities description
  = entities ++ option_list (entity_for device description).
Proof.
  unfold setup_description, entity_for.
  destruct description as [d ton toff | d | d | d]; simpl.
  - destruct (is_not_None _ || _ || _); simpl; [done | by rewrite app_nil_r].
  - destruct (str_in _ _); simpl; [done | by rewrite app_nil_r].
  - destruct (str_in _ _); simpl; [done | by rewrite app_nil_r].
  - by rewrite app_nil_r.
Qed.

Lemma inner_loop_omap device descriptions entities :
  fold_left (setup_description device) descriptions entities
  = entities ++ omap (entity_for device) descriptions.
Proof.
  revert entities. induction descriptions as [| d ds IH]; intros entities; simpl.
  - by rewrite app_nil_r.
  - rewrite IH, setup_description_entity_for, <- app_assoc. f_equal.
    by destruct (entity_for device d).
Qed.

Lemma outer_loop_comprehension devices entities :
  fold_left (setup_device table) devices entities
  = entities ++ comprehension table devices.
Proof.
  revert entities. induction devices as [| dev devs IH]; intros entities; simpl.
  - by rewrite app_nil_r.
  - rewrite IH. unfold setup_device. rewrite inner_loop_omap.
    by rewrite <- app_assoc.
Qed.

(** [entity_for] makes an entity only of a supported description... *)
Lemma entity_for_Some device description e :
  entity_for device description = Some e →
  e = NewEntity (entity_class e) device description
  ∧ supported device description (entity_class e).
Proof.
  unfold entity_for, supported, str_in.
  destruct description as [d ton toff | d | d | d]; simpl; [| | | done].
  - destruct (is_not_None _) eqn:Hget; simpl.
    { intros [= <-]. simpl. split; [done |]. split; [done |].
      left. by apply get_is_not_None. }
    case_bool_decide; simpl.
    { intros [= <-]. simpl. split; [done |]. split; [done |]. right. by left. }
    case_bool_decide; simpl; [| done].
    intros [= <-]. simpl. split; [done |]. split; [done |]. right. by right.
  - case_bool_decide; simpl; [| done]. by intros [= <-].
  - case_bool_decide; simpl; [| done]. by intros [= <-].
Qed.

(** ... and of every supported description. *)
Lemma supported_entity_for device description cls :
  supported device description cls →
  entity_for device description = Some (NewEntity cls device description).
Proof.
  unfold entity_for, supported, str_in.
  destruct description as [d ton toff | d | d | d]; simpl; [| | | done].
  - intros [-> [(v & Hv & Hne) | [Hon | Hoff]]].
    + unfold device_get. rewrite Hv. simpl. by destruct v.
    + rewrite (bool_decide_eq_true_2 _ Hon). by rewrite orb_true_r.
    + rewrite (bool_decide_eq_true_2 _ Hoff). by rewrite !orb_true_r.
  - intros [-> Hin]. by rewrite (bool_decide_eq_true_2 _ Hin).
  - intros [-> Hin]. by rewrite (bool_decide_eq_true_2 _ Hin).
Qed.

Lemma comprehension_elem devices e :
  e ∈ comprehension table devices ↔ justified table devices e.
Proof.
  unfold comprehension, justified. rewrite list_elem_of_In, in_flat_map. split.
  - intros (device & Hdev & He).
    apply list_elem_of_In, list_elem_of_omap in He as (description & Hin & Hfor).
    apply entity_for_Some in Hfor as [Heq Hsup].
    assert (_device e = device) as Hd by (by rewrite Heq).
    assert (entity_description e = description) as Hdesc by (by rewrite Heq).
    subst device description.
    destruct (table !! appliance_type (_device e)) as [descriptions |] eqn:Htab;
      simpl in Hin; [| by apply elem_of_nil in Hin].
    split; [by apply list_elem_of_In |]. split; [| done]. eauto.
  - intros (Hdev & (descriptions & Htab & Hin) & Hsup).
    exists (_device e). split; [by apply list_elem_of_In |].
    apply list_elem_of_In, list_elem_of_omap.
    exists (entity_description e). rewrite Htab. simpl. split; [done |].
    rewrite (supported_entity_for _ _ _ Hsup). by destruct e.
Qed.

End SetupComprehension.

(** X1. The two nested loops of the platform's [async_setup_entry] compute
    a comprehension: the entities come device by device in the order of
    the client's appliances and, for each device, description by
    description in the order of the table, one entity per supported
    description and nothing else; the host is left as it was. *)
Theorem setup_is_comprehension
    (DOMAIN : string) (table : gmap string (list Switch.SwitchEntityDescription))
    (entry : ConfigEntry) (hass : HomeAssistant)
    (by_entry : gmap string RuntimeData) (runtime : RuntimeData) :
  hass_data hass !! DOMAIN = Some by_entry →
  by_entry !! unique_id entry = Some runtime →
  Switch.async_setup_entry DOMAIN table entry hass
  = (Ok (SetupSpec.comprehension table (appliances (rd_hon runtime))), hass).
Proof.
  intros Hdom Hentry.
  unfold Switch.async_setup_entry, bind, getitem. simpl.
  rewrite Hdom. simpl. rewrite Hentry. simpl.
  by rewrite outer_loop_comprehension.
Qed.

(** X2. The platform setup hands over an entity for a device and a
    description exactly when the device is one of the client's appliances,
    the table lists the description for the appliance's type, and the
    appliance supports it. *)
Theorem setup_creates_exactly_supported
    (DOMAIN : string) (table : gmap string (list Switch.SwitchEntityDescription))
    (entry : ConfigEntry) (hass : HomeAssistant)
    (by_entry : gmap string RuntimeData) (runtime : RuntimeData)
    (entities : list Switch.Entity) :
  hass_data hass !! DOMAIN = Some by_entry →
  by_entry !! unique_id entry = Some runtime →
  (Switch.async_setup_entry DOMAIN table entry hass).1 = Ok entities →
  ∀ e, e ∈ entities ↔ SetupProps.justified table (appliances (rd_hon runtime)) e.
Proof.
  intros Hdom Hentry Hrun e.
  unfold Switch.async_setup_entry, bind, getitem in Hrun. simpl in Hrun.
  rewrite Hdom in Hrun. simpl in Hrun. rewrite Hentry in Hrun. simpl in Hrun.
  injection Hrun as <-.
  rewrite outer_loop_comprehension. simpl. apply comprehension_elem.
Qed.

(** X3. Without a client stored for the entry, under the domain or under
    the entry's unique id, the platform setup raises [KeyError] and hands
    over nothing; the host is left as it was. *)
Theorem setup_without_client_raises
    (DOMAIN : string) (table : gmap string (list Switch.SwitchEntityDescription))
    (entry : ConfigEntry) (hass : HomeAssistant) :
  (hass_data hass !! DOMAIN = None →
   Switch.async_setup_entry DOMAIN table entry hass
   = (Raise (Exn KeyError DOMAIN), hass))
  ∧ (∀ by_entry,
       hass_data hass !! DOMAIN = Some by_entry →
       by_entry !! unique_id entry = None →
       Switch.async_setup_entry DOMAIN table entry hass
       = (Raise (Exn KeyError (unique_id entry)), hass)).
Proof.
  split.
  - intros Hdom. unfold Switch.async_setup_entry, bind, getitem. simpl.
    by rewrite Hdom.
  - intros by_entry Hdom Hentry.
    unfold Switch.async_setup_entry, bind, getitem. simpl.
    rewrite Hdom. simpl. by rewrite Hentry.
Qed.

(** ** What switching does to the device *)

Section Switching.
Import Switch Props SwitchingProps.
Context (host : Host) (d : EntityDescription).

Ltac to_lookup :=
  unfold key_missing, bind; simpl; unfold getitem.

Lemma switch_turn_on_missing w :
  settings (device w) !! ("settings." +:+ key d) = None →
  key_missing ("settings." +:+ key d) w (HonSwitchEntity.async_turn_on host d w).
Proof. intros Hk. unfold HonSwitchEntity.async_turn_on. to_lookup. by rewrite Hk. Qed.

Lemma switch_turn_off_missing w :
  settings (device w) !! ("settings." +:+ key d) = None →
  key_missing ("settings." +:+ key d) w (HonSwitchEntity.async_turn_off host d w).
Proof. intros Hk. unfold HonSwitchEntity.async_turn_off. to_lookup. by rewrite Hk. Qed.

Lemma config_turn_on_missing w :
  settings (device w) !! key d = None →
  key_missing (key d) w (HonConfigSwitchEntity.async_turn_on host d w).
Proof. intros Hk. unfold HonConfigSwitchEntity.async_turn_on. to_lookup. by rewrite Hk. Qed.

Lemma config_turn_off_missing w :
  settings (device w) !! key d = None →
  key_missing (key d) w (HonConfigSwitchEntity.async_turn_off host d w).
Proof. intros Hk. unfold HonConfigSwitchEntity.async_turn_off. to_lookup. by rewrite Hk. Qed.

Lemma on_setting_same f k dev :
  (∀ p, settings dev !! k = Some p → f p = p) → on_setting f k dev = dev.
Proof.
  intros Hf. unfold on_setting, with_settings. rewrite alter_id by done.
  by destruct dev.
Qed.

(** The device after the assignment and the rest of a method. *)
Lemma run_device k s v w msg (tail : M World unit) f :
  settings (device w) !! k = Some s →
  preserves device tail →
  f s = assigned host s v →
  device (match value_rejected host s v with
          | Some e => (Raise e, logged msg w)
          | None => tail (stored_under k s v (logged msg w))
          end).2
  = on_setting f k (device w).
Proof.
  intros Hk Htail Hf. unfold assigned, assign_value in Hf.
  destruct (value_rejected host s v) as [e |]; simpl.
  - symmetry. apply on_setting_same. intros p Hp. congruence.
  - rewrite Htail. simpl. unfold on_setting, with_settings. f_equal.
    apply alter_ext. intros p Hp. congruence.
Qed.

(** The three ways a turn-on/off method goes, by the setting it finds. *)
Ltac by_setting k missing refused run tail_device :=
  match goal with
  | |- device (_ _ _ ?w).2 = _ =>
      destruct (settings (device w) !! k) as [s |] eqn:Hk;
      [ destruct (type_is_HonParameter s) eqn:Hty;
        [ destruct s; try discriminate;
          destruct (refused w _ Hk) as (_ & -> & _);
          symmetry; apply on_setting_same; intros p Hp;
          rewrite Hk in Hp; by injection Hp as <-
        | rewrite (run w s Hk Hty);
          apply run_device; [done | apply tail_device |];
          unfold turned_on, turned_off; by rewrite Hty ]
      | destruct (missing w Hk) as (_ & -> & _);
        symmetry; apply on_setting_same; intros p Hp; congruence ]
  end.



Lemma config_turn_on_device w :
  device (HonConfigSwitchEntity.async_turn_on host d w).2
  = on_setting (turned_on host (VStr "1")) (key d) (device w).
Proof.
  by_setting (key d) config_turn_on_missing
    (config_turn_on_refused host d) (config_turn_on_run host d)
    (config_tail_device host).
Qed.

Lemma config_turn_off_device w :
  device (HonConfigSwitchEntity.async_turn_off host d w).2
  = on_setting (turned_off host (VStr "0")) (key d) (device w).
Proof.
  by_setting (key d) config_turn_off_missing
    (config_turn_off_refused host d) (config_turn_off_run host d)
    (config_tail_device host).
Qed.

End Switching.

Section SwitchingAlgebra.
Import Switch Props SwitchingProps.
Context (host : Host).


Lemma on_setting_lookup f k dev :
  settings (on_setting f k dev) !! k = f <$> settings dev !! k.
Proof. apply lookup_alter_eq. Qed.












Lemma py_eq_refl v : py_eq v v = true.
Proof.
  destruct v as [| b | z | s]; simpl; try done.
  - by apply bool_decide_eq_true.
  - apply Z.eqb_refl.
  - by apply bool_decide_eq_true.
Qed.

End SwitchingAlgebra.



(** X6. A config switch reads back what was switched, on a setting that is
    not a bare [HonParameter]: after an [async_turn_off] whose value the
    vendor's setter accepts, [is_on] is false; after an accepted
    [async_turn_on] it is true, except on a range whose max equals its
    min, where it stays false; after a rejected assignment [is_on] reads
    what it read before. *)
Theorem config_switch_reads_back
    (host : Switch.Host) (d : Switch.EntityDescription) (w : Switch.World)
    (s : HonParam) :
  settings (Switch.device w) !! Switch.key d = Some s →
  type_is_HonParameter s = false →
  Props.by_verdict host s (Props.min_or s (VStr "0"))
    ((Switch.HonConfigSwitchEntity.is_on d
        (Switch.HonConfigSwitchEntity.async_turn_off host d w).2).1 = Ok false)
    (λ _, (Switch.HonConfigSwitchEntity.is_on d
             (Switch.HonConfigSwitchEntity.async_turn_off host d w).2).1
          = (Switch.HonConfigSwitchEntity.is_on d w).1)
  ∧ Props.by_verdict host s (Props.max_or s (VStr "1"))
      ((Switch.HonConfigSwitchEntity.is_on d
          (Switch.HonConfigSwitchEntity.async_turn_on host d w).2).1
       = Ok (match s with
             | HonParameterRange _ mn mx _ => negb (py_eq mx mn)
             | _ => true
             end))
      (λ _, (Switch.HonConfigSwitchEntity.is_on d
               (Switch.HonConfigSwitchEntity.async_turn_on host d w).2).1
            = (Switch.HonConfigSwitchEntity.is_on d w).1).
Proof.
  intros Hk Hty. split.
  - assert (settings (Switch.device
              (Switch.HonConfigSwitchEntity.async_turn_off host d w).2)
            !! Switch.key d
            = Some (SwitchingProps.turned_off host (VStr "0") s)) as Hafter.
    { by rewrite config_turn_off_device, on_setting_lookup, Hk. }
    rewrite (config_is_on_run _ _ _ Hafter), (config_is_on_run _ _ _ Hk).
    unfold Props.by_verdict, SwitchingProps.turned_off, SwitchingProps.assigned,
      assign_value.
    rewrite Hty.
    destruct (Switch.value_rejected host s (Props.min_or s (VStr "0")));
      [done |].
    destruct s; simpl; try done. unfold py_ne. by rewrite py_eq_refl.
  - assert (settings (Switch.device
              (Switch.HonConfigSwitchEntity.async_turn_on host d w).2)
            !! Switch.key d
            = Some (SwitchingProps.turned_on host (VStr "1") s)) as Hafter.
    { by rewrite config_turn_on_device, on_setting_lookup, Hk. }
    rewrite (config_is_on_run _ _ _ Hafter), (config_is_on_run _ _ _ Hk).
    unfold Props.by_verdict, SwitchingProps.turned_on, SwitchingProps.assigned,
      assign_value.
    rewrite Hty.
    destruct (Switch.value_rejected host s (Props.max_or s (VStr "1")));
      [done |].
    by destruct s.
Qed.

(** ** The effects of switching, in order *)

Section SwitchingRuns.
Import Switch Props SwitchingProps.
Context (host : Host) (d : EntityDescription).

(** The calls of a [HonSwitchEntity] method after the store. *)
Lemma switch_tail_run msg k v w after_store :
  journal after_store = journal w ++ [SetValue k v] →
  commands (device after_store) = commands (device w) →
  switch_run host k v w (switch_tail host msg after_store).
Proof.
  intros Hj Hc.
  unfold switch_run, switch_tail, async_write_ha_state,
    coordinator_async_set_updated_data, commands_send, str_in, bind, external.
  destruct (write_ha_state_raises host); simpl;
    [| rewrite Hc; case_bool_decide; simpl;
       [ destruct (send_raises host "settings"); simpl;
         [| destruct (set_updated_data_raises host); simpl ] |] ];
    rewrite ?Hj;
    (split;
     [ eexists; split;
       [ rewrite <- ?app_assoc; simpl; reflexivity | by eexists ]
     | split; [split |] ]);
    try (intros [=]); try (intros (? & ? & ? & ?); congruence);
    try done.
  intros _. split; [done |]. by rewrite <- !app_assoc.
Qed.

(** The calls of a [HonConfigSwitchEntity] method after the store. *)
Lemma config_tail_run msg k v w after_store :
  journal after_store = journal w ++ [SetValue k v] →
  config_run host k v w (config_tail host msg after_store).
Proof.
  intros Hj.
  unfold config_run, config_tail, async_write_ha_state,
    coordinator_async_set_updated_data, bind, external.
  destruct (set_updated_data_raises host); simpl;
    [| destruct (write_ha_state_raises host); simpl ];
    rewrite ?Hj;
    (split;
     [ eexists; split;
       [ rewrite <- ?app_assoc; simpl; reflexivity | by eexists ]
     | split ]);
    try (intros [=]); try (intros (? & ?); congruence); try done.
Qed.

(** From the run of a method to its effects, by the setter's verdict. *)
Lemma run_switch k s v w msg msg' r :
  r = match value_rejected host s v with
      | Some e => (Raise e, logged msg w)
      | None => switch_tail host msg' (stored_under k s v (logged msg w))
      end →
  by_verdict host s v (switch_run host k v w r) (λ e, raised_untouched e w r).
Proof.
  intros ->. unfold by_verdict.
  destruct (value_rejected host s v) as [e |].
  - by repeat split.
  - by apply switch_tail_run.
Qed.

Lemma run_config k s v w msg msg' r :
  r = match value_rejected host s v with
      | Some e => (Raise e, logged msg w)
      | None => config_tail host msg' (stored_under k s v (logged msg w))
      end →
  by_verdict host s v (config_run host k v w r) (λ e, raised_untouched e w r).
Proof.
  intros ->. unfold by_verdict.
  destruct (value_rejected host s v) as [e |].
  - by repeat split.
  - by apply config_tail_run.
Qed.

Lemma config_run_no_command k v w r :
  config_run host k v w r → ∃ effects, added w r effects ∧ no_command effects.
Proof.
  intros [(done & Hj & Hpre) _]. exists (SetValue k v :: done). split; [done |].
  constructor; [done |].
  destruct Hpre as [rest Hrest].
  assert (Forall (λ e, (∀ c, e ≠ Send c) ∧ (∀ m t, e ≠ SyncCommand m t))
            (done ++ rest)) as Hall.
  { rewrite <- Hrest. by repeat constructor. }
  by apply Forall_app in Hall as [? _].
Qed.

Lemma early_no_command {A} w (r : result A * World) :
  journal r.2 = journal w → ∃ effects, added w r effects ∧ no_command effects.
Proof.
  intros Hj. exists []. split; [| constructor].
  unfold added. by rewrite app_nil_r.
Qed.

Lemma verdict_no_command s v k w r :
  by_verdict host s v (config_run host k v w r) (λ e, raised_untouched e w r) →
  ∃ effects, added w r effects ∧ no_command effects.
Proof.
  unfold by_verdict. destruct (value_rejected host s v) as [e |].
  - intros (_ & _ & _ & Hj). by apply early_no_command.
  - apply config_run_no_command.
Qed.

Lemma config_turn_on_no_command w :
  ∃ effects, added w (HonConfigSwitchEntity.async_turn_on host d w) effects
             ∧ no_command effects.
Proof.
  destruct (settings (device w) !! key d) as [s |] eqn:Hk.
  - destruct (type_is_HonParameter s) eqn:Hty.
    + destruct s; try discriminate.
      apply early_no_command. by eapply config_turn_on_refused.
    + eapply verdict_no_command, run_config. by apply config_turn_on_run.
  - apply early_no_command. by apply config_turn_on_missing.
Qed.

Lemma config_turn_off_no_command w :
  ∃ effects, added w (HonConfigSwitchEntity.async_turn_off host d w) effects
             ∧ no_command effects.
Proof.
  destruct (settings (device w) !! key d) as [s |] eqn:Hk.
  - destruct (type_is_HonParameter s) eqn:Hty.
    + destruct s; try discriminate.
      apply early_no_command. by eapply config_turn_off_refused.
    + eapply verdict_no_command, run_config. by apply config_turn_off_run.
  - apply early_no_command. by apply config_turn_off_missing.
Qed.

End SwitchingRuns.

(** X7. A [HonSwitchEntity] whose setting is not a bare [HonParameter]
    assigns the new value first.  When the vendor's setter rejects it, the
    setter's exception reaches the caller and nothing else is done: no
    state is written and no command sent.  When the setter accepts it, the
    method then writes the state, then sends the "settings" command, then
    updates the coordinator, stopping at the first call that raises; on a
    device without a "settings" command it raises [KeyError] after the
    value is stored and the state written, and the coordinator is not
    updated. *)
Theorem switch_entity_effects_in_order
    (host : Switch.Host) (d : Switch.EntityDescription) (w : Switch.World)
    (s : HonParam) :
  settings (Switch.device w) !! ("settings." +:+ Switch.key d) = Some s →
  type_is_HonParameter s = false →
  Props.by_verdict host s (Props.max_or s (VInt 1))
    (SwitchingProps.switch_run host ("settings." +:+ Switch.key d)
       (Props.max_or s (VInt 1)) w
       (Switch.HonSwitchEntity.async_turn_on host d w))
    (λ e, Props.raised_untouched e w
            (Switch.HonSwitchEntity.async_turn_on host d w))
  ∧ Props.by_verdict host s (Props.min_or s (VInt 0))
      (SwitchingProps.switch_run host ("settings." +:+ Switch.key d)
         (Props.min_or s (VInt 0)) w
         (Switch.HonSwitchEntity.async_turn_off host d w))
      (λ e, Props.raised_untouched e w
              (Switch.HonSwitchEntity.async_turn_off host d w)).
Proof.
  intros Hk Hty. split.
  - eapply run_switch. by apply switch_turn_on_run.
  - eapply run_switch. by apply switch_turn_off_run.
Qed.

(** X8. A [HonConfigSwitchEntity] never sends a command: whatever setting
    it finds, whatever the vendor's setter says and whatever the host
    does, the effects of [async_turn_on] and [async_turn_off] contain
    neither a sent command nor a [sync_command].  On a setting that is not
    a bare [HonParameter] whose new value the setter accepts they are the
    store, then the coordinator update, then the state write, as far as
    the calls return; when the setter rejects the value, its exception
    reaches the caller and there is no effect at all. *)
Theorem config_entity_never_sends
    (host : Switch.Host) (d : Switch.EntityDescription) (w : Switch.World) :
  (∃ effects,
     SwitchingProps.added w (Switch.HonConfigSwitchEntity.async_turn_on host d w)
       effects
     ∧ SwitchingProps.no_command effects)
  ∧ (∃ effects,
       SwitchingProps.added w (Switch.HonConfigSwitchEntity.async_turn_off host d w)
         effects
       ∧ SwitchingProps.no_command effects)
  ∧ ∀ s, settings (Switch.device w) !! Switch.key d = Some s →
         type_is_HonParameter s = false →
         Props.by_verdict host s (Props.max_or s (VStr "1"))
           (SwitchingProps.config_run host (Switch.key d)
              (Props.max_or s (VStr "1")) w
              (Switch.HonConfigSwitchEntity.async_turn_on host d w))
           (λ e, Props.raised_untouched e w
                   (Switch.HonConfigSwitchEntity.async_turn_on host d w))
         ∧ Props.by_verdict host s (Props.min_or s (VStr "0"))
             (SwitchingProps.config_run host (Switch.key d)
                (Props.min_or s (VStr "0")) w
                (Switch.HonConfigSwitchEntity.async_turn_off host d w))
             (λ e, Props.raised_untouched e w
                     (Switch.HonConfigSwitchEntity.async_turn_off host d w)).
Proof.
  split; [apply config_turn_on_no_command |].
  split; [apply config_turn_off_no_command |].
  intros s Hk Hty. split.
  - eapply run_config. by apply config_turn_on_run.
  - eapply run_config. by apply config_turn_off_run.
Qed.

(** X9. With no setting under the entity's key, the four turn-on/off
    methods raise [KeyError] for that key and have done nothing: the
    device, the entity and the journal of effects are as before. *)
Theorem switching_without_setting_raises
    (host : Switch.Host) (d : Switch.EntityDescription) (w : Switch.World) :
  (settings (Switch.device w) !! ("settings." +:+ Switch.key d) = None →
   SwitchingProps.key_missing ("settings." +:+ Switch.key d) w
     (Switch.HonSwitchEntity.async_turn_on host d w)
   ∧ SwitchingProps.key_missing ("settings." +:+ Switch.key d) w
       (Switch.HonSwitchEntity.async_turn_off host d w))
  ∧ (settings (Switch.device w) !! Switch.key d = None →
     SwitchingProps.key_missing (Switch.key d) w
       (Switch.HonConfigSwitchEntity.async_turn_on host d w)
     ∧ SwitchingProps.key_missing (Switch.key d) w
         (Switch.HonConfigSwitchEntity.async_turn_off host d w)).
Proof.
  split; intros Hk; split.
  - by apply switch_turn_on_missing.
  - by apply switch_turn_off_missing.
  - by apply config_turn_on_missing.
  - by apply config_turn_off_missing.
Qed.

(** ** Control switches: reading back, and a missing command *)

Section ControlReadBack.
Import Switch SwitchingProps ControlReadProps.
Context (host : Host) (d : EntityDescription) (turn_on_key turn_off_key : string).







End ControlReadBack.


(** X11. The platform setup makes a control entity of a device that
    reports a value for the key even when the device lacks the turn-on
    command: the step of [async_setup_entry] for the description appends
    the entity, and [async_setup_entry] hands it over when the device is
    one of the client's appliances and the table lists the description for
    its type.  On such an entity [async_turn_on] raises [KeyError] for the
    command, after [sync_command] and the coordinator update have taken
    place; the attributes of the device are as they were, and its settings
    are what [sync_command] has made of them. *)
Theorem control_entity_without_command
    (host : Switch.Host) (d : Switch.EntityDescription)
    (turn_on_key turn_off_key : string) (w : Switch.World) (v : value) :
  attributes (Switch.device w) !! Switch.key d = Some v →
  v ≠ VNone →
  turn_on_key ∉ commands (Switch.device w) →
  (∀ entities,
     Switch.setup_description (Switch.device w) entities
       (Switch.HonControlSwitchEntityDescription d turn_on_key turn_off_key)
     = entities
         ++ [Switch.NewEntity Switch.ClsHonControlSwitchEntity (Switch.device w)
               (Switch.HonControlSwitchEntityDescription d turn_on_key
                  turn_off_key)])
  ∧ (∀ DOMAIN table entry hass by_entry runtime descriptions,
       hass_data hass !! DOMAIN = Some by_entry →
       by_entry !! unique_id entry = Some runtime →
       Switch.device w ∈ appliances (rd_hon runtime) →
       table !! appliance_type (Switch.device w) = Some descriptions →
       Switch.HonControlSwitchEntityDescription d turn_on_key turn_off_key
         ∈ descriptions →
       ∃ entities,
         Switch.async_setup_entry DOMAIN table entry hass = (Ok entities, hass)
         ∧ Switch.NewEntity Switch.ClsHonControlSwitchEntity (Switch.device w)
             (Switch.HonControlSwitchEntityDescription d turn_on_key
                turn_off_key) ∈ entities)
  ∧ (Switch.sync_command_raises host = None →
     Switch.set_updated_data_raises host = None →
     (Switch.HonControlSwitchEntity.async_turn_on host d turn_on_key w).1
       = Raise (Exn KeyError turn_on_key)
     ∧ SwitchingProps.added w
         (Switch.HonControlSwitchEntity.async_turn_on host d turn_on_key w)
         [Switch.SyncCommand turn_on_key "settings"; Switch.AsyncSetUpdatedData]
     ∧ attributes
         (Switch.device
            (Switch.HonControlSwitchEntity.async_turn_on host d turn_on_key w).2)
       = attributes (Switch.device w)
     ∧ settings
         (Switch.device
            (Switch.HonControlSwitchEntity.async_turn_on host d turn_on_key w).2)
       = Switch.sync_command_effect host turn_on_key "settings"
           (settings (Switch.device w))).
Proof.
  intros Hv Hne Hcmd.
  assert (SetupProps.supported (Switch.device w)
            (Switch.HonControlSwitchEntityDescription d turn_on_key turn_off_key)
            Switch.ClsHonControlSwitchEntity) as Hsup.
  { split; [done |]. left. eauto. }
  split; [| split].
  - intros entities.
    by rewrite setup_description_entity_for, (supported_entity_for _ _ _ Hsup).
  - intros DOMAIN table entry hass by_entry runtime descriptions
      Hdom Hentry Hdev Htab Hin.
    eexists. split.
    + unfold Switch.async_setup_entry, bind, getitem. simpl.
      rewrite Hdom. simpl. rewrite Hentry. simpl.
      by rewrite outer_loop_comprehension.
    + simpl. apply comprehension_elem. split; [done |]. split; [| done].
      eauto.
  - intros Hsync Hupd.
    unfold Switch.HonControlSwitchEntity.async_turn_on, SwitchingProps.added,
      Switch.sync_command, Switch.coordinator_async_set_updated_data,
      Switch.commands_send, Switch.str_in, bind, external.
    simpl. rewrite Hsync. simpl. rewrite Hupd. simpl.
    rewrite (bool_decide_eq_false_2 _ Hcmd). simpl.
    split; [done |]. split; [by rewrite <- app_assoc |]. done.
Qed.

(** ** Coordinator updates of an entity *)

Section EntityUpdates.
Import Switch UpdateProps.
Context (host : Host) (d : EntityDescription).

Ltac run_update :=
  unfold refreshed, only_logged, try_except, bind, async_write_ha_state,
    external, getitem;
  simpl.

Lemma switch_update_refreshes update w :
  refreshed host update
    (py_eq (device_get (device w) (key d) (VInt 0)) (VInt 1)) w
    (HonSwitchEntity._handle_coordinator_update host d update w).
Proof.
  unfold HonSwitchEntity._handle_coordinator_update, HonSwitchEntity.is_on.
  run_update. destruct update; simpl; [| done].
  destruct (write_ha_state_raises host) as [e |]; simpl; [| done].
  by destruct (isinstance_Exception e).
Qed.

Lemma config_update_refreshes update w s :
  settings (device w) !! key d = Some s →
  refreshed host update
    (match param_min s with
     | Some mn => py_ne (param_value s) mn
     | None => py_eq (param_value s) (VStr "1")
     end) w
    (HonConfigSwitchEntity._handle_coordinator_update host d update w).
Proof.
  intros Hk.
  unfold HonConfigSwitchEntity._handle_coordinator_update,
    HonConfigSwitchEntity.is_on.
  run_update. rewrite Hk. simpl. destruct update; simpl; [| done].
  destruct (write_ha_state_raises host) as [e |]; simpl; [| done].
  by destruct (isinstance_Exception e).
Qed.

Lemma config_update_stale update w :
  settings (device w) !! key d = None →
  only_logged w (HonConfigSwitchEntity._handle_coordinator_update host d update w).
Proof.
  intros Hk.
  unfold HonConfigSwitchEntity._handle_coordinator_update,
    HonConfigSwitchEntity.is_on.
  run_update. by rewrite Hk.
Qed.

End EntityUpdates.

(** X12. [HonSwitchEntity._handle_coordinator_update] never touches the
    device and always leaves [_attr_is_on] equal to what [is_on] reads; it
    writes the state exactly when [update] is set and the write returns;
    with [update] unset it cannot fail; an exception of the write is
    suppressed if it derives from [Exception] and propagates otherwise,
    [_attr_is_on] being refreshed in either case. *)
Theorem switch_update_refreshes_state
    (host : Switch.Host) (d : Switch.EntityDescription) (update : bool)
    (w : Switch.World) :
  ∃ on, (Switch.HonSwitchEntity.is_on d w).1 = Ok on
        ∧ UpdateProps.refreshed host update on w
            (Switch.HonSwitchEntity._handle_coordinator_update host d update w).
Proof.
  eexists. split; [reflexivity |]. apply switch_update_refreshes.
Qed.

(** X13. [HonConfigSwitchEntity._handle_coordinator_update] refreshes
    [_attr_is_on] from the setting when the setting exists; when the
    setting is missing it returns normally, keeps the stale [_attr_is_on]
    and does not write the state, even with [update] set. *)
Theorem config_update_keeps_stale_state
    (host : Switch.Host) (d : Switch.EntityDescription) (update : bool)
    (w : Switch.World) :
  (∀ s, settings (Switch.device w) !! Switch.key d = Some s →
        ∃ on, (Switch.HonConfigSwitchEntity.is_on d w).1 = Ok on
              ∧ UpdateProps.refreshed host update on w
                  (Switch.HonConfigSwitchEntity._handle_coordinator_update
                     host d update w))
  ∧ (settings (Switch.device w) !! Switch.key d = None →
     UpdateProps.only_logged w
       (Switch.HonConfigSwitchEntity._handle_coordinator_update host d update w)).
Proof.
  split.
  - intros s Hk. eexists. split; [by apply config_is_on_run |].
    by apply config_update_refreshes.
  - intros Hk. by apply config_update_stale.
Qed.

(** ** Availability, completely *)

Section AvailableMore.
Import Switch ReadProps AvailableProps AvailableMoreProps.
Context (host : Host) (d : EntityDescription).

(** The three tests before the look-up, as one boolean. *)
Lemma reaches_setting_tests dev :
  reaches_setting host dev ↔
  super_available host = true
  ∧ py_eq (device_get dev "remoteCtrValid" (VInt 1)) (VInt 1) = true
  ∧ py_eq (device_get dev "attributes.lastConnEvent.category" VNone)
          (VStr "DISCONNECTED") = false.
Proof.
  unfold reaches_setting, device_get. split.
  - intros (Hsup & Hrem & Hcat). split; [done |]. split.
    + destruct (attributes dev !! "remoteCtrValid") as [v |]; simpl; [| done].
      by apply py_eq_one, Hrem.
    + destruct (attributes dev !! "attributes.lastConnEvent.category")
        as [c |]; simpl; [| done].
      destruct (py_eq c (VStr "DISCONNECTED")) eqn:Heq; [| done].
      apply py_eq_str in Heq. congruence.
  - intros (Hsup & Hrem & Hcat). split; [done |]. split.
    + intros v Hv. rewrite Hv in Hrem. by apply py_eq_one.
    + intros Hc. rewrite Hc in Hcat. discriminate Hcat.
Qed.

Lemma available_result_reached dev :
  reaches_setting host dev →
  available_result host d dev
  = match settings dev !! ("settings." +:+ key d) with
    | None => Raise (Exn KeyError ("settings." +:+ key d))
    | Some s =>
        Ok (negb (isinstance_HonParameterRange s
                  && (length (param_values s) <? 2)%nat))
    end.
Proof.
  intros Hreach. unfold available_result.
  apply reaches_setting_tests in Hreach as (-> & -> & ->). done.
Qed.

Lemma available_result_blocked dev :
  ¬ reaches_setting host dev → available_result host d dev = Ok false.
Proof.
  intros Hreach. unfold available_result.
  destruct (super_available host) eqn:Hsup; simpl; [| done].
  destruct (py_eq (device_get dev "remoteCtrValid" _) _) eqn:Hrem; simpl;
    [| done].
  destruct (py_eq (device_get dev "attributes.lastConnEvent.category" _) _)
    eqn:Hcat; simpl; [done |].
  exfalso. apply Hreach, reaches_setting_tests. done.
Qed.

Lemma reaches_setting_decided dev :
  reaches_setting host dev ∨ ¬ reaches_setting host dev.
Proof.
  rewrite reaches_setting_tests.
  destruct (super_available host); [| right; intros (? & _); done].
  destruct (py_eq (device_get dev "remoteCtrValid" _) _);
    [| right; intros (_ & ? & _); done].
  destruct (py_eq (device_get dev "attributes.lastConnEvent.category" _) _);
    [right; intros (_ & _ & ?); done | by left].
Qed.

End AvailableMore.

(** X14. [HonSwitchEntity.available] answers [True] exactly when the base
    class is available, [remoteCtrValid] is absent or equal to 1, the last
    connection event is not "DISCONNECTED", and the setting exists and is
    not a range with fewer than 2 values.  It raises, a [KeyError] for the
    setting's key, exactly when those three tests pass and the setting is
    missing; blocked by one of the tests it answers [False] without
    looking the setting up. *)
Theorem switch_available_exactly
    (host : Switch.Host) (d : Switch.EntityDescription) (w : Switch.World) :
  ((Switch.HonSwitchEntity.available host d w).1 = Ok true ↔
   AvailableMoreProps.reaches_setting host (Switch.device w)
   ∧ ∃ s, settings (Switch.device w) !! ("settings." +:+ Switch.key d) = Some s
          ∧ (isinstance_HonParameterRange s = true →
             (2 ≤ length (param_values s))%nat))
  ∧ (∀ e, (Switch.HonSwitchEntity.available host d w).1 = Raise e ↔
          e = Exn KeyError ("settings." +:+ Switch.key d)
          ∧ AvailableMoreProps.reaches_setting host (Switch.device w)
          ∧ settings (Switch.device w) !! ("settings." +:+ Switch.key d) = None)
  ∧ ((¬ AvailableMoreProps.reaches_setting host (Switch.device w)) →
     (Switch.HonSwitchEntity.available host d w).1 = Ok false).
Proof.
  rewrite available_run.
  destruct (reaches_setting_decided host (Switch.device w)) as [Hreach | Hreach].
  - rewrite (available_result_reached host d _ Hreach).
    destruct (settings (Switch.device w) !! ("settings." +:+ Switch.key d))
      as [s |] eqn:Hs.
    + split; [| split].
      * split.
        -- intros [= Hok]. split; [done |]. exists s. split; [done |].
           intros Hrange. rewrite Hrange in Hok. simpl in Hok.
           apply negb_true_iff, Nat.ltb_ge in Hok. done.
        -- intros (_ & s' & [= <-] & Hlen). f_equal.
           destruct (isinstance_HonParameterRange s); [| done].
           simpl. apply negb_true_iff, Nat.ltb_ge. by apply Hlen.
      * intros e. split; [done | intros (_ & _ & [=])].
      * done.
    + split; [| split].
      * split; [done | intros (_ & s' & [=] & _)].
      * intros e. split; [by intros [= <-] | by intros (-> & _)].
      * done.
  - rewrite (available_result_blocked host d _ Hreach).
    split; [| split].
    + split; [done | intros [? _]; done].
    + intros e. split; [done | intros (_ & ? & _); done].
    + done.
Qed.

(** ** The availability of a control switch *)

Section ControlAvailable.
Import Switch Builtins.
Context (host : Host) (parse : string → result Z).

Lemma control_available_run w :
  (SwitchRest.HonControlSwitchEntity.available host parse w).1
  = if super_available host then
      match int_ parse (device_get (device w) "remoteCtrValid" (VInt 1)) with
      | Ok n => Ok ((n =? 1)%Z && connection (device w))
      | Raise e => Raise e
      end
    else Ok false.
Proof.
  unfold SwitchRest.HonControlSwitchEntity.available, bind. simpl.
  destruct (super_available host); simpl; [| done].
  destruct (int_ parse _) as [n | e]; simpl; [| done].
  by destruct (n =? 1)%Z.
Qed.

Lemma control_available_reads w :
  ReadProps.reads_only w (SwitchRest.HonControlSwitchEntity.available host parse w).
Proof.
  unfold ReadProps.reads_only, SwitchRest.HonControlSwitchEntity.available, bind.
  simpl. destruct (super_available host); simpl; [| done].
  destruct (int_ parse _) as [n | e]; simpl; [| done].
  by destruct (n =? 1)%Z.
Qed.

End ControlAvailable.

(** X15. [HonControlSwitchEntity.available] only reads.  It answers
    [True] exactly when the base class is available, [int] of
    [remoteCtrValid] (1 when absent) is 1 and the device's connection flag
    is set; it raises exactly when the base class is available and [int]
    raises, and then that exception; with the base class unavailable it
    answers [False] whatever [remoteCtrValid] holds. *)
Theorem control_available_exactly
    (host : Switch.Host) (parse : string → result Z) (w : Switch.World) :
  ReadProps.reads_only w (SwitchRest.HonControlSwitchEntity.available host parse w)
  ∧ ((SwitchRest.HonControlSwitchEntity.available host parse w).1 = Ok true ↔
     Switch.super_available host = true
     ∧ Builtins.int_ parse
         (device_get (Switch.device w) "remoteCtrValid" (VInt 1)) = Ok 1%Z
     ∧ connection (Switch.device w) = true)
  ∧ (∀ e, (SwitchRest.HonControlSwitchEntity.available host parse w).1 = Raise e ↔
          Switch.super_available host = true
          ∧ Builtins.int_ parse
              (device_get (Switch.device w) "remoteCtrValid" (VInt 1)) = Raise e)
  ∧ (Switch.super_available host = false →
     (SwitchRest.HonControlSwitchEntity.available host parse w).1 = Ok false).
Proof.
  split; [apply control_available_reads |].
  rewrite control_available_run.
  destruct (Switch.super_available host); cycle 1.
  { split; [| split]; [split; [done | by intros [? _]]
                      | intros e; split; [done | by intros [? _]] | done]. }
  destruct (Builtins.int_ parse _) as [n | e0].
  - split; [| split; [| done]].
    + split.
      * intros [= Hb]. apply andb_true_iff in Hb as [Hn Hc].
        apply Z.eqb_eq in Hn. by subst.
      * intros (_ & [= ->] & ->). done.
    + intros e. split; [done | by intros [_ ?]].
  - split; [| split; [| done]].
    + split; [done | by intros (_ & ? & _)].
    + intros e. split; [by intros [= ->] | by intros [_ [= ->]]].
Qed.

(** X16. The two availability rules can disagree on one device: with the
    base class available, [remoteCtrValid] absent, the connection flag set
    and the last connection event "DISCONNECTED", a control switch is
    available and a setting switch is not. *)
Theorem availability_rules_disagree
    (host : Switch.Host) (parse : string → result Z)
    (d : Switch.EntityDescription) (w : Switch.World) :
  Switch.super_available host = true →
  attributes (Switch.device w) !! "remoteCtrValid" = None →
  connection (Switch.device w) = true →
  attributes (Switch.device w) !! "attributes.lastConnEvent.category"
    = Some (VStr "DISCONNECTED") →
  (SwitchRest.HonControlSwitchEntity.available host parse w).1 = Ok true
  ∧ (Switch.HonSwitchEntity.available host d w).1 = Ok false.
Proof.
  intros Hsup Hrem Hconn Hcat. split.
  - rewrite control_available_run, Hsup. unfold device_get. rewrite Hrem.
    simpl. by rewrite Hconn.
  - rewrite available_run. by apply available_result_disconnected.
Qed.

(** ** Unloading an entry *)

Section Unload.
Import Init InitRest InitProps UnloadProps.
Context (const : Const) (unloading : Unloading) (entry : ConfigEntry).

Lemma unload_run h by_entry runtime :
  hass_data h !! DOMAIN const = Some by_entry →
  by_entry !! unique_id entry = Some runtime →
  async_unload_entry const unloading entry h
  = match unload_platforms unloading with
    | Raise e => (Raise e, persisted const entry h (refresh_token (rd_hon runtime)))
    | Ok unload =>
        (unload <- ret unload ;;
         (if unload then
            hass_data <- gets HomeAssistant.hass_data ;;
            by_entry <- getitem hass_data (DOMAIN const) ;;
            if bool_decide (by_entry = ∅) then
              modify (set_hass_data (delete (DOMAIN const))) ;;;
              _LOGGER INFO "Removed DOMAIN from hass.data" None
            else ret tt
          else ret tt) ;;;
         _LOGGER INFO "Unload result: %s" None ;;;
         ret unload)
          (unload_effect unloading (persisted const entry h (refresh_token (rd_hon runtime))))
    end.
Proof.
  intros Hdom Hentry.
  unfold async_unload_entry, async_unload_platforms.
  unfold bind at 1. simpl. unfold bind at 1. simpl.
  unfold bind at 1. unfold getitem at 1. simpl. rewrite Hdom. simpl.
  unfold bind at 1. unfold getitem at 1. rewrite Hentry. simpl.
  unfold bind at 1. simpl. unfold bind at 1.
  destruct (unload_platforms unloading) as [unload | e]; [| done].
  unfold bind at 1. simpl. reflexivity.
Qed.

Lemma unload_keeps_data h by_entry runtime unload :
  unloading_keeps_data unloading →
  hass_data h !! DOMAIN const = Some by_entry →
  by_entry !! unique_id entry = Some runtime →
  unload_platforms unloading = Ok unload →
  ∃ lg, async_unload_entry const unloading entry h
        = (Ok unload,
           relog (unload_effect unloading
                    (persisted const entry h (refresh_token (rd_hon runtime)))) lg).
Proof.
  intros Hkeep Hdom Hentry Hunload.
  rewrite (unload_run h by_entry runtime Hdom Hentry), Hunload.
  destruct (Hkeep (persisted const entry h (refresh_token (rd_hon runtime)))) as [Hdata _].
  set (h1 := unload_effect unloading _) in *. clearbody h1.
  unfold bind. simpl. destruct unload; simpl; cycle 1.
  { eexists. by destruct h1. }
  unfold getitem. rewrite Hdata. simpl. rewrite Hdom. simpl.
  rewrite bool_decide_eq_false_2; cycle 1.
  { intros ->. by rewrite lookup_empty in Hentry. }
  simpl. eexists. by destruct h1.
Qed.

End Unload.

(** X17. Unloading an entry that is set up persists the client's refresh
    token in the stored entry data and returns what the host's unloading
    of the platforms returns.  Provided that unloading leaves [hass.data]
    and the stored entries alone, [hass.data] is as before the call: the
    runtime data of the entry is still there, so the clean-up of
    [hass.data[DOMAIN]] does not run. *)
Theorem unload_persists_token_and_keeps_data
    (const : Init.Const) (unloading : InitRest.Unloading) (entry : ConfigEntry)
    (hass : HomeAssistant) (by_entry : gmap string RuntimeData)
    (runtime : RuntimeData) (unload : bool) :
  UnloadProps.unloading_keeps_data unloading →
  hass_data hass !! Init.DOMAIN const = Some by_entry →
  by_entry !! unique_id entry = Some runtime →
  InitRest.unload_platforms unloading = Ok unload →
  (InitRest.async_unload_entry const unloading entry hass).1 = Ok unload
  ∧ UnloadProps.token_persisted const entry (refresh_token (rd_hon runtime))
      (InitRest.async_unload_entry const unloading entry hass).2
  ∧ hass_data (InitRest.async_unload_entry const unloading entry hass).2
    = hass_data hass.
Proof.
  intros Hkeep Hdom Hentry Hunload.
  destruct (unload_keeps_data const unloading entry hass by_entry runtime unload
              Hkeep Hdom Hentry Hunload) as [lg ->].
  destruct (Hkeep (UnloadProps.persisted const entry hass
                     (refresh_token (rd_hon runtime))))
    as [Hdata Hentries].
  simpl. split; [done |]. split.
  - unfold UnloadProps.token_persisted. simpl. rewrite Hentries. simpl.
    apply lookup_insert_eq.
  - by rewrite Hdata.
Qed.

(** X18. Unloading fails early or late.  For an entry without runtime data
    under [hass.data[DOMAIN]] it raises [KeyError] and only the log
    changes: nothing is persisted and the platforms are not unloaded.
    When the host's unloading of the platforms raises, that exception is
    raised with the refresh token already persisted. *)
Theorem unload_failures
    (const : Init.Const) (unloading : InitRest.Unloading) (entry : ConfigEntry)
    (hass : HomeAssistant) :
  (hass_data hass !! Init.DOMAIN const = None →
   ∃ lg, InitRest.async_unload_entry const unloading entry hass
         = (Raise (Exn KeyError (Init.DOMAIN const)), InitProps.relog hass lg))
  ∧ (∀ by_entry,
       hass_data hass !! Init.DOMAIN const = Some by_entry →
       by_entry !! unique_id entry = None →
       ∃ lg, InitRest.async_unload_entry const unloading entry hass
             = (Raise (Exn KeyError (unique_id entry)), InitProps.relog hass lg))
  ∧ (∀ by_entry runtime e,
       hass_data hass !! Init.DOMAIN const = Some by_entry →
       by_entry !! unique_id entry = Some runtime →
       InitRest.unload_platforms unloading = Raise e →
       (InitRest.async_unload_entry const unloading entry hass).1 = Raise e
       ∧ UnloadProps.token_persisted const entry (refresh_token (rd_hon runtime))
           (InitRest.async_unload_entry const unloading entry hass).2
       ∧ hass_data (InitRest.async_unload_entry const unloading entry hass).2
         = hass_data hass).
Proof.
  split; [| split].
  - intros Hdom. eexists.
    unfold InitRest.async_unload_entry, bind, getitem. simpl. rewrite Hdom.
    reflexivity.
  - intros by_entry Hdom Hentry. eexists.
    unfold InitRest.async_unload_entry, bind, getitem. simpl. rewrite Hdom.
    simpl. rewrite Hentry. reflexivity.
  - intros by_entry runtime e Hdom Hentry Hraise.
    rewrite (unload_run const unloading entry hass by_entry runtime Hdom Hentry),
      Hraise.
    simpl. split; [done |]. split; [apply lookup_insert_eq | done].
Qed.

(** ** Setting up an entry: failures and frame *)

Section SetupMore.
Import Init InitProps SetupMoreProps.
Context (const : Const) (outside : Outside) (entry : ConfigEntry).

Lemma setup_entry_stored h dir hon :
  config_dir h = Some dir →
  (Hon_create const outside entry dir h).1 = Ok hon →
  ∃ lg,
    async_setup_entry const outside entry h
    = (async_forward_entry_setups_with_error_handling const outside entry ;;;
       _LOGGER INFO "Successfully set up hOn integration for entry: %s" None ;;;
       ret true) (stored const entry hon h lg).
Proof.
  intros Hdir Hcreate.
  destruct (Hon_create_email const outside entry dir h hon Hcreate)
    as [email Hemail].
  unfold async_setup_entry.
  unfold bind at 1. rewrite logger_relog.
  unfold bind at 1. simpl. rewrite Hdir.
  unfold bind at 1. unfold try_except. unfold bind at 1.
  rewrite (Hon_create_run const outside entry dir _ h), Hcreate.
  unfold bind at 1. unfold getitem at 1. rewrite Hemail. simpl.
  unfold bind at 1. simpl.
  unfold bind at 1. simpl.
  unfold bind at 1. simpl.
  unfold bind at 1.
  match goal with
  | |- context [for_each ?xs ?body ?st] =>
      destruct (for_each_logs xs DEBUG "Appliance: %s (%s) - Connection: %s"
                  None st) as [lg Hlg]
  end.
  rewrite Hlg.
  unfold bind at 1. simpl.
  unfold bind at 1. simpl.
  unfold bind at 1. simpl.
  unfold bind at 1. simpl.
  eexists. reflexivity.
Qed.

Lemma stored_set_up hon h lg : set_up const entry hon h (stored const entry hon h lg).
Proof.
  unfold set_up, stored. simpl. split; [apply lookup_insert_eq |].
  split; [done |]. eexists. split.
  - rewrite lookup_alter_eq, lookup_insert_eq. reflexivity.
  - simpl. apply lookup_insert_eq.
Qed.



(** The end of the setup changes the platforms forwarded and the log. *)
Lemma setup_tail_state mid :
  ∃ fw lg,
    ((async_forward_entry_setups_with_error_handling const outside entry ;;;
      _LOGGER INFO "Successfully set up hOn integration for entry: %s" None ;;;
      ret true) mid).2
    = Hass (config_dir mid) (hass_data mid) (config_entries mid)
           (coordinators mid) (loop mid) fw lg.
Proof.
  unfold async_forward_entry_setups_with_error_handling, try_except, bind,
    async_forward_entry_setups, external.
  simpl. destruct (forward_entry_setups_raises outside) as [e |]; simpl.
  - destruct (isinstance_ValueError e); simpl.
    + destruct (contains _ _); simpl; by do 2 eexists.
    + destruct (isinstance_Exception e); simpl; by do 2 eexists.
  - by do 2 eexists.
Qed.

Lemma setup_entry_returned h b after :
  async_setup_entry const outside entry h = (Ok b, after) →
  ∃ hon, set_up const entry hon h after.
Proof.
  intros Hrun.
  destruct (config_dir h) as [dir |] eqn:Hdir; cycle 1.
  { pose proof (setup_entry_no_dir const outside entry h Hdir) as Hno.
    rewrite Hrun in Hno. discriminate. }
  destruct (Hon_create const outside entry dir h).1 as [hon | e] eqn:Hcreate;
    cycle 1.
  { destruct (setup_entry_create_raises const outside entry h dir e Hdir Hcreate)
      as (lg & Hraise & _).
    rewrite Hrun in Hraise. discriminate. }
  exists hon.
  destruct (setup_entry_stored h dir hon Hdir Hcreate) as [lg Hstored].
  destruct (setup_tail_state (stored const entry hon h lg)) as (fw & lg' & Hst).
  rewrite <- Hstored, Hrun in Hst. simpl in Hst. subst after.
  apply (set_up_frame const entry hon h (stored const entry hon h lg));
    [apply stored_set_up | done ..].
Qed.

End SetupMore.

Section SetupFailures.
Import Init InitProps SetupMoreProps.
Context (const : Const) (outside : Outside) (entry : ConfigEntry).




End SetupFailures.


(** X20. The setup does not roll back: when the forwarding of the
    platforms raises (anything but the duplicate-setup [ValueError]), the
    setup raises that exception with the refresh token persisted, the new
    coordinator created, its callback subscribed, and the client and the
    coordinator stored under [hass.data[DOMAIN][entry.unique_id]]. *)
Theorem setup_keeps_client_when_forwarding_fails
    (const : Init.Const) (outside : Init.Outside) (entry : ConfigEntry)
    (hass : HomeAssistant) (dir : string) (hon : Hon) (e : exn) :
  config_dir hass = Some dir →
  (Init.Hon_create const outside entry dir hass).1 = Ok hon →
  Init.forward_entry_setups_raises outside = Some e →
  InitProps.already_setup e = false →
  (Init.async_setup_entry const outside entry hass).1 = Raise e
  ∧ InitProps.set_up const entry hon hass
      (Init.async_setup_entry const outside entry hass).2.
Proof.
  intros Hdir Hcreate Hfw Hdup.
  destruct (setup_entry_created const outside entry hass dir hon Hdir Hcreate)
    as (mid & Hmid & ->).
  destruct (setup_tail const outside entry mid) as (Hce & Hco & Hda & Hres).
  rewrite Hfw, Hdup in Hres. split; [done |].
  by eapply set_up_frame.
Qed.


(** X22. Unloading does not undo the setup: after a setup that returned,
    unloading the entry returns the host's answer and [hass.data] still
    holds the client and the coordinator of the entry, also when the
    platforms were unloaded (provided their unloading leaves [hass.data]
    and the stored entries alone). *)
Theorem unload_after_setup_keeps_runtime_data
    (const : Init.Const) (outside : Init.Outside)
    (unloading : InitRest.Unloading) (entry : ConfigEntry)
    (hass after : HomeAssistant) (b unload : bool) :
  Init.async_setup_entry const outside entry hass = (Ok b, after) →
  UnloadProps.unloading_keeps_data unloading →
  InitRest.unload_platforms unloading = Ok unload →
  (InitRest.async_unload_entry const unloading entry after).1 = Ok unload
  ∧ hass_data (InitRest.async_unload_entry const unloading entry after).2
    = hass_data after
  ∧ ∃ by_entry runtime,
      hass_data (InitRest.async_unload_entry const unloading entry after).2
        !! Init.DOMAIN const = Some by_entry
      ∧ by_entry !! unique_id entry = Some runtime
      ∧ rd_coordinator runtime = length (coordinators hass).
Proof.
  intros Hrun Hkeep Hunload.
  destruct (setup_entry_returned const outside entry hass b after Hrun)
    as (hon & _ & _ & by_entry & Hdom & Hentry).
  destruct (unload_keeps_data const unloading entry after by_entry _ unload
              Hkeep Hdom Hentry Hunload) as [lg ->].
  destruct (Hkeep (UnloadProps.persisted const entry after (refresh_token hon)))
    as [Hdata _].
  simpl in *. rewrite Hdata. simpl.
  split; [done |]. split; [done |]. eauto.
Qed.

(** ** Forwarding the platforms *)

Section Substrings.

Lemma append_cons a (s t : string) : String a s +:+ t = String a (s +:+ t).
Proof. reflexivity. Qed.

Lemma append_empty (t : string) : "" +:+ t = t.
Proof. reflexivity. Qed.

Lemma prefix_spec (n h : string) :
  String.prefix n h = true ↔ ∃ post, h = n +:+ post.
Proof.
  revert h. induction n as [| a n IH]; intros h; destruct h as [| b h]; simpl.
  - split; [intros _; by exists "" | done].
  - split; [intros _; by exists (String b h) | done].
  - split; [done | intros [post Hpost]; by rewrite append_cons in Hpost].
  - destruct (Ascii.ascii_dec a b) as [<- | Hne].
    + rewrite IH. split; intros [post Hpost]; exists post;
        rewrite append_cons in *; congruence.
    + split; [done |]. intros [post Hpost]. rewrite append_cons in Hpost.
      congruence.
Qed.

(** [contains] decides whether the needle occurs in the haystack. *)
Lemma contains_spec (n h : string) :
  contains n h = true ↔ ∃ pre post, h = pre +:+ n +:+ post.
Proof.
  induction h as [| c h IH].
  - cbn [contains]. rewrite orb_false_r, prefix_spec. split.
    + intros [post Hpost]. by exists "", post.
    + intros (pre & post & Hh). destruct pre as [| c' pre].
      * rewrite append_empty in Hh. by exists post.
      * by rewrite append_cons in Hh.
  - cbn [contains]. rewrite orb_true_iff, prefix_spec, IH. split.
    + intros [[post Hpost] | (pre & post & Hh)].
      * by exists "", post.
      * exists (String c pre), post. by rewrite append_cons, Hh.
    + intros (pre & post & Hh). destruct pre as [| c' pre].
      * left. rewrite append_empty in Hh. by exists post.
      * right. rewrite append_cons in Hh. injection Hh as _ Hh.
        by exists pre, post.
Qed.

End Substrings.

(** X23. The forwarding wrapper returns normally exactly when the host's
    forwarding returns or raises a [ValueError] whose text contains "has
    already been setup"; any other exception of the host is raised to the
    caller as it is.  The platforms count as forwarded only when the host
    returned. *)
Theorem forwarding_ignores_exactly_duplicates
    (const : Init.Const) (outside : Init.Outside) (entry : ConfigEntry)
    (hass : HomeAssistant) :
  ((Init.async_forward_entry_setups_with_error_handling const outside entry hass).1
     = Ok tt ↔
   Init.forward_entry_setups_raises outside = None
   ∨ ∃ e pre post,
       Init.forward_entry_setups_raises outside = Some e
       ∧ exn_cls e = ValueError
       ∧ exn_str e = pre +:+ "has already been setup" +:+ post)
  ∧ (∀ e,
       (Init.async_forward_entry_setups_with_error_handling
          const outside entry hass).1 = Raise e →
       Init.forward_entry_setups_raises outside = Some e)
  ∧ forwarded
      (Init.async_forward_entry_setups_with_error_handling
         const outside entry hass).2
    = match Init.forward_entry_setups_raises outside with
      | None => forwarded hass ++ [(entry_id entry, Init.PLATFORMS const)]
      | Some _ => forwarded hass
      end.
Proof.
  split; [| split].
  - rewrite forward_outcome.
    destruct (Init.forward_entry_setups_raises outside) as [e |]; cycle 1.
    { split; [by left | done]. }
    unfold InitProps.already_setup, isinstance_ValueError.
    destruct (exn_cls e) eqn:Hcls; simpl;
      try (split; [done | intros [? | (e' & pre & post & [= <-] & ? & _)]; congruence]).
    destruct (contains _ _) eqn:Hc.
    + split; [| done]. intros _. right.
      apply contains_spec in Hc as (pre & post & Hstr). by exists e, pre, post.
    + split; [done |].
      intros [? | (e' & pre & post & [= <-] & _ & Hstr)]; [done |].
      assert (contains "has already been setup" (exn_str e) = true) as Hyes.
      { apply contains_spec. by exists pre, post. }
      congruence.
  - intros e. rewrite forward_outcome.
    destruct (Init.forward_entry_setups_raises outside) as [e' |]; [| done].
    destruct (InitProps.already_setup e'); [done | by intros [= ->]].
  - unfold Init.async_forward_entry_setups_with_error_handling, try_except,
      bind, Init.async_forward_entry_setups, external.
    simpl. destruct (Init.forward_entry_setups_raises outside) as [e |]; simpl;
      [| done].
    destruct (isinstance_ValueError e); simpl.
    + by destruct (contains _ _).
    + by destruct (isinstance_Exception e).
Qed.

(** ** Many callbacks, and the loop running them *)

Section ManyCallbacks.
Import Init.

Lemma call_wrapper coordinator h :
  call (make_threadsafe_callback coordinator) h = wrapper coordinator h.
Proof. reflexivity. Qed.

Lemma calls_queue n coordinator h queue :
  loop h = Some queue →
  (for_each (replicate n (make_threadsafe_callback coordinator)) call h).1 = Ok tt
  ∧ loop (for_each (replicate n (make_threadsafe_callback coordinator)) call h).2
    = Some (queue ++ replicate n (TaskSetUpdatedData coordinator))
  ∧ coordinators
      (for_each (replicate n (make_threadsafe_callback coordinator)) call h).2
    = coordinators h.
Proof.
  revert h queue. induction n as [| n IH]; intros h queue Hloop.
  - simpl. by rewrite app_nil_r.
  - cbn [replicate for_each]. unfold bind.
    rewrite call_wrapper, wrapper_run, Hloop. cbv beta iota.
    match goal with
    | |- context [for_each _ call ?st] =>
        destruct (IH st (queue ++ [TaskSetUpdatedData coordinator]) eq_refl)
          as (Hres & Hq & Hco)
    end.
    split; [done |]. split; [| done].
    rewrite Hq, <- app_assoc. done.
Qed.

Lemma calls_on_closed_loop n coordinator h :
  loop h = None →
  (for_each (replicate n (make_threadsafe_callback coordinator)) call h).1 = Ok tt
  ∧ loop (for_each (replicate n (make_threadsafe_callback coordinator)) call h).2
    = None
  ∧ coordinators
      (for_each (replicate n (make_threadsafe_callback coordinator)) call h).2
    = coordinators h.
Proof.
  revert h. induction n as [| n IH]; intros h Hloop; [done |].
  cbn [replicate for_each]. unfold bind.
  rewrite call_wrapper, wrapper_run, Hloop. cbv beta iota.
  match goal with
  | |- context [for_each _ call ?st] =>
      destruct (IH st eq_refl) as (Hres & Hq & Hco)
  end.
  done.
Qed.

(** One update of a coordinator, when the base class returns. *)
Lemma set_updated_data_run outside self h :
  base_set_updated_data_raises outside = None →
  ∃ lg,
    HonDataUpdateCoordinator.async_set_updated_data outside self h
    = (Ok tt,
       Hass (config_dir h) (hass_data h) (config_entries h)
            (alter (λ c, MkCoordinator (coord_name c) (coord_listeners c)
                                       (S (coord_updates c))) self
                   (coordinators h))
            (loop h) (forwarded h) lg).
Proof.
  intros Hbase.
  unfold HonDataUpdateCoordinator.async_set_updated_data, try_except,
    bind, HonDataUpdateCoordinator.super_async_set_updated_data, external.
  rewrite Hbase. simpl. by eexists.
Qed.

Lemma tasks_update outside n self h c :
  base_set_updated_data_raises outside = None →
  coordinators h !! self = Some c →
  (for_each (replicate n (TaskSetUpdatedData self)) (run_task outside) h).1 = Ok tt
  ∧ coordinators
      (for_each (replicate n (TaskSetUpdatedData self)) (run_task outside) h).2
      !! self
    = Some (MkCoordinator (coord_name c) (coord_listeners c) (n + coord_updates c))
  ∧ ∀ other, other ≠ self →
      coordinators
        (for_each (replicate n (TaskSetUpdatedData self)) (run_task outside) h).2
        !! other
      = coordinators h !! other.
Proof.
  intros Hbase. revert h c. induction n as [| n IH]; intros h c Hc.
  - simpl. split; [done |]. split; [by destruct c | done].
  - cbn [replicate for_each]. unfold bind.
    change (run_task outside (TaskSetUpdatedData self) h)
      with (HonDataUpdateCoordinator.async_set_updated_data outside self h).
    destruct (set_updated_data_run outside self h Hbase) as [lg ->].
    cbv beta iota.
    match goal with
    | |- context [for_each _ (run_task outside) ?st] =>
        destruct (IH st (MkCoordinator (coord_name c) (coord_listeners c)
                                       (S (coord_updates c))))
          as (Hres & Hself & Hother);
        [ simpl; by rewrite list_lookup_alter_eq, Hc |]
    end.
    split; [done |]. split.
    + rewrite Hself. simpl. do 2 f_equal. lia.
    + intros other Hne. rewrite Hother by done. simpl.
      by rewrite list_lookup_alter_ne.
Qed.

End ManyCallbacks.

(** X24. Callbacks queue, the loop updates.  Any number [n] of invocations
    of a coordinator's callback return normally and leave the coordinators
    untouched; on a running loop they add [n] update tasks to the end of
    the queue, on a closed loop nothing.  Running [n] queued tasks, while
    the base class's update returns, advances that coordinator by [n]
    updates and no other coordinator. *)
Theorem callbacks_queue_and_loop_updates
    (outside : Init.Outside) (n coordinator : nat) (h : HomeAssistant) :
  (for_each (replicate n (Init.make_threadsafe_callback coordinator))
            Init.call h).1 = Ok tt
  ∧ coordinators
      (for_each (replicate n (Init.make_threadsafe_callback coordinator))
                Init.call h).2 = coordinators h
  ∧ loop (for_each (replicate n (Init.make_threadsafe_callback coordinator))
                   Init.call h).2
    = (λ queue, queue ++ replicate n (TaskSetUpdatedData coordinator)) <$> loop h
  ∧ ∀ c, Init.base_set_updated_data_raises outside = None →
         coordinators h !! coordinator = Some c →
         (for_each (replicate n (TaskSetUpdatedData coordinator))
                   (Init.run_task outside) h).1 = Ok tt
         ∧ coordinators
             (for_each (replicate n (TaskSetUpdatedData coordinator))
                       (Init.run_task outside) h).2 !! coordinator
           = Some (MkCoordinator (coord_name c) (coord_listeners c)
                                 (n + coord_updates c))
         ∧ ∀ other, other ≠ coordinator →
             coordinators
               (for_each (replicate n (TaskSetUpdatedData coordinator))
                         (Init.run_task outside) h).2 !! other
             = coordinators h !! other.
Proof.
  destruct (loop h) as [queue |] eqn:Hloop.
  - destruct (calls_queue n coordinator h queue Hloop) as (Hres & Hq & Hco).
    split; [done |]. split; [done |]. split; [done |].
    intros c Hbase Hc. by apply tasks_update.
  - destruct (calls_on_closed_loop n coordinator h Hloop) as (Hres & Hq & Hco).
    split; [done |]. split; [done |]. split; [done |].
    intros c Hbase Hc. by apply tasks_update.
Qed.

(** ** The further properties at concrete devices *)

(** The sample client: two entities for the air conditioner, none for the
    appliance of unknown type. *)
Lemma setup_is_comprehension_witness :
  Switch.async_setup_entry "hon" Switch.SWITCHES_literal Worlds.entry
    Worlds.hass_with_client
  = (Ok (SetupSpec.comprehension Switch.SWITCHES_literal
           (appliances Worlds.client)),
     Worlds.hass_with_client).
Proof.
  exact (setup_is_comprehension "hon" Switch.SWITCHES_literal Worlds.entry
           Worlds.hass_with_client
           {[ "user@example.org" := MkRuntimeData Worlds.client 0 ]}
           (MkRuntimeData Worlds.client 0) eq_refl eq_refl).
Defined.

Lemma setup_creates_exactly_supported_witness :
  let ac := Worlds.air_conditioner Worlds.eco_range ∅ in
  let e := Switch.NewEntity Switch.ClsHonSwitchEntity ac
             (Switch.HonSwitchEntityDescription Worlds.eco_mode) in
  e ∈ SetupSpec.comprehension Switch.SWITCHES_literal (appliances Worlds.client)
  ↔ SetupProps.justified Switch.SWITCHES_literal (appliances Worlds.client) e.
Proof.
  intros ac e.
  refine (setup_creates_exactly_supported "hon" Switch.SWITCHES_literal
            Worlds.entry Worlds.hass_with_client
            {[ "user@example.org" := MkRuntimeData Worlds.client 0 ]}
            (MkRuntimeData Worlds.client 0) _ eq_refl eq_refl _ e).
  vm_compute. reflexivity.
Defined.

(** A host that knows no domain, and one that has the domain for another
    entry. *)
Lemma setup_without_client_raises_witness :
  Switch.async_setup_entry "hon" Switch.SWITCHES_literal Worlds.entry
    Samples.running_hass
  = (Raise (Exn KeyError "hon"), Samples.running_hass)
  ∧ Switch.async_setup_entry "hon" Switch.SWITCHES_literal
      MoreWorlds.entry_without_password Worlds.hass_with_client
    = (Raise (Exn KeyError "nobody@example.org"), Worlds.hass_with_client).
Proof.
  split.
  - exact (proj1 (setup_without_client_raises "hon" Switch.SWITCHES_literal
                    Worlds.entry Samples.running_hass) eq_refl).
  - exact (proj2 (setup_without_client_raises "hon" Switch.SWITCHES_literal
                    MoreWorlds.entry_without_password Worlds.hass_with_client)
             {[ "user@example.org" := MkRuntimeData Worlds.client 0 ]}
             eq_refl eq_refl).
Defined.


(** The eco range 0..1 reads back on after on and off after off; an
    enumeration of names rejects "1" and reads as before. *)
Lemma config_switch_reads_back_witness :
  (Switch.HonConfigSwitchEntity.is_on Worlds.eco_mode
     (Switch.HonConfigSwitchEntity.async_turn_off Worlds.quiet_host
        Worlds.eco_mode Worlds.ac_world).2).1 = Ok false
  ∧ (Switch.HonConfigSwitchEntity.is_on Worlds.eco_mode
       (Switch.HonConfigSwitchEntity.async_turn_on Worlds.quiet_host
          Worlds.eco_mode Worlds.ac_world).2).1 = Ok true
  ∧ (Switch.HonConfigSwitchEntity.is_on Worlds.eco_mode
       (Switch.HonConfigSwitchEntity.async_turn_on Worlds.strict_host
          Worlds.eco_mode MoreWorlds.named_world).2).1
    = (Switch.HonConfigSwitchEntity.is_on Worlds.eco_mode
         MoreWorlds.named_world).1.
Proof.
  destruct (config_switch_reads_back Worlds.quiet_host Worlds.eco_mode
              Worlds.ac_world Worlds.eco_range eq_refl eq_refl) as [Hoff Hon].
  split; [exact Hoff |]. split; [exact Hon |].
  exact (proj2 (config_switch_reads_back Worlds.strict_host Worlds.eco_mode
                  MoreWorlds.named_world MoreWorlds.named_enum eq_refl eq_refl)).
Defined.

(** On a quiet host the four effects take place; on a device without the
    "settings" command the run stops after the state write; on the
    enumeration of "0" and "1" the integer is rejected and nothing is
    done. *)
Lemma switch_entity_effects_in_order_witness :
  SwitchingProps.switch_run Worlds.quiet_host "settings.ecoMode" (VInt 1)
    Worlds.ac_world
    (Switch.HonSwitchEntity.async_turn_on Worlds.quiet_host Worlds.eco_mode
       Worlds.ac_world)
  ∧ SwitchingProps.switch_run Worlds.quiet_host "settings.ecoMode" (VInt 0)
      (Worlds.world_of (MoreWorlds.mute (Worlds.air_conditioner Worlds.eco_range ∅)))
      (Switch.HonSwitchEntity.async_turn_off Worlds.quiet_host Worlds.eco_mode
         (Worlds.world_of
            (MoreWorlds.mute (Worlds.air_conditioner Worlds.eco_range ∅))))
  ∧ Props.raised_untouched Worlds.not_allowed Worlds.enum_world
      (Switch.HonSwitchEntity.async_turn_off Worlds.strict_host Worlds.eco_mode
         Worlds.enum_world).
Proof.
  split; [| split].
  - exact (proj1 (switch_entity_effects_in_order Worlds.quiet_host Worlds.eco_mode
                    Worlds.ac_world Worlds.eco_range eq_refl eq_refl)).
  - exact (proj2 (switch_entity_effects_in_order Worlds.quiet_host Worlds.eco_mode
                    (Worlds.world_of
                       (MoreWorlds.mute (Worlds.air_conditioner Worlds.eco_range ∅)))
                    Worlds.eco_range eq_refl eq_refl)).
  - exact (proj2 (switch_entity_effects_in_order Worlds.strict_host Worlds.eco_mode
                    Worlds.enum_world Worlds.eco_enum eq_refl eq_refl)).
Defined.

Lemma config_entity_never_sends_witness :
  SwitchingProps.config_run Worlds.quiet_host "ecoMode" (VInt 1) Worlds.ac_world
    (Switch.HonConfigSwitchEntity.async_turn_on Worlds.quiet_host Worlds.eco_mode
       Worlds.ac_world)
  ∧ SwitchingProps.config_run Worlds.quiet_host "ecoMode" (VInt 0) Worlds.ac_world
      (Switch.HonConfigSwitchEntity.async_turn_off Worlds.quiet_host
         Worlds.eco_mode Worlds.ac_world)
  ∧ Props.raised_untouched Worlds.not_allowed MoreWorlds.named_world
      (Switch.HonConfigSwitchEntity.async_turn_off Worlds.strict_host
         Worlds.eco_mode MoreWorlds.named_world).
Proof.
  destruct (proj2 (proj2 (config_entity_never_sends Worlds.quiet_host
                            Worlds.eco_mode Worlds.ac_world))
              Worlds.eco_range eq_refl eq_refl) as [Hon Hoff].
  split; [exact Hon |]. split; [exact Hoff |].
  exact (proj2 (proj2 (proj2 (config_entity_never_sends Worlds.strict_host
                                Worlds.eco_mode MoreWorlds.named_world))
                  MoreWorlds.named_enum eq_refl eq_refl)).
Defined.

(** The air conditioner has no "prewash" setting. *)
Lemma switching_without_setting_raises_witness :
  let d := Switch.Description "prewash" "Prewash" None None in
  SwitchingProps.key_missing "settings.prewash" Worlds.ac_world
    (Switch.HonSwitchEntity.async_turn_on Worlds.quiet_host d Worlds.ac_world)
  ∧ SwitchingProps.key_missing "prewash" Worlds.ac_world
      (Switch.HonConfigSwitchEntity.async_turn_off Worlds.quiet_host d
         Worlds.ac_world).
Proof.
  intros d.
  destruct (switching_without_setting_raises Worlds.quiet_host d Worlds.ac_world)
    as [Hswitch Hconfig].
  split.
  - exact (proj1 (Hswitch eq_refl)).
  - exact (proj2 (Hconfig eq_refl)).
Defined.


(** The idle washer gets its "active" switch and cannot be started. *)
Lemma control_entity_without_command_witness :
  let w := Worlds.world_of MoreWorlds.idle_washer in
  let description := Switch.HonControlSwitchEntityDescription MoreWorlds.active
                       "startProgram" "stopProgram" in
  Switch.setup_description MoreWorlds.idle_washer [] description
  = [Switch.NewEntity Switch.ClsHonControlSwitchEntity MoreWorlds.idle_washer
       description]
  ∧ (Switch.HonControlSwitchEntity.async_turn_on MoreWorlds.copying_host
       MoreWorlds.active "startProgram" w).1 = Raise (Exn KeyError "startProgram")
  ∧ attributes
      (Switch.device
         (Switch.HonControlSwitchEntity.async_turn_on MoreWorlds.copying_host
            MoreWorlds.active "startProgram" w).2)
    = attributes MoreWorlds.idle_washer.
Proof.
  intros w description.
  assert ("startProgram" ∉ commands (Switch.device w)) as Hcmd.
  { apply not_elem_of_nil. }
  destruct (control_entity_without_command MoreWorlds.copying_host
              MoreWorlds.active "startProgram" "stopProgram" w (VBool false)
              eq_refl ltac:(discriminate) Hcmd) as (Hstep & _ & Hrun).
  split; [exact (Hstep []) |].
  destruct (Hrun eq_refl eq_refl) as (Hraise & _ & Hattrs & _).
  split; [exact Hraise | exact Hattrs].
Defined.

(** ** Exceptions that do not derive from [Exception] *)

Section PassThrough.
Import Init InitProps.
Context (const : Const) (outside : Outside) (entry : ConfigEntry).

Lemma setup_entry_create_passes h dir e :
  config_dir h = Some dir →
  (Hon_create const outside entry dir h).1 = Raise e →
  isinstance_Exception e = false →
  async_setup_entry const outside entry h
  = (Raise e,
     relog h (hass_log h
              ++ [LogRecord INFO "Setting up hOn integration for entry: %s" None])).
Proof.
  intros Hdir Hcreate Hexc. unfold async_setup_entry.
  unfold bind at 1. rewrite logger_relog.
  unfold bind at 1. simpl. rewrite Hdir.
  unfold bind at 1. unfold try_except. unfold bind at 1.
  rewrite (Hon_create_run const outside entry dir _ h), Hcreate. simpl.
  rewrite Hexc. by destruct h.
Qed.

Lemma set_updated_data_passes self h e :
  base_set_updated_data_raises outside = Some e →
  isinstance_Exception e = false →
  HonDataUpdateCoordinator.async_set_updated_data outside self h
  = (Raise e,
     relog h ((hass_log h
               ++ [LogRecord DEBUG "Coordinator %s received update data: %s" None])
              ++ [LogRecord INFO "Coordinator %s updating data for %d listeners"
                    None])).
Proof.
  intros Hbase Hexc.
  unfold HonDataUpdateCoordinator.async_set_updated_data, try_except, bind,
    HonDataUpdateCoordinator.super_async_set_updated_data, external.
  rewrite Hbase. simpl. by rewrite Hexc.
Qed.

Lemma forward_passes h e :
  forward_entry_setups_raises outside = Some e →
  isinstance_Exception e = false →
  async_forward_entry_setups_with_error_handling const outside entry h
  = (Raise e,
     relog h (hass_log h ++ [LogRecord DEBUG "Setting up platforms: %s" None])).
Proof.
  intros Hfw Hexc.
  unfold async_forward_entry_setups_with_error_handling, try_except, bind,
    async_forward_entry_setups, external.
  rewrite Hfw. simpl.
  assert (isinstance_ValueError e = false) as ->.
  { unfold isinstance_Exception, isinstance_ValueError in *.
    by destruct (exn_cls e). }
  by rewrite Hexc.
Qed.

End PassThrough.

(** X25. An exception that does not derive from [Exception] (a cancelled
    task) passes through every handler of [__init__.py] untouched: raised
    while the client is created, by the base class's coordinator update or
    by the forwarding of the platforms, it reaches the caller and no error
    record is written; the log gains only the records written before the
    call. *)
Theorem cancellation_passes_unlogged
    (const : Init.Const) (outside : Init.Outside) (entry : ConfigEntry)
    (hass : HomeAssistant) (e : exn) :
  isinstance_Exception e = false →
  (∀ dir,
     config_dir hass = Some dir →
     (Init.Hon_create const outside entry dir hass).1 = Raise e →
     Init.async_setup_entry const outside entry hass
     = (Raise e,
        InitProps.relog hass
          (hass_log hass
           ++ [LogRecord INFO "Setting up hOn integration for entry: %s" None])))
  ∧ (∀ self,
       Init.base_set_updated_data_raises outside = Some e →
       Init.HonDataUpdateCoordinator.async_set_updated_data outside self hass
       = (Raise e,
          InitProps.relog hass
            ((hass_log hass
              ++ [LogRecord DEBUG "Coordinator %s received update data: %s" None])
             ++ [LogRecord INFO "Coordinator %s updating data for %d listeners"
                   None])))
  ∧ (Init.forward_entry_setups_raises outside = Some e →
     Init.async_forward_entry_setups_with_error_handling const outside entry hass
     = (Raise e,
        InitProps.relog hass
          (hass_log hass ++ [LogRecord DEBUG "Setting up platforms: %s" None]))).
Proof.
  intros Hexc. split; [| split].
  - intros dir Hdir Hcreate. by eapply setup_entry_create_passes.
  - intros self Hbase. by apply set_updated_data_passes.
  - intros Hfw. by apply forward_passes.
Qed.

(** A config switch for the eco range refreshes; one for a missing setting
    keeps its state. *)
Lemma config_update_keeps_stale_state_witness :
  UpdateProps.refreshed Worlds.quiet_host true false Worlds.ac_world
    (Switch.HonConfigSwitchEntity._handle_coordinator_update Worlds.quiet_host
       Worlds.eco_mode true Worlds.ac_world)
  ∧ UpdateProps.only_logged Worlds.ac_world
      (Switch.HonConfigSwitchEntity._handle_coordinator_update Worlds.quiet_host
         (Switch.Description "prewash" "Prewash" None None) true Worlds.ac_world).
Proof.
  split.
  - destruct (proj1 (config_update_keeps_stale_state Worlds.quiet_host
                       Worlds.eco_mode true Worlds.ac_world)
                Worlds.eco_range eq_refl) as (on & Hon & Href).
    injection Hon as <-. exact Href.
  - exact (proj2 (config_update_keeps_stale_state Worlds.quiet_host
                    (Switch.Description "prewash" "Prewash" None None) true
                    Worlds.ac_world) eq_refl).
Defined.

(** The sample air conditioner is available; reporting [remoteCtrValid] 0
    it is not. *)
Lemma switch_available_exactly_witness :
  (Switch.HonSwitchEntity.available Worlds.quiet_host Worlds.eco_mode
     Worlds.ac_world).1 = Ok true
  ∧ (Switch.HonSwitchEntity.available Worlds.quiet_host Worlds.eco_mode
       (Worlds.world_of
          (Worlds.air_conditioner Worlds.eco_range
             {[ "remoteCtrValid" := VInt 0 ]}))).1 = Ok false.
Proof.
  split.
  - apply (proj1 (switch_available_exactly Worlds.quiet_host Worlds.eco_mode
                    Worlds.ac_world)).
    split.
    + split; [reflexivity |]. split; [intros v Hv; discriminate Hv |].
      discriminate.
    + exists Worlds.eco_range. split; [reflexivity |]. intros _. simpl. lia.
  - apply (proj2 (proj2 (switch_available_exactly Worlds.quiet_host
                           Worlds.eco_mode _))).
    intros (_ & Hrem & _).
    destruct (Hrem (VInt 0) eq_refl) as [Hone | Hone]; discriminate Hone.
Defined.

(** The connected air conditioner is available to a control switch, and
    not when the base class is unavailable. *)
Lemma control_available_exactly_witness :
  (SwitchRest.HonControlSwitchEntity.available Worlds.quiet_host
     MoreWorlds.parse_one Worlds.ac_world).1 = Ok true
  ∧ (SwitchRest.HonControlSwitchEntity.available
       (Switch.MkHost false None (λ _, None) None None
                        (λ _ _, None) (λ _ _ settings, settings))
       MoreWorlds.parse_one Worlds.ac_world).1 = Ok false.
Proof.
  split.
  - apply (proj2 (proj1 (proj2 (control_available_exactly Worlds.quiet_host
                                  MoreWorlds.parse_one Worlds.ac_world)))).
    split; [reflexivity |]. split; reflexivity.
  - exact (proj2 (proj2 (proj2 (control_available_exactly
                                  (Switch.MkHost false None (λ _, None) None None
                        (λ _ _, None) (λ _ _ settings, settings))
                                  MoreWorlds.parse_one Worlds.ac_world)))
             eq_refl).
Defined.

Lemma availability_rules_disagree_witness :
  (SwitchRest.HonControlSwitchEntity.available Worlds.quiet_host
     MoreWorlds.parse_one (Worlds.world_of MoreWorlds.flapping)).1 = Ok true
  ∧ (Switch.HonSwitchEntity.available Worlds.quiet_host Worlds.eco_mode
       (Worlds.world_of MoreWorlds.flapping)).1 = Ok false.
Proof.
  exact (availability_rules_disagree Worlds.quiet_host MoreWorlds.parse_one
           Worlds.eco_mode (Worlds.world_of MoreWorlds.flapping)
           eq_refl eq_refl eq_refl eq_refl).
Defined.

(** Unloading the sample entry: the token is stored, the client stays. *)
Lemma unload_persists_token_witness :
  (InitRest.async_unload_entry Worlds.const MoreWorlds.unloading_ok Worlds.entry
     Worlds.hass_with_client).1 = Ok true
  ∧ UnloadProps.token_persisted Worlds.const Worlds.entry "token-2"
      (InitRest.async_unload_entry Worlds.const MoreWorlds.unloading_ok
         Worlds.entry Worlds.hass_with_client).2
  ∧ hass_data (InitRest.async_unload_entry Worlds.const MoreWorlds.unloading_ok
                 Worlds.entry Worlds.hass_with_client).2
    = hass_data Worlds.hass_with_client.
Proof.
  refine (unload_persists_token_and_keeps_data Worlds.const MoreWorlds.unloading_ok
            Worlds.entry Worlds.hass_with_client
            {[ "user@example.org" := MkRuntimeData Worlds.client 0 ]}
            (MkRuntimeData Worlds.client 0) true _ eq_refl eq_refl eq_refl).
  intros h. split; reflexivity.
Defined.

Lemma unload_failures_witness :
  (∃ lg, InitRest.async_unload_entry Worlds.const MoreWorlds.unloading_ok
           Worlds.entry Samples.running_hass
         = (Raise (Exn KeyError "hon"), InitProps.relog Samples.running_hass lg))
  ∧ (InitRest.async_unload_entry Worlds.const MoreWorlds.unloading_fails
       Worlds.entry Worlds.hass_with_client).1 = Raise Worlds.refused.
Proof.
  destruct (unload_failures Worlds.const MoreWorlds.unloading_ok Worlds.entry
              Samples.running_hass) as (Hdomain & _ & _).
  destruct (unload_failures Worlds.const MoreWorlds.unloading_fails Worlds.entry
              Worlds.hass_with_client) as (_ & _ & Hlate).
  split; [exact (Hdomain eq_refl) |].
  exact (proj1 (Hlate {[ "user@example.org" := MkRuntimeData Worlds.client 0 ]}
                  (MkRuntimeData Worlds.client 0) Worlds.refused
                  eq_refl eq_refl eq_refl)).
Defined.


Lemma setup_keeps_client_when_forwarding_fails_witness :
  (Init.async_setup_entry Worlds.const Worlds.outside_forward_fails Worlds.entry
     Samples.running_hass).1 = Raise Worlds.refused
  ∧ InitProps.set_up Worlds.const Worlds.entry Worlds.client Samples.running_hass
      (Init.async_setup_entry Worlds.const Worlds.outside_forward_fails
         Worlds.entry Samples.running_hass).2.
Proof.
  exact (setup_keeps_client_when_forwarding_fails Worlds.const
           Worlds.outside_forward_fails Worlds.entry Samples.running_hass
           "/config" Worlds.client Worlds.refused
           eq_refl eq_refl eq_refl eq_refl).
Defined.

Lemma unload_after_setup_witness :
  let after := (Init.async_setup_entry Worlds.const Worlds.outside_ok
                  Worlds.entry Samples.running_hass).2 in
  (InitRest.async_unload_entry Worlds.const MoreWorlds.unloading_ok Worlds.entry
     after).1 = Ok true
  ∧ hass_data (InitRest.async_unload_entry Worlds.const MoreWorlds.unloading_ok
                 Worlds.entry after).2 = hass_data after.
Proof.
  intros after.
  assert (Init.async_setup_entry Worlds.const Worlds.outside_ok Worlds.entry
            Samples.running_hass = (Ok true, after)) as Hrun.
  { vm_compute. reflexivity. }
  destruct (unload_after_setup_keeps_runtime_data Worlds.const Worlds.outside_ok
              MoreWorlds.unloading_ok Worlds.entry Samples.running_hass after
              true true Hrun) as (Hres & Hdata & _).
  - intros h. split; reflexivity.
  - reflexivity.
  - split; [exact Hres | exact Hdata].
Defined.

Lemma forwarding_ignores_exactly_duplicates_witness :
  (Init.async_forward_entry_setups_with_error_handling Worlds.const
     Worlds.outside_duplicate Worlds.entry Samples.running_hass).1 = Ok tt
  ∧ Init.forward_entry_setups_raises Worlds.outside_forward_fails
    = Some Worlds.refused.
Proof.
  destruct (forwarding_ignores_exactly_duplicates Worlds.const
              Worlds.outside_duplicate Worlds.entry Samples.running_hass)
    as ([_ Hignored] & _ & _).
  destruct (forwarding_ignores_exactly_duplicates Worlds.const
              Worlds.outside_forward_fails Worlds.entry Samples.running_hass)
    as (_ & Hraised & _).
  split.
  - apply Hignored. right.
    exists Worlds.duplicate, "Config entry hon for hon.switch ", "!".
    split; [reflexivity |]. split; reflexivity.
  - apply Hraised. vm_compute. reflexivity.
Defined.

(** Three callbacks, then the loop running the three tasks. *)
Lemma callbacks_queue_and_loop_updates_witness :
  loop (for_each (replicate 3 (Init.make_threadsafe_callback 0)) Init.call
          Samples.running_hass).2
  = Some [TaskSetUpdatedData 0; TaskSetUpdatedData 0; TaskSetUpdatedData 0]
  ∧ coordinators
      (for_each (replicate 3 (TaskSetUpdatedData 0))
                (Init.run_task Worlds.outside_ok) Samples.running_hass).2 !! 0
    = Some (MkCoordinator "hon" 0 3).
Proof.
  destruct (callbacks_queue_and_loop_updates Worlds.outside_ok 3 0
              Samples.running_hass) as (_ & _ & Hloop & Hrun).
  split; [exact Hloop |].
  exact (proj1 (proj2 (Hrun (MkCoordinator "hon" 0 0) eq_refl eq_refl))).
Defined.

Lemma cancellation_passes_unlogged_witness :
  (Init.async_setup_entry Worlds.const MoreWorlds.outside_cancelled Worlds.entry
     Samples.running_hass).1 = Raise MoreWorlds.cancelled
  ∧ (Init.HonDataUpdateCoordinator.async_set_updated_data
       MoreWorlds.outside_cancelled 0 Samples.running_hass).1
    = Raise MoreWorlds.cancelled
  ∧ (Init.async_forward_entry_setups_with_error_handling Worlds.const
       MoreWorlds.outside_cancelled Worlds.entry Samples.running_hass).1
    = Raise MoreWorlds.cancelled.
Proof.
  destruct (cancellation_passes_unlogged Worlds.const MoreWorlds.outside_cancelled
              Worlds.entry Samples.running_hass MoreWorlds.cancelled eq_refl)
    as (Hcreate & Hupdate & Hforward).
  split; [| split].
  - by rewrite (Hcreate "/config" eq_refl eq_refl).
  - by rewrite (Hupdate 0 eq_refl).
  - by rewrite (Hforward eq_refl).
Defined.
